(** * invoice_generator.py: a shallow embedding and its verified properties

    The program is a single Python script: a configuration store
    ([load_config], [save_config]) over [config.json], and the class
    [InvoiceGenerator] whose methods prompt on the console, number the
    invoices and draw them as PDF pages.

    Modelling choices, fixed once and for all:
    - a Python [str] is a [string]; the character [c] stands for the code
      point [N_of_ascii c], so strings range over code points below 256;
    - a Python [int] is a [Z], a Python [float] is a primitive binary64
      [float] (the same IEEE 754 arithmetic as CPython's);
    - the run-time values that can sit in the configuration are the JSON
      values ([value]); a [dict] is an association list in insertion order;
    - console, clock and files are an explicit [world]; every method is a
      function from the world to the trace of events it emits and to its
      outcome (a result, or the exception that ends the program);
    - the builtins [int(str)], [float(str)] and [repr(float)] are taken as
      an interface ([PyBuiltins]): nothing proved here depends on how they
      read or print a number.

    Left out: failures of the operating system (a file that cannot be
    opened or written) and the limits of the interpreter (recursion depth,
    the length limit on the decimal text of an integer). *)

From Stdlib Require Import ZArith NArith String Ascii List Lia.
From Stdlib Require Import DecimalString DecimalN DecimalPos DecimalFacts.
From Stdlib Require Import Floats.PrimFloat Floats.SpecFloat Floats.FloatOps.
From stdpp Require Import base tactics option list gmap strings.

Open Scope Z_scope.
#[local] Set Warnings "-register-all".

(** ** Python strings over code points below 256 *)

Module PyStr.

Definition code (c : ascii) : N := N_of_ascii c.

Definition between (lo hi : N) (c : ascii) : bool :=
  ((lo <=? code c) && (code c <=? hi))%N.

(** [str.lower] on one code point: A-Z, and the Latin-1 capitals
    U+00C0..U+00DE except the multiplication sign U+00D7. *)
Definition lower_char (c : ascii) : ascii :=
  if between 65 90 c || (between 192 222 c && negb (code c =? 215)%N)
  then ascii_of_N (code c + 32) else c.

Fixpoint lower (s : string) : string :=
  match s with
  | EmptyString => EmptyString
  | String c s' => String (lower_char c) (lower s')
  end.

(** [str.isspace] on one code point: TAB..CR, FS..US, space, NEL, NBSP. *)
Definition isspace (c : ascii) : bool :=
  between 9 13 c || between 28 32 c || (code c =? 133)%N || (code c =? 160)%N.

Fixpoint lstrip (s : string) : string :=
  match s with
  | String c s' => if isspace c then lstrip s' else s
  | EmptyString => EmptyString
  end.

Fixpoint rstrip (s : string) : string :=
  match s with
  | EmptyString => EmptyString
  | String c s' =>
      match rstrip s' with
      | EmptyString => if isspace c then EmptyString else String c EmptyString
      | r => String c r
      end
  end.

Definition strip (s : string) : string := rstrip (lstrip s).

(** Truth value of a string: only the empty string is false. *)
Definition truthy (s : string) : bool :=
  match s with EmptyString => false | _ => true end.

Definition is_digit (c : ascii) : bool := between 48 57 c.

(** [str(n)] for a natural number. *)
Definition decimal (n : N) : string := NilZero.string_of_uint (N.to_uint n).

(** [str(z)] for an integer. *)
Definition int_str (z : Z) : string :=
  match z with
  | Zneg p => String "-" (decimal (Npos p))
  | _ => decimal (Z.to_N z)
  end.

Fixpoint zeros (k : nat) : string :=
  match k with
  | O => EmptyString
  | S k' => String "0" (zeros k')
  end.

Definition zfill (width : nat) (digits : string) : string :=
  zeros (width - String.length digits) +:+ digits.

(** [format(z, "04d")]: the sign counts in the width of 4. *)
Definition format_04d (z : Z) : string :=
  match z with
  | Zneg p => String "-" (zfill 3 (decimal (Npos p)))
  | _ => zfill 4 (decimal (Z.to_N z))
  end.

Definition hex_digit (n : N) : ascii :=
  if (n <? 10)%N then ascii_of_N (48 + n) else ascii_of_N (87 + n).

(** The two lowercase hexadecimal digits of a code point below 256. *)
Definition hex2 (c : ascii) : string :=
  String (hex_digit (code c / 16)) (String (hex_digit (code c mod 16)) EmptyString).

Fixpoint contains (c : ascii) (s : string) : bool :=
  match s with
  | EmptyString => false
  | String c' s' => (code c =? code c')%N || contains c s'
  end.

(** [str.isprintable] on one code point. *)
Definition printable (c : ascii) : bool :=
  between 32 126 c || (between 161 255 c && negb (code c =? 173)%N).

(** An escape sequence: a backslash (code 92) and the character [c]. *)
Definition backslash (c : ascii) : string := String "092" (String c EmptyString).

Definition repr_char (quote c : ascii) : string :=
  if (code c =? code quote)%N || (code c =? 92)%N then backslash c
  else if (code c =? 9)%N then backslash "t"
  else if (code c =? 10)%N then backslash "n"
  else if (code c =? 13)%N then backslash "r"
  else if printable c then String c EmptyString
  else backslash "x" +:+ hex2 c.

Fixpoint repr_body (quote : ascii) (s : string) : string :=
  match s with
  | EmptyString => EmptyString
  | String c s' => repr_char quote c +:+ repr_body quote s'
  end.

(** [repr(s)]: single quotes, unless the string has one and has no double
    quote (code 34). *)
Definition repr (s : string) : string :=
  let quote := if contains "'" s && negb (contains "034" s) then "034"%char else "'"%char in
  String quote (repr_body quote s +:+ String quote EmptyString).

End PyStr.

(** ** Python values and the builtins taken as an interface *)

Inductive value : Type :=
  | VNone
  | VBool (b : bool)
  | VInt (n : Z)
  | VFloat (f : float)
  | VStr (s : string)
  | VList (xs : list value)
  | VDict (kvs : list (string * value)).

(** [int(s)] and [float(s)] return [None] where Python raises [ValueError];
    [float_repr] is [repr] (and [str]) of a float. *)
Class PyBuiltins := {
  py_int : string -> option Z;
  py_float : string -> option float;
  float_repr : float -> string
}.

(** A [dict] keeps its keys in insertion order; a key is stored once. *)
Fixpoint dict_lookup (k : string) (kvs : list (string * value)) : option value :=
  match kvs with
  | [] => None
  | (k', v) :: rest => if String.eqb k k' then Some v else dict_lookup k rest
  end.

Fixpoint dict_set (k : string) (v : value) (kvs : list (string * value))
  : list (string * value) :=
  match kvs with
  | [] => [(k, v)]
  | (k', v') :: rest =>
      if String.eqb k k' then (k', v) :: rest else (k', v') :: dict_set k v rest
  end.

(** [dict(pairs)]: a later pair overwrites the value of an earlier key. *)
Definition dict_of_pairs (pairs : list (string * value)) : list (string * value) :=
  fold_left (fun d kv => dict_set (fst kv) (snd kv) d) pairs [].

Fixpoint str_join (sep : string) (parts : list string) : string :=
  match parts with
  | [] => EmptyString
  | [p] => p
  | p :: rest => p +:+ sep +:+ str_join sep rest
  end.

(** Conversion of an [int] operand to [float] in mixed arithmetic: rounded
    to nearest even, [None] where Python raises [OverflowError]. *)
Definition float_of_int (z : Z) : option float :=
  let f := SF2Prim (binary_normalize prec emax z 0 false) in
  if PrimFloat.is_infinity f then None else Some f.

Section Values.
Context `{PyBuiltins}.

(** [repr(v)]; on everything but strings it is also [str(v)]. *)
Fixpoint py_repr (v : value) : string :=
  match v with
  | VNone => "None"
  | VBool true => "True"
  | VBool false => "False"
  | VInt n => PyStr.int_str n
  | VFloat f => float_repr f
  | VStr s => PyStr.repr s
  | VList xs => "[" +:+ str_join ", " (map py_repr xs) +:+ "]"
  | VDict kvs =>
      "{" +:+ str_join ", " (map (fun kv => PyStr.repr (fst kv) +:+ ": " +:+ py_repr (snd kv)) kvs)
          +:+ "}"
  end.

(** [str(v)], which is what an f-string field without a format gives. *)
Definition py_str (v : value) : string :=
  match v with
  | VStr s => s
  | _ => py_repr v
  end.

End Values.

(** ** The [json] module: [dump] with [indent=4], and [load] *)

Module Json.

Import PyStr.

(** [encode_basestring_ascii]: everything outside U+0020..U+007E, the quote
    and the backslash are escaped. *)
Definition escape_char (c : ascii) : string :=
  if (code c =? 34)%N then backslash "034"
  else if (code c =? 92)%N then backslash "092"
  else if (code c =? 10)%N then backslash "n"
  else if (code c =? 13)%N then backslash "r"
  else if (code c =? 9)%N then backslash "t"
  else if (code c =? 8)%N then backslash "b"
  else if (code c =? 12)%N then backslash "f"
  else if between 32 126 c then String c EmptyString
  else backslash "u" +:+ "00" +:+ hex2 c.

Fixpoint escape (s : string) : string :=
  match s with
  | EmptyString => EmptyString
  | String c s' => escape_char c +:+ escape s'
  end.

Definition encode_string (s : string) : string :=
  String "034" (escape s +:+ String "034" EmptyString).

Fixpoint spaces (k : nat) : string :=
  match k with
  | O => EmptyString
  | S k' => String " " (spaces k')
  end.

Definition newline_indent (level : nat) : string :=
  String "010" (spaces (4 * level)).

Section Encoder.
Context `{PyBuiltins}.

Definition floatstr (f : float) : string :=
  if PrimFloat.is_nan f then "NaN"
  else if PrimFloat.eqb f infinity then "Infinity"
  else if PrimFloat.eqb f neg_infinity then "-Infinity"
  else float_repr f.

Fixpoint encode (level : nat) (v : value) : string :=
  match v with
  | VStr s => encode_string s
  | VNone => "null"
  | VBool true => "true"
  | VBool false => "false"
  | VInt n => int_str n
  | VFloat f => floatstr f
  | VList [] => "[]"
  | VList xs =>
      "[" +:+ newline_indent (S level)
          +:+ str_join ("," +:+ newline_indent (S level)) (map (encode (S level)) xs)
          +:+ newline_indent level +:+ "]"
  | VDict [] => "{}"
  | VDict kvs =>
      "{" +:+ newline_indent (S level)
          +:+ str_join ("," +:+ newline_indent (S level))
                (map (fun kv => encode_string (fst kv) +:+ ": " +:+ encode (S level) (snd kv)) kvs)
          +:+ newline_indent level +:+ "}"
  end.

(** The text [json.dump(v, file, indent=4)] writes. *)
Definition dumps (v : value) : string := encode 0 v.

End Encoder.

(** The decoder either returns a value and the text left, or fails the way
    [JSONDecodeError] does; an escape of a code point beyond U+00FF has no image in
    [string] and is reported apart. *)
Inductive parsed (A : Type) : Type :=
  | Parsed (a : A) (rest : string)
  | Malformed
  | NotLatin1
  | OutOfFuel.
Arguments Parsed {A} a rest.
Arguments Malformed {A}.
Arguments NotLatin1 {A}.
Arguments OutOfFuel {A}.

Definition map_parsed {A B} (f : A -> B) (p : parsed A) : parsed B :=
  match p with
  | Parsed a rest => Parsed (f a) rest
  | Malformed => Malformed
  | NotLatin1 => NotLatin1
  | OutOfFuel => OutOfFuel
  end.

Definition is_ws (c : ascii) : bool :=
  (code c =? 32)%N || (code c =? 9)%N || (code c =? 10)%N || (code c =? 13)%N.

Fixpoint skip_ws (s : string) : string :=
  match s with
  | String c s' => if is_ws c then skip_ws s' else s
  | EmptyString => EmptyString
  end.

Definition hex_val (c : ascii) : option N :=
  if between 48 57 c then Some (code c - 48)%N
  else if between 97 102 c then Some (code c - 87)%N
  else if between 65 70 c then Some (code c - 55)%N
  else None.

Definition hex4_val (a b c d : ascii) : option N :=
  match hex_val a, hex_val b, hex_val c, hex_val d with
  | Some x, Some y, Some z, Some t => Some (((x * 16 + y) * 16 + z) * 16 + t)%N
  | _, _, _, _ => None
  end.

Definition unescape (e : ascii) : option ascii :=
  if (code e =? 34)%N then Some "034"%char
  else if (code e =? 92)%N then Some "092"%char
  else if (code e =? 47)%N then Some "/"%char
  else if (code e =? 98)%N then Some "008"%char
  else if (code e =? 102)%N then Some "012"%char
  else if (code e =? 110)%N then Some "010"%char
  else if (code e =? 114)%N then Some "013"%char
  else if (code e =? 116)%N then Some "009"%char
  else None.

(** [scanstring] in strict mode, from just after the opening quote. *)
Fixpoint scanstring (s : string) : parsed string :=
  match s with
  | EmptyString => Malformed
  | String c r =>
      if (code c =? 34)%N then Parsed EmptyString r
      else if (code c =? 92)%N then
        match r with
        | EmptyString => Malformed
        | String e r' =>
            if (code e =? 117)%N then
              match r' with
              | String h1 (String h2 (String h3 (String h4 r''))) =>
                  match hex4_val h1 h2 h3 h4 with
                  | Some n =>
                      if (n <? 256)%N
                      then map_parsed (String (ascii_of_N n)) (scanstring r'')
                      else NotLatin1
                  | None => Malformed
                  end
              | _ => Malformed
              end
            else
              match unescape e with
              | Some c' => map_parsed (String c') (scanstring r')
              | None => Malformed
              end
        end
      else if (code c <? 32)%N then Malformed
      else map_parsed (String c) (scanstring r)
  end.

(** The longest prefix of decimal digits, and what follows it. *)
Fixpoint digit_span (s : string) : string * string :=
  match s with
  | String c r =>
      if is_digit c then let (d, r') := digit_span r in (String c d, r')
      else (EmptyString, s)
  | EmptyString => (EmptyString, EmptyString)
  end.

Definition digits_value (d : string) : N :=
  match NilEmpty.uint_of_string d with
  | Some u => N.of_uint u
  | None => 0%N
  end.

Fixpoint starts_with (prefix s : string) : option string :=
  match prefix, s with
  | EmptyString, _ => Some s
  | String p prefix', String c s' =>
      if (code p =? code c)%N then starts_with prefix' s' else None
  | String _ _, EmptyString => None
  end.

Section Decoder.
Context `{PyBuiltins}.

(** The number pattern of the scanner: an optional minus sign, then either
    a single 0 or a digit 1-9 followed by digits; then, optionally, a dot
    with at least one digit; then, optionally, e or E with an optional sign
    and at least one digit. An integer literal becomes an [int], one with a
    fraction or an exponent goes through [float]. [None] when the pattern
    does not match at all. *)
Definition scan_number (s : string) : option (parsed value) :=
  let (sign, s1) :=
    match s with
    | String "-" r => ("-", r)
    | _ => (EmptyString, s)
    end in
  match s1 with
  | String c r =>
      if is_digit c then
        let (int_part, s2) :=
          if (code c =? 48)%N then ("0", r) else digit_span s1 in
        let (frac, s3) :=
          match s2 with
          | String "." r2 =>
              let (fd, r3) := digit_span r2 in
              match fd with
              | EmptyString => (EmptyString, s2)
              | _ => (String "." fd, r3)
              end
          | _ => (EmptyString, s2)
          end in
        let (expo, s4) :=
          match s3 with
          | String e r3 =>
              if (code e =? 101)%N || (code e =? 69)%N then
                let (esign, r4) :=
                  match r3 with
                  | String "+" r' => ("+", r')
                  | String "-" r' => ("-", r')
                  | _ => (EmptyString, r3)
                  end in
                let (ed, r5) := digit_span r4 in
                match ed with
                | EmptyString => (EmptyString, s3)
                | _ => (String e (esign +:+ ed), r5)
                end
              else (EmptyString, s3)
          | EmptyString => (EmptyString, s3)
          end in
        match frac, expo with
        | EmptyString, EmptyString =>
            let n := Z.of_N (digits_value int_part) in
            Some (Parsed (VInt (match sign with EmptyString => n | _ => - n end)) s4)
        | _, _ =>
            match py_float (sign +:+ int_part +:+ frac +:+ expo) with
            | Some f => Some (Parsed (VFloat f) s4)
            | None => Some Malformed
            end
        end
      else None
  | EmptyString => None
  end.

(** What [scan_once] does on anything but a string, an object or an array. *)
Definition scan_atom (s : string) : parsed value :=
  match starts_with "null" s, starts_with "true" s, starts_with "false" s with
  | Some r, _, _ => Parsed VNone r
  | _, Some r, _ => Parsed (VBool true) r
  | _, _, Some r => Parsed (VBool false) r
  | None, None, None =>
      match scan_number s with
      | Some p => p
      | None =>
          match starts_with "NaN" s, starts_with "Infinity" s, starts_with "-Infinity" s with
          | Some r, _, _ => Parsed (VFloat nan) r
          | _, Some r, _ => Parsed (VFloat infinity) r
          | _, _, Some r => Parsed (VFloat neg_infinity) r
          | None, None, None => Malformed
          end
      end
  end.

(** [scan_once] with [JSONObject] and [JSONArray]: [parse_pairs] starts just
    after the opening quote of a key, [parse_elems] just after an element.
    The fuel bounds the number of nested calls. *)
Fixpoint parse_value (fuel : nat) (s : string) : parsed value :=
  match fuel with
  | O => OutOfFuel
  | S fuel' =>
      match s with
      | String "034" r => map_parsed VStr (scanstring r)
      | String "{" r =>
          match skip_ws r with
          | String "}" r1 => Parsed (VDict []) r1
          | String "034" r1 =>
              map_parsed (fun ps => VDict (dict_of_pairs ps)) (parse_pairs fuel' r1 [])
          | _ => Malformed
          end
      | String "[" r =>
          match skip_ws r with
          | String "]" r1 => Parsed (VList []) r1
          | r1 =>
              match parse_value fuel' r1 with
              | Parsed v r2 => map_parsed VList (parse_elems fuel' r2 [v])
              | Malformed => Malformed
              | NotLatin1 => NotLatin1
              | OutOfFuel => OutOfFuel
              end
          end
      | _ => scan_atom s
      end
  end
with parse_pairs (fuel : nat) (s : string) (acc : list (string * value))
  : parsed (list (string * value)) :=
  match fuel with
  | O => OutOfFuel
  | S fuel' =>
      match scanstring s with
      | Parsed key r =>
          match skip_ws r with
          | String ":" r1 =>
              match parse_value fuel' (skip_ws r1) with
              | Parsed v r2 =>
                  match skip_ws r2 with
                  | String "}" r3 => Parsed (acc ++ [(key, v)]) r3
                  | String "," r3 =>
                      match skip_ws r3 with
                      | String "034" r4 => parse_pairs fuel' r4 (acc ++ [(key, v)])
                      | _ => Malformed
                      end
                  | _ => Malformed
                  end
              | Malformed => Malformed
              | NotLatin1 => NotLatin1
              | OutOfFuel => OutOfFuel
              end
          | _ => Malformed
          end
      | Malformed => Malformed
      | NotLatin1 => NotLatin1
      | OutOfFuel => OutOfFuel
      end
  end
with parse_elems (fuel : nat) (s : string) (acc : list value) : parsed (list value) :=
  match fuel with
  | O => OutOfFuel
  | S fuel' =>
      match skip_ws s with
      | String "]" r => Parsed acc r
      | String "," r =>
          match parse_value fuel' (skip_ws r) with
          | Parsed v r1 => parse_elems fuel' r1 (acc ++ [v])
          | Malformed => Malformed
          | NotLatin1 => NotLatin1
          | OutOfFuel => OutOfFuel
          end
      | _ => Malformed
      end
  end.

(** [json.loads]: one value between optional white space, nothing after. *)
Definition loads (text : string) : parsed value :=
  match parse_value (S (String.length text)) (skip_ws text) with
  | Parsed v rest =>
      match skip_ws rest with
      | EmptyString => Parsed v EmptyString
      | _ => Malformed
      end
  | p => p
  end.

End Decoder.

End Json.

(** ** The world: console, clock and files *)

(** A page is the list of [drawString(x, y, text)] calls made on it. *)
Definition pdf : Type := list (Z * Z * string).

Inductive file : Type :=
  | TextFile (text : string)
  | PdfFile (page : pdf).

Record world : Type := {
  stdin : list string;           (* the lines still to be typed *)
  files : gmap string file;      (* the working directory *)
  today : string                 (* the current date as YYYY-MM-DD *)
}.

Inductive event : Type :=
  | Out (text : string)                  (* text written to the console *)
  | Input (prompt line : string)         (* [input(prompt)] that read [line] *)
  | WriteFile (name : string) (f : file).

Inductive exn : Type :=
  | EOFError | ValueError | TypeError | AttributeError | OverflowError
  | JSONDecodeError | UnicodeDecodeError.

(** Why a run leaves the modelled fragment. *)
Inductive limit : Type := NonLatin1Escape | FuelExhausted.

Inductive outcome (A : Type) : Type :=
  | Ret (a : A) (w : world)
  | Raise (e : exn) (w : world)       (* unhandled: the program terminates *)
  | Unmodelled (l : limit) (w : world).
Arguments Ret {A} a w.
Arguments Raise {A} e w.
Arguments Unmodelled {A} l w.

Definition M (A : Type) : Type := world -> list event * outcome A.

Definition ret {A} (a : A) : M A := fun w => ([], Ret a w).

Definition raise {A} (e : exn) : M A := fun w => ([], Raise e w).

Definition bind {A B} (m : M A) (k : A -> M B) : M B :=
  fun w =>
    match m w with
    | (t1, Ret a w1) => let (t2, o) := k a w1 in (t1 ++ t2, o)
    | (t1, Raise e w1) => (t1, Raise e w1)
    | (t1, Unmodelled l w1) => (t1, Unmodelled l w1)
    end.

#[global] Instance M_ret : MRet M := @ret.
#[global] Instance M_bind : MBind M := fun A B k m => bind m k.

Definition world_of {A} (o : outcome A) : world :=
  match o with
  | Ret _ w | Raise _ w | Unmodelled _ w => w
  end.

Definition nl : string := String "010" EmptyString.

Definition print (s : string) : M unit :=
  fun w => ([Out (s +:+ nl)], Ret tt w).

(** [input(prompt)]: the prompt is written, then a line is read; at the end
    of the input only the prompt is written and [EOFError] is raised. *)
Definition input (prompt : string) : M string :=
  fun w =>
    match stdin w with
    | [] => ([Out prompt], Raise EOFError w)
    | line :: rest =>
        ([Input prompt line],
         Ret line {| stdin := rest; files := files w; today := today w |})
    end.

Definition write_file (name : string) (f : file) : M unit :=
  fun w =>
    ([WriteFile name f],
     Ret tt {| stdin := stdin w; files := <[name := f]> (files w); today := today w |}).

(** [datetime.now().strftime("%Y-%m-%d")] *)
Definition now_date : M string := fun w => ([], Ret (today w) w).

Definition or_raise {A} (e : exn) (o : option A) : M A :=
  match o with
  | Some a => ret a
  | None => raise e
  end.

(** A loop that reads at least one line per turn makes at most as many
    turns as there are lines left, plus the one that meets the end of the
    input. *)
Definition bounded_by_input {A} (loop : nat -> M A) : M A :=
  fun w => loop (S (length (stdin w))) w.

(** ** The program *)

Section Program.
Context `{PyBuiltins}.

Definition CONFIG_FILE : string := "config.json".

(** The prompts of [generate_invoice] and of the script, named so that
    statements about a run can refer to them. *)
Definition NUMBER_PROMPT : string := "Enter Invoice Number (Press Enter to auto-generate): ".
Definition DESCRIPTION_PROMPT : string := "Enter Item Description (or type 'done' to finish): ".
Definition QUANTITY_PROMPT : string := "Enter Quantity: ".
Definition PRICE_PROMPT : string := "Enter Price per Unit: ".
Definition CONFIRM_PROMPT : string := "Confirm and generate invoice? (yes/no): ".
Definition AGAIN_PROMPT : string := "Do you want to generate another invoice? (yes/no): ".

Definition load_config : M value :=
  fun w =>
    match files w !! CONFIG_FILE with
    | Some (TextFile text) =>
        match Json.loads text with
        | Json.Parsed v _ => ([], Ret v w)
        | Json.Malformed => ([], Raise JSONDecodeError w)
        | Json.NotLatin1 => ([], Unmodelled NonLatin1Escape w)
        | Json.OutOfFuel => ([], Unmodelled FuelExhausted w)
        end
    | Some (PdfFile _) => ([], Raise UnicodeDecodeError w)
    | None => ([], Ret (VDict []) w)
    end.

Definition save_config (config : value) : M unit :=
  write_file CONFIG_FILE (TextFile (Json.dumps config)).

Record InvoiceGenerator : Type := {
  company_name : value;
  company_address : value;
  invoice_prefix : value;
  config : value;
  last_invoice_number : value
}.

(** [arg or alt] for an argument that is a [str] or [None]: [alt] is
    evaluated only when the argument is [None] or the empty string. *)
Definition or_else (arg : option string) (alt : M value) : M value :=
  match arg with
  | Some s => if PyStr.truthy s then ret (VStr s) else alt
  | None => alt
  end.

(** [d.get(key, default)]; only a [dict] has the method. *)
Definition py_get (d : value) (key : string) (default : value) : M value :=
  match d with
  | VDict kvs =>
      ret (match dict_lookup key kvs with Some v => v | None => default end)
  | _ => raise AttributeError
  end.

Definition __init__ (name address prefix : option string) : M InvoiceGenerator :=
  cfg ← load_config;
  name' ← or_else name (py_get cfg "company_name" (VStr "Default Company"));
  address' ← or_else address (py_get cfg "company_address" (VStr "Default Address"));
  prefix' ← or_else prefix (py_get cfg "invoice_prefix" (VStr "INV"));
  last ← py_get cfg "last_invoice_number" (VInt 0);
  ret {| company_name := name'; company_address := address';
         invoice_prefix := prefix'; config := cfg; last_invoice_number := last |}.

(** [v += 1] *)
Definition add_one (v : value) : M value :=
  match v with
  | VInt n => ret (VInt (n + 1))
  | VBool b => ret (VInt (Z.b2z b + 1))
  | VFloat f => ret (VFloat (PrimFloat.add f 1))
  | _ => raise TypeError
  end.

(** The field [{v:04d}] of an f-string. *)
Definition format_field_04d (v : value) : M string :=
  match v with
  | VInt n => ret (PyStr.format_04d n)
  | VBool b => ret (PyStr.format_04d (Z.b2z b))
  | VFloat _ | VStr _ => raise ValueError
  | _ => raise TypeError
  end.

Definition config_record (self : InvoiceGenerator) : value :=
  VDict [("company_name", company_name self);
         ("company_address", company_address self);
         ("invoice_prefix", invoice_prefix self);
         ("last_invoice_number", last_invoice_number self)].

Definition get_next_invoice_number (self : InvoiceGenerator)
  : M (InvoiceGenerator * string) :=
  n ← add_one (last_invoice_number self);
  let self := {| company_name := company_name self;
                 company_address := company_address self;
                 invoice_prefix := invoice_prefix self;
                 config := config self;
                 last_invoice_number := n |} in
  save_config (config_record self) ;;
  digits ← format_field_04d n;
  ret (self, py_str (invoice_prefix self) +:+ digits).

Record item : Type := { desc : string; qty : Z; price : float }.

(** [qty * price], an [int] times a [float]. *)
Definition line_total (it : item) : M float :=
  q ← or_raise OverflowError (float_of_int (qty it));
  ret (PrimFloat.mul q (price it)).

(** [total += x] for a [float] [x]. *)
Definition add_float (total : value) (x : float) : M value :=
  match total with
  | VInt n => t ← or_raise OverflowError (float_of_int n); ret (VFloat (PrimFloat.add t x))
  | VBool b => ret (VFloat (PrimFloat.add (if b then 1 else 0) x))
  | VFloat t => ret (VFloat (PrimFloat.add t x))
  | _ => raise TypeError
  end.

(** The [while True] loop that collects the items; every turn reads at
    least one line, so the fuel is bounded by the lines left. *)
Fixpoint collect_items (fuel : nat) (items : list item) : M (list item) :=
  match fuel with
  | O => fun w => ([], Unmodelled FuelExhausted w)
  | S fuel' =>
      d ← input DESCRIPTION_PROMPT;
      if String.eqb (PyStr.lower d) "done" then ret items
      else
        q ← input QUANTITY_PROMPT;
        q' ← or_raise ValueError (py_int q);
        p ← input PRICE_PROMPT;
        p' ← or_raise ValueError (py_float p);
        collect_items fuel' (items ++ [{| desc := d; qty := q'; price := p' |}])
  end.

(** The [for] loop of the summary: prints a line per item and accumulates
    the total. *)
Fixpoint summarize (items : list item) (total : value) : M value :=
  match items with
  | [] => ret total
  | it :: rest =>
      lt ← line_total it;
      total' ← add_float total lt;
      print (" - " +:+ desc it +:+ ": " +:+ PyStr.int_str (qty it) +:+ " x "
               +:+ float_repr (price it) +:+ " = " +:+ float_repr lt) ;;
      summarize rest total'
  end.

Fixpoint draw_items (items : list item) (y_position : Z) (page : pdf) : M (Z * pdf) :=
  match items with
  | [] => ret (y_position, page)
  | it :: rest =>
      lt ← line_total it;
      draw_items rest (y_position - 15)
        (page ++ [(100, y_position,
                   desc it +:+ ": " +:+ PyStr.int_str (qty it) +:+ " x "
                     +:+ float_repr (price it) +:+ " = " +:+ float_repr lt)])
  end.

Definition create_pdf (self : InvoiceGenerator)
    (invoice_number customer_name customer_address invoice_date : string)
    (items : list item) (total : value) : M unit :=
  let pdf_filename := "Invoice_" +:+ invoice_number +:+ ".pdf" in
  let page :=
    [(100, 800, py_str (company_name self));
     (100, 785, py_str (company_address self));
     (100, 760, "Invoice Number: " +:+ invoice_number);
     (100, 745, "Date: " +:+ invoice_date);
     (100, 730, "Customer: " +:+ customer_name);
     (100, 715, "Address: " +:+ customer_address)] in
  '(y_position, page) ← draw_items items 690 page;
  write_file pdf_filename
    (PdfFile (page ++ [(100, y_position - 20, "Total Amount: " +:+ py_str total)])).

Definition generate_invoice (self : InvoiceGenerator) : M InvoiceGenerator :=
  typed ← input NUMBER_PROMPT;
  '(self, invoice_number) ←
      (if PyStr.truthy typed then ret (self, typed) else get_next_invoice_number self);
  customer_name ← input "Enter Customer Name: ";
  customer_address ← input "Enter Customer Address: ";
  date ← input "Enter Invoice Date (YYYY-MM-DD) [Press Enter for today]: ";
  invoice_date ← (if PyStr.truthy date then ret date else now_date);
  items ← bounded_by_input (fun fuel => collect_items fuel []);
  print (nl +:+ "Invoice Summary:") ;;
  print ("Invoice Number: " +:+ invoice_number) ;;
  print ("Customer: " +:+ customer_name +:+ ", " +:+ customer_address) ;;
  print ("Date: " +:+ invoice_date) ;;
  print "Items:" ;;
  total ← summarize items (VInt 0);
  print ("Total Amount: " +:+ py_str total) ;;
  confirm ← input CONFIRM_PROMPT;
  if String.eqb (PyStr.lower (PyStr.strip confirm)) "yes" then
    create_pdf self invoice_number customer_name customer_address invoice_date items total ;;
    print ("Invoice " +:+ invoice_number +:+ " generated successfully!") ;;
    ret self
  else
    print "Invoice creation cancelled." ;;
    ret self.

(** The loop of the script; every turn reads at least one line. *)
Fixpoint main_loop (fuel : nat) (invoice_gen : InvoiceGenerator) : M unit :=
  match fuel with
  | O => fun w => ([], Unmodelled FuelExhausted w)
  | S fuel' =>
      invoice_gen' ← generate_invoice invoice_gen;
      choice ← input AGAIN_PROMPT;
      if String.eqb (PyStr.lower (PyStr.strip choice)) "yes"
      then main_loop fuel' invoice_gen'
      else print "Exiting Invoice Generator. Goodbye!"
  end.

(** The script, given the three optional command-line values. *)
Definition main (name address prefix : option string) : M unit :=
  invoice_gen ← __init__ name address prefix;
  bounded_by_input (fun fuel => main_loop fuel invoice_gen).

End Program.

(** * Vocabulary of the statements *)

(** ** The layout of a saved configuration *)

(** The values of a flat configuration: what [json] writes and reads back
    without going through [float]. *)
Definition simple (v : value) : Prop :=
  match v with
  | VNone | VBool _ | VInt _ | VStr _ => True
  | _ => False
  end.

(** The characters that follow a value inside an object laid out by
    [Json.dumps]: a comma, or the line feed before the closing brace. *)
Definition closes (t : ascii) : Prop := t = ","%char \/ t = "010"%char.

Section Layout.
Context `{PyBuiltins}.

(** One member of a top-level object as [Json.dumps] writes it. *)
Definition member_text (kv : string * value) : string :=
  Json.encode_string (fst kv) +:+ ": " +:+ Json.encode 1 (snd kv).

(** The members of a top-level object from just after the opening quote of
    the key [k] down to the closing brace, followed by [rest]. *)
Fixpoint members_text (k : string) (v : value) (more : list (string * value))
    (rest : string) : string :=
  Json.escape k +:+ String "034" (String ":" (String " " (Json.encode 1 v +:+
    match more with
    | [] => String "010" (String "}" rest)
    | (k', v') :: more' =>
        String "," (Json.newline_indent 1 +:+ String "034" (members_text k' v' more' rest))
    end))).

End Layout.

(** ** Traces *)

(** The world with [lines] left to read. *)
Definition after_lines (lines : list string) (w : world) : world :=
  {| stdin := lines; files := files w; today := today w |}.

(** The world after the events of a trace: a line read leaves the input, a
    file written enters the directory. *)
Definition apply_event (w : world) (e : event) : world :=
  match e with
  | Out _ => w
  | Input _ _ => {| stdin := tail (stdin w); files := files w; today := today w |}
  | WriteFile name f =>
      {| stdin := stdin w; files := <[name := f]> (files w); today := today w |}
  end.

Definition replay (tr : list event) (w : world) : world := fold_left apply_event tr w.

(** [m] emits only events that satisfy [P], and leaves the world its trace
    describes. *)
Definition obeys {A} (P : event -> Prop) (m : M A) : Prop :=
  forall w, Forall P (fst (m w)) /\ world_of (snd (m w)) = replay (fst (m w)) w.

(** Every result of [m] satisfies [Q]. *)
Definition returns {A} (Q : A -> Prop) (m : M A) : Prop :=
  forall w a w', snd (m w) = Ret a w' -> Q a.

(** [m] never leaves the modelled fragment: it returns or raises. *)
Definition modelled {A} (m : M A) : Prop :=
  forall w l w', snd (m w) <> Unmodelled l w'.

(** An event that is not a write to the file [name]. *)
Definition spares (name : string) (e : event) : Prop :=
  match e with
  | WriteFile name' _ => name' <> name
  | _ => True
  end.

Definition writes_pdf (e : event) : Prop :=
  match e with
  | WriteFile _ (PdfFile _) => True
  | _ => False
  end.

(** The line typed at the first [input] that showed [prompt]. *)
Fixpoint answered (prompt : string) (tr : list event) : option string :=
  match tr with
  | [] => None
  | Input p line :: rest => if String.eqb p prompt then Some line else answered prompt rest
  | _ :: rest => answered prompt rest
  end.

(** The texts written to [config.json] along a trace, in order. *)
Fixpoint config_writes (tr : list event) : list string :=
  match tr with
  | [] => []
  | WriteFile name (TextFile text) :: rest =>
      if String.eqb name CONFIG_FILE then text :: config_writes rest else config_writes rest
  | _ :: rest => config_writes rest
  end.

(** The number of invoice numbers that were auto-generated along a trace:
    the times the number prompt was answered with an empty line. *)
Fixpoint autogenerated (tr : list event) : nat :=
  match tr with
  | [] => O
  | Input p line :: rest =>
      if String.eqb p NUMBER_PROMPT && negb (PyStr.truthy line)
      then S (autogenerated rest) else autogenerated rest
  | _ :: rest => autogenerated rest
  end.

(** The files a cycle can write: [config.json] as text, or a PDF. *)
Definition cycle_event (e : event) : Prop :=
  match e with
  | WriteFile name (TextFile _) => name = CONFIG_FILE
  | _ => True
  end.

(** The events of a cycle after its invoice number is settled: no write to
    [config.json], and the number prompt is not shown again. *)
Definition body_event (e : event) : Prop :=
  match e with
  | Out _ => True
  | Input p _ => p <> NUMBER_PROMPT
  | WriteFile name _ => name <> CONFIG_FILE
  end.

(** The events before the confirmation is read: neither that prompt
    answered nor a PDF written. *)
Definition before_confirmation (e : event) : Prop :=
  match e with
  | Out _ => True
  | Input p _ => p <> CONFIRM_PROMPT
  | WriteFile _ (TextFile _) => True
  | WriteFile _ (PdfFile _) => False
  end.

(** A computation that, when the confirmation it asks for is anything but
    yes, writes no PDF and returns. *)
Definition cancel_safe (m : M InvoiceGenerator) : Prop :=
  forall w c,
    answered CONFIRM_PROMPT (fst (m w)) = Some c ->
    PyStr.lower (PyStr.strip c) <> "yes" ->
    Forall (fun e => ~ writes_pdf e) (fst (m w))
    /\ exists self' w', snd (m w) = Ret self' w'.

(** ** The program in the words of the specification *)

(** An item description that is not the sentinel of the item loop. *)
Definition not_done (it : item) : Prop := PyStr.lower (desc it) <> "done".

Section Statements.
Context `{PyBuiltins}.

(** The four-field configuration with the documented types. *)
Definition typed_config (name address prefix : string) (n : Z) : value :=
  VDict [("company_name", VStr name); ("company_address", VStr address);
         ("invoice_prefix", VStr prefix); ("last_invoice_number", VInt n)].

(** The precedence the specification words for one field: the override
    when one is given, else the stored value when the key is present, else
    the built-in default. *)
Definition spec_resolve (override : option string) (stored : option value)
    (default : string) : value :=
  match override, stored with
  | Some s, _ => VStr s
  | None, Some v => v
  | None, None => VStr default
  end.

(** The claim that every session starts with its three company fields
    resolved by that precedence. *)
Definition precedence_claim : Prop :=
  forall (name address prefix : option string) (w w' : world) (tr : list event)
         (self : InvoiceGenerator) (kvs : list (string * value)),
    __init__ name address prefix w = (tr, Ret self w') ->
    config self = VDict kvs ->
    company_name self = spec_resolve name (dict_lookup "company_name" kvs) "Default Company"
    /\ company_address self
       = spec_resolve address (dict_lookup "company_address" kvs) "Default Address"
    /\ invoice_prefix self = spec_resolve prefix (dict_lookup "invoice_prefix" kvs) "INV".

(** The precedence of the code: an override counts only when it is not the
    empty string. *)
Definition resolve (override : option string) (stored : option value)
    (default : string) : value :=
  match override with
  | Some (String c s) => VStr (String c s)
  | _ =>
      match stored with
      | Some v => v
      | None => VStr default
      end
  end.

(** The total in the words of the specification: the sum of
    [qty * price] over the items in entry order, starting from the integer
    0; [None] where a quantity is too large to be multiplied by a float. *)
Definition product (it : item) : option float :=
  match float_of_int (qty it) with
  | Some q => Some (PrimFloat.mul q (price it))
  | None => None
  end.

Fixpoint products (items : list item) : option (list float) :=
  match items with
  | [] => Some []
  | it :: rest =>
      match product it, products rest with
      | Some x, Some xs => Some (x :: xs)
      | _, _ => None
      end
  end.

Definition sum_in_order (xs : list float) : value :=
  match xs with
  | [] => VInt 0
  | _ => VFloat (fold_left PrimFloat.add xs 0%float)
  end.

(** What is typed for one item (description, quantity, price), the lines it
    makes, and the item read from it when the description is not the
    sentinel and both numbers parse. *)
Definition entry_lines (entries : list (string * string * string)) : list string :=
  flat_map (fun '(d, q, p) => [d; q; p]) entries.

Definition read_entry (e : string * string * string) : option item :=
  let '(d, q, p) := e in
  if String.eqb (PyStr.lower d) "done" then None
  else
    match py_int q, py_float p with
    | Some n, Some x => Some {| desc := d; qty := n; price := x |}
    | _, _ => None
    end.

Fixpoint read_entries (entries : list (string * string * string)) : option (list item) :=
  match entries with
  | [] => Some []
  | e :: rest =>
      match read_entry e, read_entries rest with
      | Some it, Some its => Some (it :: its)
      | _, _ => None
      end
  end.

(** The end of [generate_invoice], from the confirmation prompt on. *)
Definition confirmation (self : InvoiceGenerator)
    (invoice_number customer_name customer_address invoice_date : string)
    (items : list item) (total : value) : M InvoiceGenerator :=
  confirm ← input CONFIRM_PROMPT;
  if String.eqb (PyStr.lower (PyStr.strip confirm)) "yes" then
    create_pdf self invoice_number customer_name customer_address invoice_date items total;;
    print ("Invoice " +:+ invoice_number +:+ " generated successfully!");;
    ret self
  else
    print "Invoice creation cancelled.";;
    ret self.

(** [generate_invoice] once the invoice number is known. *)
Definition invoice_body (self : InvoiceGenerator) (invoice_number : string)
  : M InvoiceGenerator :=
  customer_name ← input "Enter Customer Name: ";
  customer_address ← input "Enter Customer Address: ";
  date ← input "Enter Invoice Date (YYYY-MM-DD) [Press Enter for today]: ";
  invoice_date ← (if PyStr.truthy date then ret date else now_date);
  items ← bounded_by_input (fun fuel => collect_items fuel []);
  print (nl +:+ "Invoice Summary:");;
  print ("Invoice Number: " +:+ invoice_number);;
  print ("Customer: " +:+ customer_name +:+ ", " +:+ customer_address);;
  print ("Date: " +:+ invoice_date);;
  print "Items:";;
  total ← summarize items (VInt 0);
  print ("Total Amount: " +:+ py_str total);;
  confirmation self invoice_number customer_name customer_address invoice_date items total.

(** The session with its counter set to [m], and the text its four fields
    are saved as. *)
Definition with_counter (self : InvoiceGenerator) (m : Z) : InvoiceGenerator :=
  {| company_name := company_name self;
     company_address := company_address self;
     invoice_prefix := invoice_prefix self;
     config := config self;
     last_invoice_number := VInt m |}.

Definition persisted (self : InvoiceGenerator) (m : Z) : string :=
  Json.dumps (config_record (with_counter self m)).

(** What a session reads from the mapping [load_config] returned. *)
Definition stored_counter (kvs : list (string * value)) : value :=
  match dict_lookup "last_invoice_number" kvs with
  | Some v => v
  | None => VInt 0
  end.

(** The counter a session would start from, given the text of
    [config.json] or the directory: what [__init__] reads through
    [load_config]. *)
Definition counter_of_text (text : string) : option value :=
  match Json.loads text with
  | Json.Parsed (VDict kvs) _ => Some (stored_counter kvs)
  | _ => None
  end.

Definition counter_in (w : world) : option value :=
  match files w !! CONFIG_FILE with
  | Some (TextFile text) => counter_of_text text
  | Some (PdfFile _) => None
  | None => Some (VInt 0)
  end.

(** A directory from which a run starts with counter [n]: [config.json] is
    absent, or holds a flat object whose counter, if any, is an integer. *)
Definition starts_from (w : world) (n : Z) : Prop :=
  exists kvs,
    load_config w = ([], Ret (VDict kvs) w)
    /\ Forall (fun kv => simple (snd kv)) kvs
    /\ stored_counter kvs = VInt n.

(** The writes of a trace number on from [n]: the k-th text written to
    [config.json] is the configuration of [self] with counter [n + k], one
    write per auto-generated number; and the file ends up as the last of
    them, or as it was in [w]. *)
Definition counts_from {A} (self : InvoiceGenerator) (n : Z) (w : world)
    (r : list event * outcome A) : Prop :=
  config_writes (fst r)
  = map (fun i => persisted self (n + Z.of_nat i)) (seq 1 (autogenerated (fst r)))
  /\ files (world_of (snd r)) !! CONFIG_FILE
     = match autogenerated (fst r) with
       | O => files w !! CONFIG_FILE
       | S _ => Some (TextFile (persisted self (n + Z.of_nat (autogenerated (fst r)))))
       end.

End Statements.

(** ** Concrete inputs *)

(** A minimal instance of the builtins, for closed examples: [int] reads
    plain decimal digits, [float] reads what [int] reads, and every float
    prints as a fixed mark. *)
Definition plain_int (s : string) : option Z :=
  match s with
  | EmptyString => None
  | _ =>
      match NilEmpty.uint_of_string s with
      | Some u => Some (Z.of_N (N.of_uint u))
      | None => None
      end
  end.

#[global] Instance plain_builtins : PyBuiltins := {|
  py_int := plain_int;
  py_float := fun s =>
    match plain_int s with
    | Some z => float_of_int z
    | None => None
    end;
  float_repr := fun _ => "<float>"
|}.

Definition empty_world (lines : list string) : world :=
  {| stdin := lines; files := ∅; today := "2026-01-31" |}.

(** A directory whose [config.json] was written by an earlier run. *)
Definition stored_world (lines : list string) : world :=
  {| stdin := lines;
     files := {[ CONFIG_FILE :=
       TextFile (Json.dumps (typed_config "Stored Co" "1 Stored Street" "ST" 41)) ]};
     today := "2026-01-31" |}.

(** The session of a first run without overrides. *)
Definition fresh_session : InvoiceGenerator :=
  {| company_name := VStr "Default Company";
     company_address := VStr "Default Address";
     invoice_prefix := VStr "INV";
     config := VDict [];
     last_invoice_number := VInt 0 |}.

(** What is typed for an invoice that is numbered by the program, has one
    item, and is cancelled at the confirmation; then the script is left. *)
Definition cancelled_session : list string :=
  [""; "Bob"; "1 Main Street"; ""; "widget"; "2"; "10"; "done"; "no"; "no"].


(** ** The page of an invoice and the files of the program *)

Section Page.
Context `{PyBuiltins}.

(** The text of one item as the summary and the page both format it, given
    the line total [x]. *)
Definition item_line (it : item) (x : float) : string :=
  desc it +:+ ": " +:+ PyStr.int_str (qty it) +:+ " x "
    +:+ float_repr (price it) +:+ " = " +:+ float_repr x.

(** The six strings at the top of the page. *)
Definition header_rows (self : InvoiceGenerator)
    (invoice_number customer_name customer_address invoice_date : string) : pdf :=
  [(100, 800, py_str (company_name self));
   (100, 785, py_str (company_address self));
   (100, 760, "Invoice Number: " +:+ invoice_number);
   (100, 745, "Date: " +:+ invoice_date);
   (100, 730, "Customer: " +:+ customer_name);
   (100, 715, "Address: " +:+ customer_address)].

(** The rows of the items with line totals [xs]: the k-th, counted from 0,
    is 15 units below the one before, starting at 690. *)
Definition item_rows (items : list item) (xs : list float) : pdf :=
  imap (fun k '(it, x) => (100, 690 - 15 * Z.of_nat k, item_line it x)) (zip items xs).

(** The row of the total below [n] items. *)
Definition total_row (n : nat) (total : value) : Z * Z * string :=
  (100, 670 - 15 * Z.of_nat n, "Total Amount: " +:+ py_str total).

Definition invoice_page (self : InvoiceGenerator)
    (invoice_number customer_name customer_address invoice_date : string)
    (items : list item) (xs : list float) (total : value) : pdf :=
  header_rows self invoice_number customer_name customer_address invoice_date
    ++ item_rows items xs ++ [total_row (length items) total].

(** The name of the file [create_pdf] writes. *)
Definition pdf_name (invoice_number : string) : string :=
  "Invoice_" +:+ invoice_number +:+ ".pdf".

(** The date of an invoice: what was typed, or today's when that is blank. *)
Definition date_or_today (typed : string) (w : world) : string :=
  if PyStr.truthy typed then typed else today w.

End Page.

(** What [print(s)] writes to the console. *)
Definition printed (s : string) : event := Out (s +:+ nl).

(** The events of typing the items [entries]: three prompts each. *)
Definition entry_events (entries : list (string * string * string)) : list event :=
  flat_map (fun '(d, q, p) =>
              [Input DESCRIPTION_PROMPT d; Input QUANTITY_PROMPT q; Input PRICE_PROMPT p])
    entries.

Section Summary.
Context `{PyBuiltins}.

(** What the summary of an invoice shows, line by line. *)
Definition summary_events (invoice_number customer_name customer_address invoice_date : string)
    (items : list item) (xs : list float) : list event :=
  [printed (nl +:+ "Invoice Summary:");
   printed ("Invoice Number: " +:+ invoice_number);
   printed ("Customer: " +:+ customer_name +:+ ", " +:+ customer_address);
   printed ("Date: " +:+ invoice_date);
   printed "Items:"]
  ++ map (fun '(it, x) => printed (" - " +:+ item_line it x)) (zip items xs)
  ++ [printed ("Total Amount: " +:+ py_str (sum_in_order xs))].

(** What the end of a cycle does after the confirmation [confirm]: the
    page and the success message on a yes, the cancellation message
    otherwise. *)
Definition closing (self : InvoiceGenerator)
    (invoice_number customer_name customer_address invoice_date : string)
    (items : list item) (xs : list float) (confirm : string) : list event :=
  if String.eqb (PyStr.lower (PyStr.strip confirm)) "yes"
  then [WriteFile (pdf_name invoice_number)
          (PdfFile (invoice_page self invoice_number customer_name customer_address
                      invoice_date items xs (sum_in_order xs)));
        printed ("Invoice " +:+ invoice_number +:+ " generated successfully!")]
  else [printed "Invoice creation cancelled."].

End Summary.


(** A stored counter that [+= 1] rejects. *)
Definition not_a_number (v : value) : Prop :=
  match v with
  | VNone | VStr _ | VList _ | VDict _ => True
  | _ => False
  end.

(** A value that is not a mapping. *)
Definition not_a_dict (v : value) : Prop :=
  match v with
  | VDict _ => False
  | _ => True
  end.

(** The message the script ends with. *)
Definition GOODBYE : string := "Exiting Invoice Generator. Goodbye!".

(** One item, two widgets at 10 each, and what is typed for an invoice
    that holds it and is confirmed, with a typed and with a generated
    number; then the script is left. The sentinel and the confirmation are
    typed with capitals, the confirmation with blanks around it. *)
Definition widget : item := {| desc := "widget"; qty := 2; price := 10 |}.

Definition typed_session : list string :=
  ["X1"; "Bob"; "1 Main Street"; ""; "widget"; "2"; "10"; "Done"; " YES "; "no"].


(** The page of the widget invoice of a session, under the number given. *)
Definition widget_page (self : InvoiceGenerator) (number : string) : pdf :=
  invoice_page self number "Bob" "1 Main Street" "2026-01-31" [widget] [20%float]
    (VFloat 20).

(** A directory whose [config.json] holds the text given. *)
Definition config_world (text : string) (lines : list string) : world :=
  {| stdin := lines; files := {[ CONFIG_FILE := TextFile text ]}; today := "2026-01-31" |}.

(** A session with the stored counter given. *)
Definition session_counting (v : value) : InvoiceGenerator :=
  {| company_name := VStr "A Co";
     company_address := VStr "1 A Street";
     invoice_prefix := VStr "A";
     config := VDict [];
     last_invoice_number := v |}.
(** * Proofs *)

Import PyStr Json.

(** ** The [json] module reads back what it wrote *)

#[local] Arguments String.append : simpl nomatch.
#[local] Arguments parse_value : simpl never.
#[local] Arguments parse_pairs : simpl never.
#[local] Arguments parse_elems : simpl never.

Lemma append_assoc (a b c : string) : (a +:+ b) +:+ c = a +:+ (b +:+ c).
Proof. induction a as [|x a IH]; simpl; [done | by rewrite IH]. Qed.

Lemma scanstring_escape_char (c : ascii) (tail : string) :
  scanstring (escape_char c +:+ tail) = map_parsed (String c) (scanstring tail).
Proof. destruct c as [[] [] [] [] [] [] [] []]; reflexivity. Qed.

Lemma scanstring_escape (s rest : string) :
  scanstring (escape s +:+ String "034" rest) = Parsed s rest.
Proof.
  induction s as [|c s IH]; simpl; [done |].
  by rewrite append_assoc, scanstring_escape_char, IH.
Qed.

Lemma digit_span_uint (d : Decimal.uint) (t : ascii) (r : string) :
  closes t ->
  digit_span (NilEmpty.string_of_uint d +:+ String t r)
  = (NilEmpty.string_of_uint d, String t r).
Proof. intros [-> | ->]; (induction d; simpl; [done | by rewrite IHd..]). Qed.

Lemma nzhead_not_D0 (d d' : Decimal.uint) : Decimal.nzhead d <> Decimal.D0 d'.
Proof. induction d; simpl; congruence. Qed.

Lemma to_uint_unorm (p : positive) : Decimal.unorm (Pos.to_uint p) = Pos.to_uint p.
Proof.
  rewrite <- (DecimalPos.Unsigned.to_of (Pos.to_uint p)).
  by rewrite DecimalPos.Unsigned.of_to.
Qed.

Lemma to_uint_not_D0 (p : positive) (d : Decimal.uint) : Pos.to_uint p <> Decimal.D0 d.
Proof.
  intros E. pose proof (to_uint_unorm p) as Hn.
  pose proof (DecimalPos.Unsigned.to_uint_nonzero p) as Hz.
  rewrite E in Hn, Hz. unfold Decimal.unorm in Hn. simpl in Hn.
  destruct (Decimal.nzhead d) eqn:Hh;
    by apply (nzhead_not_D0 d d); congruence.
Qed.

Lemma digits_value_decimal (n : N) : digits_value (decimal n) = n.
Proof.
  unfold digits_value, decimal, NilZero.string_of_uint.
  destruct (N.to_uint n) eqn:E;
    [ by destruct n; [| destruct (DecimalPos.Unsigned.to_uint_nonnil _ E)] | ..];
    rewrite NilEmpty.usu, <- E; apply DecimalN.Unsigned.of_to.
Qed.


Lemma length_append (a b : string) :
  String.length (a +:+ b) = (String.length a + String.length b)%nat.
Proof. induction a as [|c a IH]; simpl; [done | by rewrite IH]. Qed.

Section Roundtrip.
Context `{PyBuiltins}.

Lemma scan_number_pos (neg : bool) (p : positive) (t : ascii) (r : string) :
  closes t ->
  scan_number ((if neg then "-" else "") +:+ decimal (Npos p) +:+ String t r)
  = Some (Parsed (VInt (if neg then Zneg p else Zpos p)) (String t r)).
Proof.
  intros Ht. pose proof (digits_value_decimal (Npos p)) as Hv.
  unfold decimal, NilZero.string_of_uint in *. simpl N.to_uint in *.
  destruct (Pos.to_uint p) as [|d|d|d|d|d|d|d|d|d|d] eqn:E;
    [ by destruct (DecimalPos.Unsigned.to_uint_nonnil p)
    | by destruct (to_uint_not_D0 p d) | ..];
    destruct neg; unfold scan_number; simpl;
    rewrite (digit_span_uint _ _ _ Ht); simpl in Hv |- *;
    rewrite Hv; destruct Ht as [-> | ->]; reflexivity.
Qed.

Lemma scan_number_int (z : Z) (t : ascii) (r : string) :
  closes t ->
  scan_number (int_str z +:+ String t r) = Some (Parsed (VInt z) (String t r)).
Proof.
  intros Ht. destruct z as [|p|p].
  - destruct Ht as [-> | ->]; reflexivity.
  - by apply (scan_number_pos false).
  - by apply (scan_number_pos true).
Qed.

(** An integer literal starts with a minus sign or a digit. *)
Lemma int_str_head (z : Z) :
  exists c s, int_str z = String c s /\ (c = "-"%char \/ is_digit c = true).
Proof.
  destruct z as [|p|p].
  - exists "0"%char, EmptyString. by split; [| right].
  - unfold int_str, decimal, NilZero.string_of_uint. simpl N.to_uint.
    destruct (Pos.to_uint p) as [|d|d|d|d|d|d|d|d|d|d] eqn:E;
      [ by destruct (DecimalPos.Unsigned.to_uint_nonnil p) | ..];
      simpl; eexists _, _; (split; [reflexivity | by right]).
  - eexists _, _. split; [reflexivity | by left].
Qed.

Lemma parse_value_atom (fuel : nat) (c : ascii) (s : string) :
  c = "-"%char \/ is_digit c = true ->
  parse_value (S fuel) (String c s) = scan_atom (String c s).
Proof.
  intros [-> | Hc]; [reflexivity |].
  destruct c as [[] [] [] [] [] [] [] []]; try discriminate Hc; reflexivity.
Qed.

Lemma scan_atom_number (c : ascii) (s : string) :
  c = "-"%char \/ is_digit c = true ->
  scan_atom (String c s)
  = match scan_number (String c s) with Some p => p | None => scan_atom (String c s) end.
Proof.
  intros [-> | Hc].
  - unfold scan_atom. simpl. by destruct (scan_number _).
  - destruct c as [[] [] [] [] [] [] [] []]; try discriminate Hc;
      unfold scan_atom; simpl; by destruct (scan_number _).
Qed.

Lemma parse_value_int (fuel : nat) (z : Z) (t : ascii) (r : string) :
  closes t ->
  parse_value (S fuel) (int_str z +:+ String t r) = Parsed (VInt z) (String t r).
Proof.
  intros Ht. pose proof (scan_number_int z t r Ht) as Hn.
  destruct (int_str_head z) as (c & s & E & Hc). rewrite E in Hn |- *. simpl in Hn |- *.
  rewrite (parse_value_atom _ _ _ Hc), (scan_atom_number _ _ Hc). by rewrite Hn.
Qed.

Lemma parse_value_string (fuel : nat) (s rest : string) :
  parse_value (S fuel) (encode_string s +:+ rest) = Parsed (VStr s) rest.
Proof.
  unfold encode_string. simpl. rewrite append_assoc. simpl.
  change (parse_value (S fuel) (String "034" ?r)) with (map_parsed VStr (scanstring r)).
  by rewrite scanstring_escape.
Qed.

Lemma parse_value_simple (fuel level : nat) (v : value) (t : ascii) (r : string) :
  simple v -> closes t ->
  parse_value (S fuel) (encode level v +:+ String t r) = Parsed v (String t r).
Proof.
  intros Hv Ht. destruct v as [|[]|n|f|s|xs|kvs]; try done; simpl encode.
  - by apply parse_value_int.
  - apply parse_value_string.
Qed.

Lemma skip_ws_simple (level : nat) (v : value) (r : string) :
  simple v -> skip_ws (encode level v +:+ r) = encode level v +:+ r.
Proof.
  intros Hv. destruct v as [|[]|n|f|s|xs|kvs]; try done.
  simpl encode. destruct (int_str_head n) as (c & s & -> & [-> | Hc]); [done |].
  destruct c as [[] [] [] [] [] [] [] []]; try discriminate Hc; reflexivity.
Qed.

Lemma skip_ws_spaces (k : nat) (r : string) : skip_ws (spaces k +:+ r) = skip_ws r.
Proof. induction k as [|k IH]; simpl; [done | exact IH]. Qed.

Lemma skip_ws_newline_indent (level : nat) (r : string) :
  skip_ws (newline_indent level +:+ r) = skip_ws r.
Proof. unfold newline_indent. simpl. apply skip_ws_spaces. Qed.

Lemma join_members (k : string) (v : value) (more : list (string * value)) (rest : string) :
  str_join ("," +:+ newline_indent 1) (map member_text ((k, v) :: more))
    +:+ newline_indent 0 +:+ "}" +:+ rest
  = String "034" (members_text k v more rest).
Proof.
  revert k v. induction more as [|[k' v'] more IH]; intros k v.
  - simpl. unfold member_text, encode_string. simpl.
    by rewrite !append_assoc.
  - change (str_join ?sep (map member_text ((k, v) :: (k', v') :: more)))
      with (member_text (k, v) +:+ sep +:+ str_join sep (map member_text ((k', v') :: more))).
    rewrite !append_assoc, IH.
    unfold member_text, encode_string. simpl. by rewrite !append_assoc.
Qed.

Lemma dumps_dict (k : string) (v : value) (more : list (string * value)) :
  dumps (VDict ((k, v) :: more))
  = String "{" (newline_indent 1 +:+ String "034" (members_text k v more "")).
Proof.
  rewrite <- join_members. reflexivity.
Qed.

Lemma parse_pairs_eq (fuel : nat) (s : string) (acc : list (string * value)) :
  parse_pairs (S fuel) s acc
  = match scanstring s with
    | Parsed key r =>
        match skip_ws r with
        | String ":" r1 =>
            match parse_value fuel (skip_ws r1) with
            | Parsed v r2 =>
                match skip_ws r2 with
                | String "}" r3 => Parsed (acc ++ [(key, v)]) r3
                | String "," r3 =>
                    match skip_ws r3 with
                    | String "034" r4 => parse_pairs fuel r4 (acc ++ [(key, v)])
                    | _ => Malformed
                    end
                | _ => Malformed
                end
            | Malformed => Malformed
            | NotLatin1 => NotLatin1
            | OutOfFuel => OutOfFuel
            end
        | _ => Malformed
        end
    | Malformed => Malformed
    | NotLatin1 => NotLatin1
    | OutOfFuel => OutOfFuel
    end.
Proof. reflexivity. Qed.

Lemma parse_pairs_members (more : list (string * value)) :
  forall (k : string) (v : value) (acc : list (string * value)) (fuel : nat) (rest : string),
    simple v -> Forall (fun kv => simple (snd kv)) more ->
    parse_pairs (S (length more) + S fuel) (members_text k v more rest) acc
    = Parsed (acc ++ (k, v) :: more) rest.
Proof.
  induction more as [|[k' v'] more IH]; intros k v acc fuel rest Hv Hmore;
    simpl members_text; simpl Nat.add;
    rewrite parse_pairs_eq, scanstring_escape; simpl;
    rewrite (skip_ws_simple _ _ _ Hv), (parse_value_simple _ _ _ _ _ Hv);
    [reflexivity | by right | | by left].
  simpl. inversion Hmore as [|? ? Hv' Hmore']; subst.
  replace (acc ++ (k, v) :: (k', v') :: more)
    with ((acc ++ [(k, v)]) ++ (k', v') :: more) by (by rewrite <- app_assoc).
  exact (IH k' v' (acc ++ [(k, v)]) fuel rest Hv' Hmore').
Qed.

Lemma parse_value_dict (k : string) (v : value) (more : list (string * value)) (fuel : nat) :
  simple v -> Forall (fun kv => simple (snd kv)) more ->
  parse_value (S (S (length more) + S fuel)) (dumps (VDict ((k, v) :: more)))
  = Parsed (VDict (dict_of_pairs ((k, v) :: more))) "".
Proof.
  intros Hv Hmore. rewrite dumps_dict.
  change (parse_value (S ?f) (String "{" ?r)) with
    (match skip_ws r with
     | String "}" r1 => Parsed (VDict []) r1
     | String "034" r1 =>
         map_parsed (fun ps => VDict (dict_of_pairs ps)) (parse_pairs f r1 [])
     | _ => Malformed
     end).
  rewrite skip_ws_newline_indent. simpl skip_ws. cbv beta iota.
  by rewrite parse_pairs_members.
Qed.

Lemma length_members_text (k : string) (v : value) (more : list (string * value)) (rest : string) :
  (3 + length more <= String.length (members_text k v more rest))%nat.
Proof.
  revert k v. induction more as [|[k' v'] more IH]; intros k v; simpl members_text;
    rewrite length_append; simpl; rewrite length_append; simpl; [lia |].
  unfold newline_indent. simpl. specialize (IH k' v'). lia.
Qed.

(** [load] undoes [dump] on every non-empty flat object; a key written
    twice keeps its last value, as in [dict(pairs)]. *)
Lemma loads_dumps_flat (k : string) (v : value) (more : list (string * value)) :
  simple v -> Forall (fun kv => simple (snd kv)) more ->
  loads (dumps (VDict ((k, v) :: more)))
  = Parsed (VDict (dict_of_pairs ((k, v) :: more))) "".
Proof.
  intros Hv Hmore. unfold loads.
  assert (Hfuel : exists fuel,
    String.length (dumps (VDict ((k, v) :: more))) = (S (length more) + S fuel)%nat).
  { rewrite dumps_dict. simpl String.length.
    pose proof (length_members_text k v more "").
    exists (5 + String.length (members_text k v more "") - length more)%nat. lia. }
  destruct Hfuel as [fuel ->].
  assert (Hws : skip_ws (dumps (VDict ((k, v) :: more))) = dumps (VDict ((k, v) :: more))).
  { by rewrite dumps_dict. }
  rewrite Hws, parse_value_dict by done. reflexivity.
Qed.

End Roundtrip.

(** ** The decoder has fuel enough *)

Lemma length_skip_ws (s : string) : (String.length (skip_ws s) <= String.length s)%nat.
Proof.
  induction s as [|c s IH]; simpl; [done |]. destruct (is_ws c); simpl; lia.
Qed.

Lemma length_map_parsed {A B} (f : A -> B) (p : parsed A) (b : B) (r : string) :
  map_parsed f p = Parsed b r -> exists a, p = Parsed a r.
Proof. destruct p; simpl; intros [= _ <-] || done. by eexists. Qed.

Lemma length_scanstring_bounded (n : nat) :
  forall s k r,
    (String.length s < n)%nat ->
    scanstring s = Parsed k r -> (String.length r < String.length s)%nat.
Proof.
  induction n as [|n IH]; intros s k r Hn; [lia |].
  destruct s as [|c s]; [done |]. cbn [scanstring].
  destruct (code c =? 34)%N; [intros [= _ <-]; simpl; lia |].
  destruct (code c =? 92)%N.
  - destruct s as [|e s]; [done |].
    destruct (code e =? 117)%N.
    + destruct s as [|h1 [|h2 [|h3 [|h4 s]]]]; try done.
      destruct (hex4_val h1 h2 h3 h4) as [m |]; [| done].
      destruct (m <? 256)%N; [| done].
      intros (k' & Hk)%length_map_parsed. apply IH in Hk; simpl in *; lia.
    + destruct (unescape e); [| done].
      intros (k' & Hk)%length_map_parsed. apply IH in Hk; simpl in *; lia.
  - destruct (code c <? 32)%N; [done |].
    intros (k' & Hk)%length_map_parsed. apply IH in Hk; simpl in *; lia.
Qed.

Lemma length_scanstring (s k r : string) :
  scanstring s = Parsed k r -> (String.length r < String.length s)%nat.
Proof. apply (length_scanstring_bounded (S (String.length s))). lia. Qed.

Lemma length_digit_span (s : string) :
  (String.length (snd (digit_span s)) <= String.length s)%nat.
Proof.
  induction s as [|c s IH]; simpl; [done |].
  destruct (is_digit c); simpl; [| lia]. destruct (digit_span s). simpl in *. lia.
Qed.

Lemma length_starts_with (prefix s r : string) :
  starts_with prefix s = Some r ->
  (String.length r + String.length prefix = String.length s)%nat.
Proof.
  revert s. induction prefix as [|p prefix IH]; intros s; simpl.
  - intros [= <-]. lia.
  - destruct s as [|c s]; [done |]. destruct (code p =? code c)%N; [| done].
    intros Hs%IH. simpl. lia.
Qed.

Section Scanner.
Context `{PyBuiltins}.

Lemma length_scan_number (s : string) (v : value) (r : string) :
  scan_number s = Some (Parsed v r) -> (String.length r < String.length s)%nat.
Proof.
  unfold scan_number.
  set (s1 := match s with String "-" r0 => r0 | _ => s end).
  assert (Hs1 : (String.length s1 <= String.length s)%nat).
  { subst s1. destruct s as [|[[] [] [] [] [] [] [] []] s]; simpl; lia. }
  replace (match s with String "-" r0 => ("-", r0) | _ => (EmptyString, s) end)
    with (match s with String "-" _ => "-" | _ => EmptyString end, s1)
    by (subst s1; by destruct s as [|[[] [] [] [] [] [] [] []] s]).
  destruct s1 as [|c r1]; [done |]. destruct (is_digit c) eqn:Hdig; [| done].
  set (ip := if (code c =? 48)%N then ("0", r1) else digit_span (String c r1)).
  assert (Hip : (String.length (snd ip) <= String.length r1)%nat).
  { subst ip. destruct (code c =? 48)%N; [done |].
    pose proof (length_digit_span r1) as Hd. simpl. rewrite Hdig.
    destruct (digit_span r1). simpl in *. lia. }
  destruct ip as [int_part s2]. cbn [snd] in Hip.
  set (fp := match s2 with
             | String "." r2 =>
                 let (fd, r3) := digit_span r2 in
                 match fd with
                 | EmptyString => (EmptyString, s2)
                 | _ => (String "." fd, r3)
                 end
             | _ => (EmptyString, s2)
             end).
  assert (Hfp : (String.length (snd fp) <= String.length s2)%nat).
  { subst fp. destruct s2 as [|[[] [] [] [] [] [] [] []] r2]; try done.
    pose proof (length_digit_span r2) as Hd.
    destruct (digit_span r2) as [[|d0 fd] r3]; simpl in *; lia. }
  destruct fp as [frac s3]. cbn [snd] in Hfp.
  set (ep := match s3 with
             | String e r3 =>
                 if (code e =? 101)%N || (code e =? 69)%N then
                   let (esign, r4) :=
                     match r3 with
                     | String "+" r' => ("+", r')
                     | String "-" r' => ("-", r')
                     | _ => (EmptyString, r3)
                     end in
                   let (ed, r5) := digit_span r4 in
                   match ed with
                   | EmptyString => (EmptyString, s3)
                   | _ => (String e (esign +:+ ed), r5)
                   end
                 else (EmptyString, s3)
             | EmptyString => (EmptyString, s3)
             end).
  assert (Hep : (String.length (snd ep) <= String.length s3)%nat).
  { subst ep. destruct s3 as [|e r3]; [done |].
    destruct ((code e =? 101)%N || (code e =? 69)%N); [| done].
    set (sp := match r3 with
               | String "+" r' => ("+", r')
               | String "-" r' => ("-", r')
               | _ => (EmptyString, r3)
               end).
    assert (Hsp : (String.length (snd sp) <= String.length r3)%nat).
    { subst sp. destruct r3 as [|[[] [] [] [] [] [] [] []] r']; simpl; lia. }
    destruct sp as [esign r4]. cbn [snd] in Hsp.
    pose proof (length_digit_span r4) as Hd.
    destruct (digit_span r4) as [[|d0 ed] r5]; simpl in *; lia. }
  destruct ep as [expo s4]. cbn [snd] in Hep.
  assert (Hlen : (String.length s4 < String.length s)%nat) by (simpl in *; lia).
  destruct frac, expo; try destruct (py_float _); intros [= _ <-] || done; exact Hlen.
Qed.

Lemma length_scan_atom (s : string) (v : value) (r : string) :
  scan_atom s = Parsed v r -> (String.length r < String.length s)%nat.
Proof.
  unfold scan_atom.
  destruct (starts_with "null" s) as [r0 |] eqn:E1.
  { intros [= _ <-]. apply length_starts_with in E1. simpl in E1. lia. }
  destruct (starts_with "true" s) as [r0 |] eqn:E2.
  { intros [= _ <-]. apply length_starts_with in E2. simpl in E2. lia. }
  destruct (starts_with "false" s) as [r0 |] eqn:E3.
  { intros [= _ <-]. apply length_starts_with in E3. simpl in E3. lia. }
  destruct (scan_number s) as [p |] eqn:En.
  { intros ->. by apply length_scan_number in En. }
  destruct (starts_with "NaN" s) as [r0 |] eqn:E4.
  { intros [= _ <-]. apply length_starts_with in E4. simpl in E4. lia. }
  destruct (starts_with "Infinity" s) as [r0 |] eqn:E5.
  { intros [= _ <-]. apply length_starts_with in E5. simpl in E5. lia. }
  destruct (starts_with "-Infinity" s) as [r0 |] eqn:E6; [| done].
  intros [= _ <-]. apply length_starts_with in E6. simpl in E6. lia.
Qed.

End Scanner.

Ltac case_char c := destruct c as [[] [] [] [] [] [] [] []].

Section Consumption.
Context `{PyBuiltins}.

Lemma parse_value_eq (fuel : nat) (s : string) :
  parse_value (S fuel) s
  = match s with
    | String "034" r => map_parsed VStr (scanstring r)
    | String "{" r =>
        match skip_ws r with
        | String "}" r1 => Parsed (VDict []) r1
        | String "034" r1 =>
            map_parsed (fun ps => VDict (dict_of_pairs ps)) (parse_pairs fuel r1 [])
        | _ => Malformed
        end
    | String "[" r =>
        match skip_ws r with
        | String "]" r1 => Parsed (VList []) r1
        | r1 =>
            match parse_value fuel r1 with
            | Parsed v r2 => map_parsed VList (parse_elems fuel r2 [v])
            | Malformed => Malformed
            | NotLatin1 => NotLatin1
            | OutOfFuel => OutOfFuel
            end
        end
    | _ => scan_atom s
    end.
Proof. reflexivity. Qed.

Lemma parse_elems_eq (fuel : nat) (s : string) (acc : list value) :
  parse_elems (S fuel) s acc
  = match skip_ws s with
    | String "]" r => Parsed acc r
    | String "," r =>
        match parse_value fuel (skip_ws r) with
        | Parsed v r1 => parse_elems fuel r1 (acc ++ [v])
        | Malformed => Malformed
        | NotLatin1 => NotLatin1
        | OutOfFuel => OutOfFuel
        end
    | _ => Malformed
    end.
Proof. reflexivity. Qed.

(** Whatever is parsed is shorter than what it was parsed from. *)
Lemma parse_consumes (fuel : nat) :
  (forall s v r, parse_value fuel s = Parsed v r ->
     (String.length r < String.length s)%nat)
  /\ (forall s acc ps r, parse_pairs fuel s acc = Parsed ps r ->
        (String.length r < String.length s)%nat)
  /\ (forall s acc xs r, parse_elems fuel s acc = Parsed xs r ->
        (String.length r < String.length s)%nat).
Proof.
  induction fuel as [|fuel (IHv & IHp & IHe)]; [by repeat split |].
  split; [| split].
  - intros s v r. rewrite parse_value_eq.
    destruct s as [|c s]; [by intros ?%length_scan_atom |].
    case_char c; try (by intros ?%length_scan_atom).
    + (* an object *)
      pose proof (length_skip_ws s) as Hws.
      destruct (skip_ws s) as [|c1 r1] eqn:E1; [done |].
      case_char c1; try done.
      * intros [= _ <-]. simpl in *. lia.
      * intros (ps & Hps)%length_map_parsed. apply IHp in Hps. simpl in *. lia.
    + (* an array *)
      pose proof (length_skip_ws s) as Hws.
      destruct (skip_ws s) as [|c1 r1] eqn:E1.
      { destruct (parse_value fuel "") as [v0 r2 | | |] eqn:E0; try done.
        apply IHv in E0. simpl in E0. lia. }
      assert (Hgen : match parse_value fuel (String c1 r1) with
                     | Parsed v0 r2 => map_parsed VList (parse_elems fuel r2 [v0])
                     | Malformed => Malformed
                     | NotLatin1 => NotLatin1
                     | OutOfFuel => OutOfFuel
                     end = Parsed v r -> (String.length r < String.length (String "[" s))%nat).
      { destruct (parse_value fuel (String c1 r1)) as [v0 r2 | | |] eqn:E0; try done.
        apply IHv in E0. intros (xs & Hxs)%length_map_parsed. apply IHe in Hxs.
        simpl in *. lia. }
      case_char c1; try exact Hgen. intros [= _ <-]. simpl in *. lia.
    + (* a string *)
      intros (k & Hk)%length_map_parsed. apply length_scanstring in Hk. simpl. lia.
  - intros s acc ps r. rewrite parse_pairs_eq.
    destruct (scanstring s) as [key r0 | | |] eqn:E0; try done.
    apply length_scanstring in E0. pose proof (length_skip_ws r0) as Hws0.
    destruct (skip_ws r0) as [|c1 r1]; [done |]. case_char c1; try done.
    pose proof (length_skip_ws r1) as Hws1.
    destruct (parse_value fuel (skip_ws r1)) as [v r2 | | |] eqn:E2; try done.
    apply IHv in E2. pose proof (length_skip_ws r2) as Hws2.
    destruct (skip_ws r2) as [|c3 r3]; [done |]. case_char c3; try done.
    + intros [= _ <-]. simpl in *. lia.
    + pose proof (length_skip_ws r3) as Hws3.
      destruct (skip_ws r3) as [|c4 r4]; [done |]. case_char c4; try done.
      intros Hps%IHp. simpl in *. lia.
  - intros s acc xs r. rewrite parse_elems_eq.
    pose proof (length_skip_ws s) as Hws.
    destruct (skip_ws s) as [|c1 r1]; [done |]. case_char c1; try done.
    + intros [= _ <-]. simpl in *. lia.
    + pose proof (length_skip_ws r1) as Hws1.
      destruct (parse_value fuel (skip_ws r1)) as [v r2 | | |] eqn:E2; try done.
      apply IHv in E2. intros Hxs%IHe. simpl in *. lia.
Qed.

End Consumption.

Lemma map_parsed_out_of_fuel {A B} (f : A -> B) (p : parsed A) :
  map_parsed f p = OutOfFuel -> p = OutOfFuel.
Proof. by destruct p. Qed.

Lemma scanstring_fuel_bounded (n : nat) :
  forall s, (String.length s < n)%nat -> scanstring s <> OutOfFuel.
Proof.
  induction n as [|n IH]; intros s Hn; [lia |].
  destruct s as [|c s]; [done |]. cbn [scanstring].
  destruct (code c =? 34)%N; [done |].
  destruct (code c =? 92)%N.
  - destruct s as [|e s]; [done |].
    destruct (code e =? 117)%N.
    + destruct s as [|h1 [|h2 [|h3 [|h4 s]]]]; try done.
      destruct (hex4_val h1 h2 h3 h4) as [m |]; [| done].
      destruct (m <? 256)%N; [| done].
      intros Hk%map_parsed_out_of_fuel. apply IH in Hk; [done | simpl in *; lia].
    + destruct (unescape e); [| done].
      intros Hk%map_parsed_out_of_fuel. apply IH in Hk; [done | simpl in *; lia].
  - destruct (code c <? 32)%N; [done |].
    intros Hk%map_parsed_out_of_fuel. apply IH in Hk; [done | simpl in *; lia].
Qed.

Lemma scanstring_fuel (s : string) : scanstring s <> OutOfFuel.
Proof. apply (scanstring_fuel_bounded (S (String.length s))). lia. Qed.

Section Fuel.
Context `{PyBuiltins}.

Lemma scan_number_fuel (s : string) : scan_number s <> Some OutOfFuel.
Proof.
  unfold scan_number.
  destruct (match s with String "-" r => ("-", r) | _ => (EmptyString, s) end) as [sign s1].
  destruct s1 as [|c r]; [done |]. destruct (is_digit c); [| done].
  destruct (if (code c =? 48)%N then ("0", r) else digit_span (String c r)) as [ip s2].
  match goal with |- context [let (frac, s3) := ?fp in _] => destruct fp as [frac s3] end.
  match goal with |- context [let (expo, s4) := ?ep in _] => destruct ep as [expo s4] end.
  destruct frac, expo; try done; by destruct (py_float _).
Qed.

Lemma scan_atom_fuel (s : string) : scan_atom s <> OutOfFuel.
Proof.
  unfold scan_atom. pose proof (scan_number_fuel s) as Hn.
  destruct (starts_with "null" s); [done |].
  destruct (starts_with "true" s); [done |].
  destruct (starts_with "false" s); [done |].
  destruct (scan_number s) as [p |]; [congruence |].
  destruct (starts_with "NaN" s); [done |].
  destruct (starts_with "Infinity" s); [done |].
  by destruct (starts_with "-Infinity" s).
Qed.

(** With more fuel than characters, the decoder never runs out. *)
Lemma parse_enough (fuel : nat) :
  (forall s, (String.length s < fuel)%nat -> parse_value fuel s <> OutOfFuel)
  /\ (forall s acc, (String.length s < fuel)%nat -> parse_pairs fuel s acc <> OutOfFuel)
  /\ (forall s acc, (String.length s < fuel)%nat -> parse_elems fuel s acc <> OutOfFuel).
Proof.
  induction fuel as [|fuel (IHv & IHp & IHe)]; [repeat split; intros; lia |].
  destruct (parse_consumes fuel) as (Cv & Cp & Ce).
  split; [| split].
  - intros s Hs. rewrite parse_value_eq.
    destruct s as [|c s]; [apply scan_atom_fuel |].
    case_char c; try apply scan_atom_fuel.
    + (* an object *)
      pose proof (length_skip_ws s) as Hws.
      destruct (skip_ws s) as [|c1 r1] eqn:E1; [done |].
      case_char c1; try done.
      intros Hps%map_parsed_out_of_fuel. revert Hps. apply IHp. simpl in *. lia.
    + (* an array *)
      pose proof (length_skip_ws s) as Hws.
      assert (Hgen : match parse_value fuel (skip_ws s) with
                     | Parsed v0 r2 => map_parsed VList (parse_elems fuel r2 [v0])
                     | Malformed => Malformed
                     | NotLatin1 => NotLatin1
                     | OutOfFuel => OutOfFuel
                     end <> OutOfFuel).
      { destruct (parse_value fuel (skip_ws s)) as [v0 r2 | | |] eqn:E0; try done.
        - apply Cv in E0. intros Hxs%map_parsed_out_of_fuel. revert Hxs.
          apply IHe. simpl in *. lia.
        - intros _. revert E0. apply IHv. simpl in *. lia. }
      destruct (skip_ws s) as [|c1 r1] eqn:E1; [exact Hgen |].
      case_char c1; try exact Hgen. done.
    + (* a string *)
      intros Hk%map_parsed_out_of_fuel. by apply scanstring_fuel in Hk.
  - intros s acc Hs. rewrite parse_pairs_eq.
    pose proof (scanstring_fuel s) as Hsf.
    destruct (scanstring s) as [key r0 | | |] eqn:E0; try done.
    apply length_scanstring in E0. pose proof (length_skip_ws r0) as Hws0.
    destruct (skip_ws r0) as [|c1 r1]; [done |]. case_char c1; try done.
    pose proof (length_skip_ws r1) as Hws1.
    destruct (parse_value fuel (skip_ws r1)) as [v r2 | | |] eqn:E2; try done.
    + apply Cv in E2. pose proof (length_skip_ws r2) as Hws2.
      destruct (skip_ws r2) as [|c3 r3]; [done |]. case_char c3; try done.
      pose proof (length_skip_ws r3) as Hws3.
      destruct (skip_ws r3) as [|c4 r4]; [done |]. case_char c4; try done.
      apply IHp. simpl in *. lia.
    + intros _. revert E2. apply IHv. simpl in *. lia.
  - intros s acc Hs. rewrite parse_elems_eq.
    pose proof (length_skip_ws s) as Hws.
    destruct (skip_ws s) as [|c1 r1]; [done |]. case_char c1; try done.
    pose proof (length_skip_ws r1) as Hws1.
    destruct (parse_value fuel (skip_ws r1)) as [v r2 | | |] eqn:E2; try done.
    + apply Cv in E2. apply IHe. simpl in *. lia.
    + intros _. revert E2. apply IHv. simpl in *. lia.
Qed.

(** [json.loads] never runs out of fuel. *)
Lemma loads_fuel (text : string) : loads text <> OutOfFuel.
Proof.
  unfold loads. pose proof (length_skip_ws text) as Hws.
  destruct (parse_enough (S (String.length text))) as (Hv & _ & _).
  specialize (Hv (skip_ws text) ltac:(lia)).
  destruct (parse_value _ _) as [v r | | |]; try done.
  by destruct (skip_ws r).
Qed.

End Fuel.

(** ** Traces and frames *)

Lemma bind_unfold {A B} (m : M A) (k : A -> M B) (w : world) :
  (m ≫= k) w
  = match m w with
    | (t1, Ret a w1) => let (t2, o) := k a w1 in (t1 ++ t2, o)
    | (t1, Raise e w1) => (t1, Raise e w1)
    | (t1, Unmodelled l w1) => (t1, Unmodelled l w1)
    end.
Proof. reflexivity. Qed.

Lemma replay_app (t1 t2 : list event) (w : world) :
  replay (t1 ++ t2) w = replay t2 (replay t1 w).
Proof. unfold replay. apply fold_left_app. Qed.

Lemma obeys_ret {A} (P : event -> Prop) (a : A) : obeys P (ret a).
Proof. intros w. by split. Qed.

Lemma obeys_raise {A} (P : event -> Prop) (e : exn) : obeys P (@raise A e).
Proof. intros w. by split. Qed.

Lemma obeys_bind {A B} (P : event -> Prop) (m : M A) (k : A -> M B) :
  obeys P m -> (forall a, obeys P (k a)) -> obeys P (m ≫= k).
Proof.
  intros Hm Hk w. rewrite bind_unfold. destruct (Hm w) as [Ht Hw].
  destruct (m w) as [t1 [a w1 | e w1 | l w1]]; simpl in *; [| done..].
  destruct (Hk a w1) as [Ht2 Hw2]. destruct (k a w1) as [t2 o]. simpl in *.
  split; [by apply Forall_app |]. by rewrite replay_app, <- Hw.
Qed.

Lemma obeys_or_raise {A} (P : event -> Prop) (e : exn) (o : option A) :
  obeys P (or_raise e o).
Proof. destruct o; [apply obeys_ret | apply obeys_raise]. Qed.

Lemma obeys_print (P : event -> Prop) (s : string) :
  P (Out (s +:+ nl)) -> obeys P (print s).
Proof. intros HP w. split; [by constructor | done]. Qed.

Lemma obeys_input (P : event -> Prop) (prompt : string) :
  P (Out prompt) -> (forall line, P (Input prompt line)) -> obeys P (input prompt).
Proof.
  intros HO HI w. unfold input. destruct (stdin w) as [|line rest] eqn:E; simpl.
  - split; [by constructor | done].
  - split; [by constructor |]. unfold replay; simpl. by rewrite E.
Qed.

Lemma obeys_write_file (P : event -> Prop) (name : string) (f : file) :
  P (WriteFile name f) -> obeys P (write_file name f).
Proof. intros HP w. split; [by constructor | done]. Qed.

Lemma obeys_now_date (P : event -> Prop) : obeys P now_date.
Proof. intros w. by split. Qed.

Lemma obeys_bounded_by_input {A} (P : event -> Prop) (loop : nat -> M A) :
  (forall fuel, obeys P (loop fuel)) -> obeys P (bounded_by_input loop).
Proof. intros Hl w. apply Hl. Qed.

Lemma replay_spares (name : string) (tr : list event) (w : world) :
  Forall (spares name) tr -> files (replay tr w) !! name = files w !! name.
Proof.
  revert w. induction tr as [|e tr IH]; intros w Ht; [done |].
  inversion Ht as [|? ? He Ht']; subst. unfold replay in *. simpl.
  rewrite (IH _ Ht'). destruct e as [t|p l|name' f]; simpl; [done.. |].
  by apply lookup_insert_ne.
Qed.

Section Frames.
Context `{PyBuiltins}.

Lemma obeys_load_config (P : event -> Prop) : obeys P load_config.
Proof.
  intros w. unfold load_config.
  destruct (files w !! CONFIG_FILE) as [[text | page] |]; [| by split..].
  by destruct (loads text); split.
Qed.

Lemma obeys_save_config (P : event -> Prop) (cfg : value) :
  (forall text, P (WriteFile CONFIG_FILE (TextFile text))) -> obeys P (save_config cfg).
Proof. intros HP. by apply obeys_write_file. Qed.

Lemma obeys_py_get (P : event -> Prop) (d : value) (key : string) (default : value) :
  obeys P (py_get d key default).
Proof. destruct d; first [apply obeys_ret | apply obeys_raise]. Qed.

Lemma obeys_add_one (P : event -> Prop) (v : value) : obeys P (add_one v).
Proof. destruct v; first [apply obeys_ret | apply obeys_raise]. Qed.

Lemma obeys_format_field_04d (P : event -> Prop) (v : value) : obeys P (format_field_04d v).
Proof. destruct v; first [apply obeys_ret | apply obeys_raise]. Qed.

Lemma obeys_line_total (P : event -> Prop) (it : item) : obeys P (line_total it).
Proof.
  unfold line_total. apply obeys_bind; [apply obeys_or_raise | intros; apply obeys_ret].
Qed.

Lemma obeys_add_float (P : event -> Prop) (total : value) (x : float) :
  obeys P (add_float total x).
Proof.
  destruct total; simpl; try first [apply obeys_ret | apply obeys_raise].
  apply obeys_bind; [apply obeys_or_raise | intros; apply obeys_ret].
Qed.

End Frames.

(** One step of a frame proof: split a bind, close a primitive. *)
Ltac frame_step :=
  first
    [ apply obeys_ret | apply obeys_raise | apply obeys_or_raise
    | apply obeys_now_date | apply obeys_load_config | apply obeys_py_get
    | apply obeys_add_one | apply obeys_format_field_04d
    | apply obeys_line_total | apply obeys_add_float
    | apply obeys_print | apply obeys_input | apply obeys_save_config
    | apply obeys_write_file
    | apply obeys_bind; [| intros ?]
    | match goal with
      | |- obeys _ (if ?b then _ else _) => destruct b
      | |- obeys _ (match ?x with (_, _) => _ end) => destruct x
      | |- obeys _ (or_else ?a _) => unfold or_else; destruct a
      end ].

Ltac frame := repeat frame_step; try done.

Section ProgramFrames.
Context `{PyBuiltins}.

Lemma obeys_get_next_invoice_number (P : event -> Prop) (self : InvoiceGenerator) :
  (forall text, P (WriteFile CONFIG_FILE (TextFile text))) ->
  obeys P (get_next_invoice_number self).
Proof. intros HP. unfold get_next_invoice_number. frame. Qed.

Lemma obeys_collect_items (P : event -> Prop) (fuel : nat) :
  (forall t, P (Out t)) ->
  (forall l, P (Input DESCRIPTION_PROMPT l)) ->
  (forall l, P (Input QUANTITY_PROMPT l)) ->
  (forall l, P (Input PRICE_PROMPT l)) ->
  forall items, obeys P (collect_items fuel items).
Proof.
  intros HO HD HQ HP. induction fuel as [|fuel IH]; intros items; [by intros w |].
  simpl. frame.
Qed.

Lemma obeys_summarize (P : event -> Prop) (items : list item) :
  (forall t, P (Out t)) -> forall total, obeys P (summarize items total).
Proof.
  intros HO. induction items as [|it items IH]; intros total; simpl; frame.
Qed.

Lemma obeys_draw_items (P : event -> Prop) (items : list item) :
  forall y page, obeys P (draw_items items y page).
Proof. induction items as [|it items IH]; intros y page; simpl; frame. Qed.

End ProgramFrames.

Ltac frame_program :=
  repeat first
    [ apply obeys_bounded_by_input; intros ?
    | apply obeys_collect_items
    | apply obeys_summarize
    | apply obeys_draw_items
    | frame_step ];
  try done.

Lemma bind_ret_l {A B} (a : A) (k : A -> M B) (w : world) : (ret a ≫= k) w = k a w.
Proof. rewrite bind_unfold. simpl. by destruct (k a w). Qed.

Lemma returns_ret {A} (Q : A -> Prop) (a : A) : Q a -> returns Q (ret a).
Proof. intros HQ w a' w' [= <- _]. exact HQ. Qed.

Lemma returns_bind {A B} (Q : B -> Prop) (m : M A) (k : A -> M B) :
  (forall a, returns Q (k a)) -> returns Q (m ≫= k).
Proof.
  intros Hk w b w'. rewrite bind_unfold.
  destruct (m w) as [t1 [a w1 | e w1 | l w1]]; [| done..].
  specialize (Hk a w1 b w'). destruct (k a w1) as [t2 o]. exact Hk.
Qed.

Lemma truthy_nonempty (s : string) : s <> "" -> truthy s = true.
Proof. by destruct s. Qed.

Ltac returns_self :=
  repeat first
    [ apply returns_ret; reflexivity
    | apply returns_bind; intros ?
    | match goal with
      | |- returns _ (if ?b then _ else _) => destruct b
      end ].

(** ** The configuration store *)

Section Store.
Context `{PyBuiltins}.

Lemma loads_typed_config (name address prefix : string) (n : Z) :
  loads (dumps (typed_config name address prefix n))
  = Parsed (typed_config name address prefix n) "".
Proof.
  unfold typed_config. rewrite loads_dumps_flat; [reflexivity | done |].
  repeat constructor.
Qed.

Lemma load_after_save (cfg : value) (w : world) :
  (save_config cfg ≫= fun _ => load_config) w
  = ([WriteFile CONFIG_FILE (TextFile (dumps cfg))],
     match loads (dumps cfg) with
     | Parsed v _ => Ret v
     | Malformed => Raise JSONDecodeError
     | NotLatin1 => Unmodelled NonLatin1Escape
     | OutOfFuel => Unmodelled FuelExhausted
     end {| stdin := stdin w;
            files := <[CONFIG_FILE := TextFile (dumps cfg)]> (files w);
            today := today w |}).
Proof.
  rewrite bind_unfold. unfold save_config, write_file, load_config. cbn [files].
  rewrite lookup_insert_eq. by destruct (loads (dumps cfg)).
Qed.

(** C4: saving a configuration of three strings and an integer and then
    loading returns the very same record. *)
Theorem save_then_load_roundtrip (name address prefix : string) (n : Z) (w : world) :
  (save_config (typed_config name address prefix n) ≫= fun _ => load_config) w
  = ([WriteFile CONFIG_FILE (TextFile (dumps (typed_config name address prefix n)))],
     Ret (typed_config name address prefix n)
       {| stdin := stdin w;
          files := <[CONFIG_FILE := TextFile (dumps (typed_config name address prefix n))]>
                     (files w);
          today := today w |}).
Proof. by rewrite load_after_save, loads_typed_config. Qed.

(** C7: without a configuration file [load_config] returns the empty
    mapping, and without overrides the session starts from the defaults. *)
Theorem defaults_without_config (w : world) :
  files w !! CONFIG_FILE = None ->
  load_config w = ([], Ret (VDict []) w)
  /\ __init__ None None None w
     = ([], Ret {| company_name := VStr "Default Company";
                   company_address := VStr "Default Address";
                   invoice_prefix := VStr "INV";
                   config := VDict [];
                   last_invoice_number := VInt 0 |} w).
Proof.
  intros Hnone.
  assert (Hload : load_config w = ([], Ret (VDict []) w)).
  { unfold load_config. by rewrite Hnone. }
  split; [exact Hload |].
  unfold __init__. rewrite bind_unfold, Hload. reflexivity.
Qed.

End Store.

(** ** Numbering *)

Lemma length_zeros (k : nat) : String.length (zeros k) = k.
Proof. induction k as [|k IH]; simpl; [done | by rewrite IH]. Qed.

Lemma length_zfill (width : nat) (digits : string) :
  (width <= String.length (zfill width digits))%nat.
Proof. unfold zfill. rewrite length_append, length_zeros. lia. Qed.

Lemma digits_value_zeros (k : nat) (s : string) :
  digits_value (zeros k +:+ s) = digits_value s.
Proof.
  induction k as [|k IH]; [done |]. rewrite <- IH. unfold digits_value. simpl.
  by destruct (NilEmpty.uint_of_string (zeros k +:+ s)).
Qed.

(** For a counter that is not negative, [format(m, "04d")] is the decimal
    text of [m] with zeros in front up to four characters: at least four
    digits, and the digits read back as [m]. *)
Lemma format_04d_nonneg (m : Z) :
  0 <= m ->
  format_04d m = zeros (4 - String.length (int_str m)) +:+ int_str m
  /\ (4 <= String.length (format_04d m))%nat
  /\ digits_value (format_04d m) = Z.to_N m.
Proof.
  intros Hm. destruct m as [|p|p]; [| | lia]; unfold format_04d, int_str;
    (split; [reflexivity | split; [apply length_zfill |]]);
    unfold zfill; by rewrite digits_value_zeros, digits_value_decimal.
Qed.

Section Numbering.
Context `{PyBuiltins}.

Lemma get_next_invoice_number_run (self : InvoiceGenerator) (n : Z) (w : world) :
  last_invoice_number self = VInt n ->
  let self' := {| company_name := company_name self;
                  company_address := company_address self;
                  invoice_prefix := invoice_prefix self;
                  config := config self;
                  last_invoice_number := VInt (n + 1) |} in
  get_next_invoice_number self w
  = ([WriteFile CONFIG_FILE (TextFile (dumps (config_record self')))],
     Ret (self', py_str (invoice_prefix self) +:+ format_04d (n + 1))
       {| stdin := stdin w;
          files := <[CONFIG_FILE := TextFile (dumps (config_record self'))]> (files w);
          today := today w |}).
Proof. intros Hn self'. unfold get_next_invoice_number. rewrite Hn. reflexivity. Qed.

(** C1: [get_next_invoice_number] adds one to the counter in memory, writes
    the four fields to [config.json] at once, and returns the prefix
    followed by the new counter; for a counter that is not negative, the
    new counter is padded with zeros to at least four digits and never
    truncated. The examples of the specification are [next_number_twice]
    and [format_examples]. *)
Theorem next_invoice_number_spec (self : InvoiceGenerator) (prefix : string) (n : Z)
    (w : world) :
  invoice_prefix self = VStr prefix ->
  last_invoice_number self = VInt n ->
  let self' := {| company_name := company_name self;
                  company_address := company_address self;
                  invoice_prefix := invoice_prefix self;
                  config := config self;
                  last_invoice_number := VInt (n + 1) |} in
  let saved := TextFile (dumps (VDict [("company_name", company_name self);
                                       ("company_address", company_address self);
                                       ("invoice_prefix", VStr prefix);
                                       ("last_invoice_number", VInt (n + 1))])) in
  get_next_invoice_number self w
  = ([WriteFile CONFIG_FILE saved],
     Ret (self', prefix +:+ format_04d (n + 1))
       {| stdin := stdin w; files := <[CONFIG_FILE := saved]> (files w); today := today w |})
  /\ (0 <= n ->
      format_04d (n + 1)
      = zeros (4 - String.length (int_str (n + 1))) +:+ int_str (n + 1)
      /\ (4 <= String.length (format_04d (n + 1)))%nat
      /\ digits_value (format_04d (n + 1)) = Z.to_N (n + 1)).
Proof.
  intros Hp Hn self' saved. split; [| intros Hpos; apply format_04d_nonneg; lia].
  rewrite (get_next_invoice_number_run self n w Hn). subst self' saved.
  unfold config_record. cbn [invoice_prefix company_name company_address last_invoice_number].
  rewrite Hp. reflexivity.
Qed.

End Numbering.

(** The examples of the specification: a fresh counter gives INV0001 and
    then INV0002. *)
Example next_number_twice :
  let fresh := {| company_name := VStr "Default Company";
                  company_address := VStr "Default Address";
                  invoice_prefix := VStr "INV";
                  config := VDict [];
                  last_invoice_number := VInt 0 |} in
  snd ((get_next_invoice_number fresh ≫= fun '(self1, first) =>
        get_next_invoice_number self1 ≫= fun '(self2, second) =>
        ret (first, second, last_invoice_number self2)) (empty_world []))
  = Ret ("INV0001", "INV0002", VInt 2)
      {| stdin := []; today := "2026-01-31";
         files := {[ CONFIG_FILE := TextFile (dumps (typed_config "Default Company"
                                      "Default Address" "INV" 2)) ]} |}.
Proof. vm_compute. reflexivity. Qed.

Example format_examples :
  "A" +:+ format_04d 7 = "A0007" /\ "A" +:+ format_04d 12345 = "A12345".
Proof. split; reflexivity. Qed.

(** ** Resolution of the company fields *)

Section Resolution.
Context `{PyBuiltins}.

Lemma or_else_resolve (override : option string) (kvs : list (string * value))
    (key default : string) (w : world) :
  or_else override (py_get (VDict kvs) key (VStr default)) w
  = ([], Ret (resolve override (dict_lookup key kvs) default) w).
Proof. destruct override as [[|c s] |]; reflexivity. Qed.

Lemma resolve_spec (override : option string) (stored : option value) (default : string) :
  override <> Some "" -> resolve override stored default = spec_resolve override stored default.
Proof. by destruct override as [[|c s] |], stored. Qed.

Lemma init_run (name address prefix : option string)
    (kvs : list (string * value)) (w : world) :
  load_config w = ([], Ret (VDict kvs) w) ->
  __init__ name address prefix w
  = ([], Ret {| company_name := resolve name (dict_lookup "company_name" kvs) "Default Company";
                company_address :=
                  resolve address (dict_lookup "company_address" kvs) "Default Address";
                invoice_prefix := resolve prefix (dict_lookup "invoice_prefix" kvs) "INV";
                config := VDict kvs;
                last_invoice_number :=
                  match dict_lookup "last_invoice_number" kvs with
                  | Some v => v
                  | None => VInt 0
                  end |} w).
Proof.
  intros Hload. unfold __init__. rewrite bind_unfold, Hload.
  rewrite bind_unfold, or_else_resolve.
  rewrite bind_unfold, or_else_resolve.
  rewrite bind_unfold, or_else_resolve.
  reflexivity.
Qed.

(** C2, as the code has it: each field is the override when that is a
    non-empty string, else the stored value when the key is present, else
    the default; on every override but the empty string this is the
    precedence of the specification. *)
Theorem init_precedence (name address prefix : option string)
    (kvs : list (string * value)) (w : world) :
  load_config w = ([], Ret (VDict kvs) w) ->
  __init__ name address prefix w
  = ([], Ret {| company_name := resolve name (dict_lookup "company_name" kvs) "Default Company";
                company_address :=
                  resolve address (dict_lookup "company_address" kvs) "Default Address";
                invoice_prefix := resolve prefix (dict_lookup "invoice_prefix" kvs) "INV";
                config := VDict kvs;
                last_invoice_number :=
                  match dict_lookup "last_invoice_number" kvs with
                  | Some v => v
                  | None => VInt 0
                  end |} w)
  /\ (forall override stored default,
        override <> Some "" ->
        resolve override stored default = spec_resolve override stored default).
Proof. intros Hload. split; [by apply init_run | apply resolve_spec]. Qed.

End Resolution.

(** C2, as the specification words it, fails on an empty override: with
    the company name given as the empty string and a stored name, the
    stored name is used. *)
Lemma empty_override_loses :
  snd (__init__ (Some "") None None (stored_world []))
  = Ret {| company_name := VStr "Stored Co";
           company_address := VStr "1 Stored Street";
           invoice_prefix := VStr "ST";
           config := typed_config "Stored Co" "1 Stored Street" "ST" 41;
           last_invoice_number := VInt 41 |} (stored_world [])
  /\ spec_resolve (Some "") (Some (VStr "Stored Co")) "Default Company" = VStr ""
  /\ ~ precedence_claim.
Proof.
  assert (Hrun : __init__ (Some "") None None (stored_world [])
                 = ([], Ret {| company_name := VStr "Stored Co";
                               company_address := VStr "1 Stored Street";
                               invoice_prefix := VStr "ST";
                               config := typed_config "Stored Co" "1 Stored Street" "ST" 41;
                               last_invoice_number := VInt 41 |} (stored_world [])))
    by (vm_compute; reflexivity).
  split; [by rewrite Hrun | split; [reflexivity |]].
  intros Hclaim. destruct (Hclaim _ _ _ _ _ _ _ _ Hrun eq_refl) as [Hname _].
  discriminate Hname.
Qed.

(** ** The total of an invoice *)

Section Total.
Context `{PyBuiltins}.

Lemma line_total_product (it : item) (w : world) :
  line_total it w
  = ([], match product it with Some x => Ret x w | None => Raise OverflowError w end).
Proof. unfold line_total, product. by destruct (float_of_int (qty it)). Qed.

Lemma summarize_cons (it : item) (items : list item) (total : value) (w : world) :
  snd (summarize (it :: items) total w)
  = match product it with
    | Some x =>
        match snd (add_float total x w) with
        | Ret total' _ => snd (summarize items total' w)
        | Raise e _ => Raise e w
        | Unmodelled l _ => Unmodelled l w
        end
    | None => Raise OverflowError w
    end.
Proof.
  cbn [summarize]. rewrite bind_unfold, line_total_product.
  destruct (product it) as [x |]; [| done]. cbv beta iota.
  destruct total as [|b|n|t|s|xs|kvs]; try done; cbn [add_float].
  - repeat (rewrite bind_unfold; cbn -[summarize PrimFloat.add]).
    by destruct (summarize items _ w).
  - rewrite bind_unfold, (bind_unfold (or_raise _ _)).
    destruct (float_of_int n) as [t |]; [| done]. cbn -[summarize PrimFloat.add].
    repeat (rewrite bind_unfold; cbn -[summarize PrimFloat.add]).
    by destruct (summarize items _ w).
  - repeat (rewrite bind_unfold; cbn -[summarize PrimFloat.add]).
    by destruct (summarize items _ w).
Qed.

Lemma summarize_float (items : list item) (t : float) (w : world) :
  snd (summarize items (VFloat t) w)
  = match products items with
    | Some xs => Ret (VFloat (fold_left PrimFloat.add xs t)) w
    | None => Raise OverflowError w
    end.
Proof.
  revert t. induction items as [|it items IH]; intros t; [done |].
  rewrite summarize_cons. cbn [products].
  destruct (product it) as [x |]; [| done]. cbn. rewrite IH.
  by destruct (products items).
Qed.

Lemma float_of_int_0 : float_of_int 0 = Some 0%float.
Proof. vm_compute. reflexivity. Qed.

Lemma summarize_from_zero (items : list item) (w : world) :
  snd (summarize items (VInt 0) w)
  = match products items with
    | Some xs => Ret (sum_in_order xs) w
    | None => Raise OverflowError w
    end.
Proof.
  destruct items as [|it items]; [done |].
  rewrite summarize_cons. cbn [products].
  destruct (product it) as [x |]; [| done].
  unfold add_float. rewrite bind_unfold, float_of_int_0. cbn [or_raise ret snd].
  rewrite summarize_float. by destruct (products items).
Qed.

(** C6: the total computed by the summary is the sum of [qty * price] over
    the items, added in entry order from the integer 0 (a quantity too
    large for a float raises [OverflowError] instead); for 2 x 10.0 and
    1 x 5.5 it is 25.5. *)
Theorem total_is_sum_in_order (items : list item) (d1 d2 : string) (w : world) :
  snd (summarize items (VInt 0) w)
  = match products items with
    | Some xs => Ret (sum_in_order xs) w
    | None => Raise OverflowError w
    end
  /\ snd (summarize [{| desc := d1; qty := 2; price := 10 |};
                     {| desc := d2; qty := 1; price := 5.5 |}] (VInt 0) w)
     = Ret (VFloat 25.5) w.
Proof.
  split; [apply summarize_from_zero |].
  rewrite summarize_from_zero. vm_compute. reflexivity.
Qed.

End Total.


(** ** The item loop *)

Section Items.
Context `{PyBuiltins}.

Lemma input_line (prompt line : string) (rest : list string) (w : world) :
  stdin w = line :: rest ->
  input prompt w = ([Input prompt line], Ret line (after_lines rest w)).
Proof. intros Hw. unfold input. by rewrite Hw. Qed.

Lemma input_eof (prompt : string) (w : world) :
  stdin w = [] -> input prompt w = ([Out prompt], Raise EOFError w).
Proof. intros Hw. unfold input. by rewrite Hw. Qed.

(** One turn of the loop, case by case on what is typed. *)
Lemma collect_items_turn (fuel : nat) (items : list item) (w : world) :
  collect_items (S fuel) items w
  = match stdin w with
    | [] => ([Out DESCRIPTION_PROMPT], Raise EOFError w)
    | d :: r1 =>
        if String.eqb (lower d) "done"
        then ([Input DESCRIPTION_PROMPT d], Ret items (after_lines r1 w))
        else
          match r1 with
          | [] => ([Input DESCRIPTION_PROMPT d; Out QUANTITY_PROMPT],
                   Raise EOFError (after_lines [] w))
          | q :: r2 =>
              match py_int q with
              | None => ([Input DESCRIPTION_PROMPT d; Input QUANTITY_PROMPT q],
                         Raise ValueError (after_lines r2 w))
              | Some n =>
                  match r2 with
                  | [] => ([Input DESCRIPTION_PROMPT d; Input QUANTITY_PROMPT q;
                            Out PRICE_PROMPT],
                           Raise EOFError (after_lines [] w))
                  | p :: r3 =>
                      match py_float p with
                      | None => ([Input DESCRIPTION_PROMPT d; Input QUANTITY_PROMPT q;
                                  Input PRICE_PROMPT p],
                                 Raise ValueError (after_lines r3 w))
                      | Some x =>
                          let (t, o) :=
                            collect_items fuel
                              (items ++ [{| desc := d; qty := n; price := x |}])
                              (after_lines r3 w) in
                          ([Input DESCRIPTION_PROMPT d; Input QUANTITY_PROMPT q;
                            Input PRICE_PROMPT p] ++ t, o)
                      end
                  end
              end
          end
    end.
Proof.
  cbn [collect_items]. rewrite bind_unfold.
  destruct (stdin w) as [|d r1] eqn:E0; [by rewrite input_eof |].
  rewrite (input_line _ d r1 w E0). cbv beta iota.
  destruct (String.eqb (lower d) "done"); [done |].
  rewrite bind_unfold.
  destruct r1 as [|q r2]; [by rewrite input_eof |].
  rewrite (input_line _ q r2) by done. cbv beta iota.
  rewrite bind_unfold. destruct (py_int q) as [n |]; [| done]. cbn [or_raise ret].
  rewrite bind_unfold.
  destruct r2 as [|p r3]; [by rewrite input_eof |].
  rewrite (input_line _ p r3) by done. cbv beta iota.
  rewrite bind_unfold. destruct (py_float p) as [x |]; [| done]. cbn [or_raise ret].
  unfold after_lines. cbn [stdin files today].
  by destruct (collect_items fuel _ _) as [t o].
Qed.

(** The loop never runs out of turns before it runs out of lines. *)
Lemma collect_items_never_exhausts (fuel : nat) :
  forall (items : list item) (w w' : world),
    (length (stdin w) < fuel)%nat ->
    snd (collect_items fuel items w) <> Unmodelled FuelExhausted w'.
Proof.
  induction fuel as [|fuel IH]; intros items w w' Hlen; [lia |].
  rewrite collect_items_turn.
  destruct (stdin w) as [|d [|q [|p r3]]] eqn:E; try done;
    destruct (String.eqb (lower d) "done"); try done;
    destruct (py_int q); try done.
  destruct (py_float p) as [x |]; [| done].
  specialize (IH (items ++ [{| desc := d; qty := z; price := x |}]) (after_lines r3 w) w').
  destruct (collect_items fuel _ _) as [t o]. apply IH. simpl in *. lia.
Qed.

Lemma collect_items_not_done (fuel : nat) :
  forall (items items' : list item) (w w' : world) (tr : list event),
    Forall not_done items ->
    collect_items fuel items w = (tr, Ret items' w') ->
    Forall not_done items'.
Proof.
  induction fuel as [|fuel IH]; intros items items' w w' tr Hitems; [done |].
  rewrite collect_items_turn.
  destruct (stdin w) as [|d [|q [|p r3]]] eqn:E; try done;
    destruct (String.eqb (lower d) "done") eqn:Hd; try congruence;
    destruct (py_int q); try done.
  destruct (py_float p) as [x |]; [| done].
  specialize (IH (items ++ [{| desc := d; qty := z; price := x |}]) items' (after_lines r3 w) w').
  destruct (collect_items fuel _ _) as [t o]. intros [= <- ->].
  apply (IH t); [| done]. apply Forall_app. split; [done |].
  constructor; [| done]. unfold not_done. cbn [desc]. by apply String.eqb_neq.
Qed.

(** C10: no item collected by the loop of [generate_invoice] has a
    description that lowercases to the sentinel. The comparison does not
    strip white space: a description with a space on either side of the
    word is collected as an item ([padded_sentinel_is_an_item]). *)
Theorem no_item_is_the_sentinel (items : list item) (w w' : world) (tr : list event) :
  bounded_by_input (fun fuel => collect_items fuel []) w = (tr, Ret items w') ->
  Forall (fun it => lower (desc it) <> "done") items.
Proof. apply (collect_items_not_done _ [] items w w' tr). constructor. Qed.

End Items.

Example padded_sentinel_is_an_item :
  snd (bounded_by_input (fun fuel => collect_items fuel [])
         (empty_world [" done "; "3"; "4"; "Done"]))
  = Ret [{| desc := " done "; qty := 3; price := 4 |}] (empty_world []).
Proof. vm_compute. reflexivity. Qed.

(** ** One cycle of [generate_invoice] *)

Lemma answered_app_none (prompt : string) (t1 t2 : list event) :
  answered prompt t1 = None -> answered prompt (t1 ++ t2) = answered prompt t2.
Proof.
  induction t1 as [|e t1 IH]; [done |]. destruct e as [t|p l|name f]; simpl; auto.
  by destruct (String.eqb p prompt).
Qed.

Lemma answered_before_confirmation (tr : list event) :
  Forall before_confirmation tr -> answered CONFIRM_PROMPT tr = None.
Proof.
  induction 1 as [|e tr He Ht IH]; [done |]. destruct e as [t|p l|name f]; simpl; auto.
  simpl in He. by apply String.eqb_neq in He as ->.
Qed.

Lemma before_confirmation_no_pdf (tr : list event) :
  Forall before_confirmation tr -> Forall (fun e => ~ writes_pdf e) tr.
Proof.
  intros Ht. eapply Forall_impl; [exact Ht |].
  intros [t|p l|name [text|page]] He; simpl in *; tauto.
Qed.

Lemma cancel_safe_bind {A} (m : M A) (k : A -> M InvoiceGenerator) :
  obeys before_confirmation m -> (forall a, cancel_safe (k a)) -> cancel_safe (m ≫= k).
Proof.
  intros Hm Hk w c. rewrite bind_unfold. destruct (Hm w) as [Ht _].
  destruct (m w) as [t1 [a w1 | e w1 | l w1]]; cbn [fst snd] in *.
  - specialize (Hk a w1 c). destruct (k a w1) as [t2 o]. cbn [fst snd] in *.
    rewrite (answered_app_none _ _ _ (answered_before_confirmation _ Ht)).
    intros Hc Hno. destruct (Hk Hc Hno) as [Ht2 Ho]. split; [| exact Ho].
    apply Forall_app. split; [by apply before_confirmation_no_pdf | done].
  - by rewrite (answered_before_confirmation _ Ht).
  - by rewrite (answered_before_confirmation _ Ht).
Qed.

Section Cancellation.
Context `{PyBuiltins}.

Lemma generate_invoice_eq (self : InvoiceGenerator) :
  generate_invoice self
  = (input NUMBER_PROMPT ≫= fun typed =>
     (if truthy typed then ret (self, typed) else get_next_invoice_number self)
       ≫= fun '(self, invoice_number) => invoice_body self invoice_number).
Proof. reflexivity. Qed.

Lemma cancel_safe_confirmation (self : InvoiceGenerator)
    (number name address date : string) (items : list item) (total : value) :
  cancel_safe (confirmation self number name address date items total).
Proof.
  intros w c. unfold confirmation. rewrite bind_unfold.
  destruct (stdin w) as [|line rest] eqn:E.
  - by rewrite input_eof.
  - rewrite (input_line _ line rest w E). cbv beta iota.
    destruct (String.eqb (lower (strip line)) "yes") eqn:Hyes.
    + destruct ((create_pdf _ _ _ _ _ _ _ ≫= _) _) as [t o]. cbn.
      intros [= ->] Hno. by apply String.eqb_eq in Hyes.
    + cbn. intros _ _. split; [| by eexists _, _].
      repeat constructor; by intros [].
Qed.

Lemma cancel_safe_invoice_body (self : InvoiceGenerator) (number : string) :
  cancel_safe (invoice_body self number).
Proof.
  unfold invoice_body.
  repeat (apply cancel_safe_bind; [solve [frame_program] | intros ?]).
  apply cancel_safe_confirmation.
Qed.

Lemma cancel_safe_generate_invoice (self : InvoiceGenerator) :
  cancel_safe (generate_invoice self).
Proof.
  rewrite generate_invoice_eq.
  apply cancel_safe_bind; [solve [frame_program] | intros typed].
  apply cancel_safe_bind.
  - destruct (truthy typed); [frame | by apply obeys_get_next_invoice_number].
  - intros [self' number]. apply cancel_safe_invoice_body.
Qed.

End Cancellation.

Section Cycle.
Context `{PyBuiltins}.

Lemma obeys_invoice_body (self : InvoiceGenerator) (number : string) :
  obeys body_event (invoice_body self number).
Proof. unfold invoice_body, confirmation. frame_program. Qed.

Lemma returns_invoice_body (self : InvoiceGenerator) (number : string) :
  returns (eq self) (invoice_body self number).
Proof. unfold invoice_body, confirmation. returns_self. Qed.

Lemma obeys_generate_invoice (self : InvoiceGenerator) :
  obeys cycle_event (generate_invoice self).
Proof. unfold generate_invoice. frame_program. Qed.

Lemma generate_invoice_eof (self : InvoiceGenerator) (w : world) :
  stdin w = [] ->
  generate_invoice self w = ([Out NUMBER_PROMPT], Raise EOFError w).
Proof. intros Hw. rewrite generate_invoice_eq, bind_unfold. by rewrite input_eof. Qed.

Lemma generate_invoice_supplied (self : InvoiceGenerator) (w : world)
    (typed : string) (rest : list string) :
  stdin w = typed :: rest -> typed <> "" ->
  generate_invoice self w
  = (Input NUMBER_PROMPT typed :: fst (invoice_body self typed (after_lines rest w)),
     snd (invoice_body self typed (after_lines rest w))).
Proof.
  intros Hw Hne. rewrite generate_invoice_eq, bind_unfold, (input_line _ typed rest w Hw).
  cbv beta iota. rewrite (truthy_nonempty _ Hne), bind_ret_l.
  by destruct (invoice_body self typed _).
Qed.

Lemma generate_invoice_blank (self : InvoiceGenerator) (w : world) (n : Z)
    (rest : list string) :
  stdin w = "" :: rest -> last_invoice_number self = VInt n ->
  let number := py_str (invoice_prefix self) +:+ format_04d (n + 1) in
  let w1 := {| stdin := rest;
               files := <[CONFIG_FILE := TextFile (persisted self (n + 1))]> (files w);
               today := today w |} in
  generate_invoice self w
  = (Input NUMBER_PROMPT "" :: WriteFile CONFIG_FILE (TextFile (persisted self (n + 1)))
       :: fst (invoice_body (with_counter self (n + 1)) number w1),
     snd (invoice_body (with_counter self (n + 1)) number w1)).
Proof.
  intros Hw Hn number w1.
  rewrite generate_invoice_eq, bind_unfold, (input_line _ "" rest w Hw).
  cbv beta iota. cbn [truthy]. rewrite bind_unfold.
  rewrite (get_next_invoice_number_run self n _ Hn). cbv beta iota zeta.
  fold (with_counter self (n + 1)). fold (persisted self (n + 1)).
  unfold after_lines. cbn [stdin files today]. fold w1. fold number.
  by destruct (invoice_body _ number w1).
Qed.

Lemma cycle_event_only_config (tr : list event) (name : string) :
  Forall cycle_event tr -> Forall (fun e => ~ writes_pdf e) tr ->
  name <> CONFIG_FILE -> Forall (spares name) tr.
Proof.
  intros Hc Hp Hne. rewrite Forall_forall in *. intros e He.
  specialize (Hc e He). specialize (Hp e He).
  destruct e as [t|p l|name' [text|page]]; simpl in *; [done | done | congruence | tauto].
Qed.

Lemma body_event_spares (tr : list event) :
  Forall body_event tr -> Forall (spares CONFIG_FILE) tr.
Proof. intros Ht. eapply Forall_impl; [exact Ht |]. by intros [t|p l|name f]. Qed.

(** C9: when the user types a non-empty invoice number, the cycle never
    writes [config.json]: the file and the counter in memory are as before,
    whatever else happens in the cycle. *)
Theorem supplied_number_leaves_config (self : InvoiceGenerator) (w : world)
    (typed : string) (rest : list string) :
  stdin w = typed :: rest -> typed <> "" ->
  (forall f, ~ In (WriteFile CONFIG_FILE f) (fst (generate_invoice self w)))
  /\ files (world_of (snd (generate_invoice self w))) !! CONFIG_FILE = files w !! CONFIG_FILE
  /\ (forall self' w', snd (generate_invoice self w) = Ret self' w' -> self' = self).
Proof.
  intros Hin Hne. rewrite (generate_invoice_supplied self w typed rest Hin Hne).
  destruct (obeys_invoice_body self typed (after_lines rest w)) as [Hb Hw].
  pose proof (returns_invoice_body self typed (after_lines rest w)) as Hr.
  destruct (invoice_body self typed _) as [t o]. cbn [fst snd] in *.
  apply body_event_spares in Hb. split; [| split].
  - intros f [Hf | Hf]; [done |].
    rewrite Forall_forall in Hb. by apply (Hb _ (proj2 (list_elem_of_In _ _) Hf)).
  - rewrite Hw. by rewrite (replay_spares _ _ _ Hb).
  - intros self' w' ->. symmetry. by apply (Hr self' w').
Qed.

(** C5: when the confirmation, stripped and lowercased, is anything but
    yes, the cycle writes no PDF and touches no file but [config.json]; and
    when the invoice number was auto-generated, the incremented counter
    stays both in [config.json] and in memory. *)
Theorem cancelled_invoice_keeps_increment (self : InvoiceGenerator) (w : world)
    (c : string) :
  answered CONFIRM_PROMPT (fst (generate_invoice self w)) = Some c ->
  lower (strip c) <> "yes" ->
  Forall (fun e => ~ writes_pdf e) (fst (generate_invoice self w))
  /\ (forall name, name <> CONFIG_FILE ->
        files (world_of (snd (generate_invoice self w))) !! name = files w !! name)
  /\ (forall n rest,
        stdin w = "" :: rest -> last_invoice_number self = VInt n ->
        files (world_of (snd (generate_invoice self w))) !! CONFIG_FILE
        = Some (TextFile (persisted self (n + 1)))
        /\ exists w', snd (generate_invoice self w) = Ret (with_counter self (n + 1)) w').
Proof.
  intros Hc Hno.
  destruct (cancel_safe_generate_invoice self w c Hc Hno) as [Hpdf (self' & w' & Ho)].
  destruct (obeys_generate_invoice self w) as [Hev Hw].
  split; [exact Hpdf | split].
  - intros name Hne. rewrite Hw.
    apply replay_spares. by apply cycle_event_only_config.
  - intros n rest Hin Hn. revert Ho. clear Hc Hno Hpdf Hev Hw.
    rewrite (generate_invoice_blank self w n rest Hin Hn). cbn [fst snd].
    set (number := py_str (invoice_prefix self) +:+ format_04d (n + 1)).
    set (w1 := {| stdin := rest;
                  files := <[CONFIG_FILE := TextFile (persisted self (n + 1))]> (files w);
                  today := today w |}).
    destruct (obeys_invoice_body (with_counter self (n + 1)) number w1) as [Hb Hw1].
    pose proof (returns_invoice_body (with_counter self (n + 1)) number w1) as Hr.
    intros Ho. split.
    + rewrite Hw1, (replay_spares _ _ _ (body_event_spares _ Hb)).
      subst w1. cbn [files]. apply lookup_insert_eq.
    + exists w'. rewrite Ho in Hr |- *. by rewrite (Hr self' w').
Qed.

End Cycle.

(** ** The counter along a run *)

Lemma config_writes_app (t1 t2 : list event) :
  config_writes (t1 ++ t2) = config_writes t1 ++ config_writes t2.
Proof.
  induction t1 as [|e t1 IH]; [done |]. destruct e as [t|p l|name [text|page]]; simpl; auto.
  destruct (String.eqb name CONFIG_FILE); simpl; by rewrite ?IH.
Qed.

Lemma autogenerated_app (t1 t2 : list event) :
  autogenerated (t1 ++ t2) = (autogenerated t1 + autogenerated t2)%nat.
Proof.
  induction t1 as [|e t1 IH]; [done |]. destruct e as [t|p l|name f]; simpl; auto.
  destruct (String.eqb p NUMBER_PROMPT && negb (truthy l)); simpl; by rewrite IH.
Qed.

Lemma config_writes_body (tr : list event) : Forall body_event tr -> config_writes tr = [].
Proof.
  induction 1 as [|e tr He Ht IH]; [done |].
  destruct e as [t|p l|name [text|page]]; simpl in *; auto.
  by apply String.eqb_neq in He as ->.
Qed.

Lemma autogenerated_body (tr : list event) : Forall body_event tr -> autogenerated tr = O.
Proof.
  induction 1 as [|e tr He Ht IH]; [done |].
  destruct e as [t|p l|name f]; simpl in *; auto.
  by apply String.eqb_neq in He as ->.
Qed.

Lemma modelled_ret {A} (a : A) : modelled (ret a).
Proof. by intros w l w'. Qed.

Lemma modelled_raise {A} (e : exn) : modelled (@raise A e).
Proof. by intros w l w'. Qed.

Lemma modelled_bind {A B} (m : M A) (k : A -> M B) :
  modelled m -> (forall a, modelled (k a)) -> modelled (m ≫= k).
Proof.
  intros Hm Hk w l w'. rewrite bind_unfold. specialize (Hm w).
  destruct (m w) as [t1 [a w1 | e w1 | l1 w1]]; [| done | by destruct (Hm l1 w1)].
  specialize (Hk a w1 l w'). by destruct (k a w1).
Qed.

Lemma modelled_or_raise {A} (e : exn) (o : option A) : modelled (or_raise e o).
Proof. destruct o; [apply modelled_ret | apply modelled_raise]. Qed.

Lemma modelled_print (s : string) : modelled (print s).
Proof. by intros w l w'. Qed.

Lemma modelled_input (prompt : string) : modelled (input prompt).
Proof. intros w l w'. unfold input. by destruct (stdin w). Qed.

Lemma modelled_write_file (name : string) (f : file) : modelled (write_file name f).
Proof. by intros w l w'. Qed.

Lemma modelled_now_date : modelled now_date.
Proof. by intros w l w'. Qed.

Section Modelled.
Context `{PyBuiltins}.

Lemma modelled_collect_items : modelled (bounded_by_input (fun fuel => collect_items fuel [])).
Proof.
  intros w l w'. unfold bounded_by_input.
  assert (Hl : forall fuel items w0,
    snd (collect_items fuel items w0) = Unmodelled l w' -> l = FuelExhausted).
  { induction fuel as [|fuel IH]; intros items w0; [by intros [= <- _] |].
    rewrite collect_items_turn.
    destruct (stdin w0) as [|d [|q [|p r3]]]; try done;
      destruct (String.eqb (lower d) "done"); try done;
      destruct (py_int q) as [n |]; try done.
    destruct (py_float p) as [x |]; [| done].
    specialize (IH (items ++ [{| desc := d; qty := n; price := x |}]) (after_lines r3 w0)).
    by destruct (collect_items fuel _ _). }
  intros Hu. pose proof (Hl _ _ _ Hu) as ->.
  by apply (collect_items_never_exhausts (S (length (stdin w))) [] w w'); [lia |].
Qed.

Lemma modelled_summarize (items : list item) : forall total, modelled (summarize items total).
Proof.
  induction items as [|it items IH]; intros total; [apply modelled_ret |].
  cbn [summarize]. apply modelled_bind; [| intros lt; apply modelled_bind; [| intros total']].
  - unfold line_total. apply modelled_bind; [apply modelled_or_raise | intros; apply modelled_ret].
  - destruct total; simpl; try first [apply modelled_ret | apply modelled_raise].
    apply modelled_bind; [apply modelled_or_raise | intros; apply modelled_ret].
  - apply modelled_bind; [apply modelled_print | intros; apply IH].
Qed.

Lemma modelled_draw_items (items : list item) :
  forall y page, modelled (draw_items items y page).
Proof.
  induction items as [|it items IH]; intros y page; [apply modelled_ret |].
  cbn [draw_items]. apply modelled_bind; [| intros; apply IH].
  unfold line_total. apply modelled_bind; [apply modelled_or_raise | intros; apply modelled_ret].
Qed.

Lemma modelled_add_one (v : value) : modelled (add_one v).
Proof. destruct v; first [apply modelled_ret | apply modelled_raise]. Qed.

Lemma modelled_format_field_04d (v : value) : modelled (format_field_04d v).
Proof. destruct v; first [apply modelled_ret | apply modelled_raise]. Qed.

End Modelled.

Ltac modelled_steps :=
  repeat first
    [ apply modelled_ret | apply modelled_raise | apply modelled_or_raise
    | apply modelled_print | apply modelled_input | apply modelled_write_file
    | apply modelled_now_date | apply modelled_collect_items
    | apply modelled_summarize | apply modelled_draw_items
    | apply modelled_add_one | apply modelled_format_field_04d
    | apply modelled_bind; [| intros ?]
    | match goal with
      | |- modelled (if ?b then _ else _) => destruct b
      | |- modelled (match ?x with (_, _) => _ end) => destruct x
      end ].

Section Run.
Context `{PyBuiltins}.

Lemma with_counter_same (self : InvoiceGenerator) (n : Z) :
  last_invoice_number self = VInt n -> with_counter self n = self.
Proof. destruct self. unfold with_counter. simpl. by intros ->. Qed.

(** One cycle writes the configuration at most once, with the counter one
    higher, and exactly when the number was auto-generated. *)
Lemma generate_invoice_counts (self : InvoiceGenerator) (n : Z) (w : world) :
  last_invoice_number self = VInt n ->
  counts_from self n w (generate_invoice self w)
  /\ (autogenerated (fst (generate_invoice self w)) <= 1)%nat
  /\ (forall self' w', snd (generate_invoice self w) = Ret self' w' ->
        self' = with_counter self
                  (n + Z.of_nat (autogenerated (fst (generate_invoice self w))))).
Proof.
  intros Hn. destruct (stdin w) as [|typed rest] eqn:Hw.
  { rewrite (generate_invoice_eof self w Hw). unfold counts_from. simpl.
    split; [by split | split; [lia | done]]. }
  destruct (decide (typed = "")) as [-> | Hne].
  - rewrite (generate_invoice_blank self w n rest Hw Hn). cbn zeta.
    set (number := py_str (invoice_prefix self) +:+ format_04d (n + 1)).
    set (w1 := {| stdin := rest;
                  files := <[CONFIG_FILE := TextFile (persisted self (n + 1))]> (files w);
                  today := today w |}).
    destruct (obeys_invoice_body (with_counter self (n + 1)) number w1) as [Hb Hw1].
    pose proof (returns_invoice_body (with_counter self (n + 1)) number w1) as Hr.
    destruct (invoice_body _ number w1) as [t o]. unfold counts_from. cbn [fst snd] in *.
    cbn [config_writes autogenerated]. rewrite String.eqb_refl. cbn [andb negb truthy].
    rewrite String.eqb_refl, (config_writes_body _ Hb), (autogenerated_body _ Hb).
    split; [split | split]; [done | | simpl; lia |].
    + rewrite Hw1, (replay_spares _ _ _ (body_event_spares _ Hb)).
      subst w1. cbn [files]. apply lookup_insert_eq.
    + intros self' w' ->. symmetry. by apply (Hr self' w').
  - rewrite (generate_invoice_supplied self w typed rest Hw Hne).
    destruct (obeys_invoice_body self typed (after_lines rest w)) as [Hb Hw1].
    pose proof (returns_invoice_body self typed (after_lines rest w)) as Hr.
    destruct (invoice_body self typed _) as [t o]. unfold counts_from. cbn [fst snd] in *.
    cbn [config_writes autogenerated]. rewrite (truthy_nonempty _ Hne), andb_false_r.
    rewrite (config_writes_body _ Hb), (autogenerated_body _ Hb).
    split; [split | split]; [done | | simpl; lia |].
    + rewrite Hw1. by rewrite (replay_spares _ _ _ (body_event_spares _ Hb)).
    + intros self' w' ->. rewrite Z.add_0_r, (with_counter_same _ _ Hn).
      symmetry. by apply (Hr self' w').
Qed.

Lemma counts_from_nil {A} (self : InvoiceGenerator) (n : Z) (w : world) (o : outcome A) :
  world_of o = w -> counts_from self n w ([], o).
Proof. intros <-. by split. Qed.

(** Counting goes on across a bind: after [t1], which auto-generated some
    numbers, and [t2], which did not touch the configuration, the count of
    [t3] continues from where [t1] left it. *)
Lemma counts_from_extend {A B} (self : InvoiceGenerator) (n : Z) (w w1 : world)
    (t1 t2 t3 : list event) (o1 : outcome A) (o3 : outcome B) :
  counts_from self n w (t1, o1) ->
  config_writes t2 = [] -> autogenerated t2 = O ->
  files w1 !! CONFIG_FILE = files (world_of o1) !! CONFIG_FILE ->
  counts_from self (n + Z.of_nat (autogenerated t1)) w1 (t3, o3) ->
  counts_from self n w (t1 ++ t2 ++ t3, o3).
Proof.
  unfold counts_from. cbn [fst snd]. intros [Hc1 Hf1] Hc2 Ha2 Hw1 [Hc3 Hf3].
  rewrite !config_writes_app, !autogenerated_app, Hc1, Hc2, Ha2, Hc3. cbn [app Nat.add].
  split.
  - rewrite seq_app, map_app. f_equal.
    replace (1 + autogenerated t1)%nat with (autogenerated t1 + 1)%nat by lia.
    rewrite <- (fmap_add_seq (autogenerated t1) 1 (autogenerated t3)).
    rewrite <- list_fmap_compose. apply map_ext. intros i. simpl.
    f_equal. lia.
  - rewrite Hf3. destruct (autogenerated t3) as [|j3] eqn:E3.
    + rewrite Nat.add_0_r, Hw1, Hf1. done.
    + destruct (autogenerated t1 + S j3)%nat as [|j] eqn:E; [lia |].
      do 3 f_equal. lia.
Qed.

Lemma main_loop_counts (fuel : nat) :
  forall (self : InvoiceGenerator) (n : Z) (w : world),
    last_invoice_number self = VInt n ->
    counts_from self n w (main_loop fuel self w).
Proof.
  induction fuel as [|fuel IH]; intros self n w Hn; [by apply counts_from_nil |].
  cbn [main_loop]. rewrite bind_unfold.
  destruct (generate_invoice_counts self n w Hn) as (Hc & _ & Hret).
  destruct (generate_invoice self w) as [t1 [self' w1 | e w1 | l w1]];
    cbn [fst snd] in *; [| done..].
  specialize (Hret self' w1 eq_refl). rewrite bind_unfold.
  destruct (stdin w1) as [|choice rest] eqn:Hw1.
  - rewrite (input_eof _ w1 Hw1).
    rewrite <- (app_nil_r [Out AGAIN_PROMPT]).
    apply (counts_from_extend self n w w1 _ _ _ _ _ Hc);
      first [done | by apply counts_from_nil].
  - rewrite (input_line _ choice rest w1 Hw1). cbv beta iota.
    destruct (String.eqb (lower (strip choice)) "yes").
    + specialize (IH self' (n + Z.of_nat (autogenerated t1)) (after_lines rest w1)).
      destruct (main_loop fuel self' _) as [t3 o3].
      apply (counts_from_extend self n w (after_lines rest w1) _ _ _ _ _ Hc);
        first [done | subst self'; by apply IH].
    + apply (counts_from_extend self n w (after_lines rest w1) _ [Input AGAIN_PROMPT choice]
               _ _ _ Hc);
        first [done | by split].
Qed.

(** The loop of the script never runs out of turns before it runs out of
    lines: every cycle that returns has read at least one. *)
Lemma replay_stdin_le (tr : list event) (w : world) :
  (length (stdin (replay tr w)) <= length (stdin w))%nat.
Proof.
  revert w. induction tr as [|e tr IH]; intros w; [done |].
  unfold replay in *. simpl. etrans; [apply IH |].
  destruct e; simpl; [done | | done]. destruct (stdin w); simpl; lia.
Qed.

Lemma generate_invoice_reads (self self' : InvoiceGenerator) (w w' : world) :
  snd (generate_invoice self w) = Ret self' w' ->
  (length (stdin w') < length (stdin w))%nat.
Proof.
  rewrite generate_invoice_eq, bind_unfold.
  destruct (stdin w) as [|typed rest] eqn:Hw; [by rewrite input_eof |].
  rewrite (input_line _ typed rest w Hw). cbv beta iota.
  match goal with |- context [(?m ≫= ?k) (after_lines rest w)] =>
    assert (Hm : obeys (fun _ => True) (m ≫= k)) by (by frame_program);
    destruct (Hm (after_lines rest w)) as [_ Hrw];
    destruct ((m ≫= k) (after_lines rest w)) as [t o]
  end.
  cbn [fst snd] in *. intros ->. cbn [world_of] in Hrw. rewrite Hrw.
  pose proof (replay_stdin_le t (after_lines rest w)). simpl in *. lia.
Qed.

Lemma modelled_generate_invoice (self : InvoiceGenerator) : modelled (generate_invoice self).
Proof.
  unfold generate_invoice, get_next_invoice_number, create_pdf, save_config.
  modelled_steps.
Qed.

Lemma main_loop_modelled (fuel : nat) :
  forall (self : InvoiceGenerator) (w : world) (l : limit) (w' : world),
    (length (stdin w) < fuel)%nat ->
    snd (main_loop fuel self w) <> Unmodelled l w'.
Proof.
  induction fuel as [|fuel IH]; intros self w l w' Hlen; [lia |].
  cbn [main_loop]. rewrite bind_unfold.
  pose proof (modelled_generate_invoice self w) as Hm.
  destruct (generate_invoice self w) as [t1 [self' w1 | e w1 | l1 w1]] eqn:E;
    cbn [fst snd] in *; [| done | by destruct (Hm l1 w1)].
  assert (Hr : (length (stdin w1) < length (stdin w))%nat).
  { apply (generate_invoice_reads self self'). by rewrite E. }
  rewrite bind_unfold.
  destruct (stdin w1) as [|choice rest] eqn:Hw1; [by rewrite input_eof |].
  rewrite (input_line _ choice rest w1 Hw1). cbv beta iota.
  destruct (String.eqb (lower (strip choice)) "yes"); [| done].
  specialize (IH self' (after_lines rest w1) l w').
  destruct (main_loop fuel self' _) as [t3 o3]. apply IH. simpl in *. lia.
Qed.

End Run.

Section WholeRun.
Context `{PyBuiltins}.

Lemma dict_lookup_simple (key : string) (kvs : list (string * value)) (v : value) :
  Forall (fun kv => simple (snd kv)) kvs -> dict_lookup key kvs = Some v -> simple v.
Proof.
  induction 1 as [|[k' v'] kvs Hv Hkvs IH]; [done |]. simpl.
  destruct (String.eqb key k'); [by intros [= <-] | exact IH].
Qed.

Lemma resolve_simple (override : option string) (key default : string)
    (kvs : list (string * value)) :
  Forall (fun kv => simple (snd kv)) kvs ->
  simple (resolve override (dict_lookup key kvs) default).
Proof.
  intros Hkvs. destruct override as [[|c s] |]; simpl; try done;
    destruct (dict_lookup key kvs) eqn:E; try done; by eapply dict_lookup_simple.
Qed.

(** The counter read back from a configuration this program wrote. *)
Lemma loads_persisted (self : InvoiceGenerator) (m : Z) :
  simple (company_name self) -> simple (company_address self) ->
  simple (invoice_prefix self) ->
  loads (persisted self m) = Parsed (config_record (with_counter self m)) "".
Proof.
  intros H1 H2 H3. unfold persisted, config_record.
  rewrite loads_dumps_flat; [reflexivity | done |]. by repeat constructor.
Qed.

Lemma counter_of_persisted (self : InvoiceGenerator) (m : Z) :
  simple (company_name self) -> simple (company_address self) ->
  simple (invoice_prefix self) ->
  counter_of_text (persisted self m) = Some (VInt m).
Proof. intros H1 H2 H3. unfold counter_of_text. by rewrite loads_persisted. Qed.

Lemma load_config_persisted (self : InvoiceGenerator) (m : Z) (w : world) :
  simple (company_name self) -> simple (company_address self) ->
  simple (invoice_prefix self) ->
  files w !! CONFIG_FILE = Some (TextFile (persisted self m)) ->
  starts_from w m.
Proof.
  intros H1 H2 H3 Hf. eexists. split; [| split].
  - unfold load_config. rewrite Hf, loads_persisted by done. reflexivity.
  - by repeat constructor.
  - reflexivity.
Qed.

Lemma load_config_same_file (w w' : world) (kvs : list (string * value)) :
  files w' !! CONFIG_FILE = files w !! CONFIG_FILE ->
  load_config w = ([], Ret (VDict kvs) w) ->
  load_config w' = ([], Ret (VDict kvs) w').
Proof.
  unfold load_config. intros ->.
  destruct (files w !! CONFIG_FILE) as [[text | page] |]; [| done |].
  - destruct (loads text); [| done..]. by intros [= ->].
  - by intros [= ->].
Qed.

Lemma counter_in_starts_from (w : world) (n : Z) :
  starts_from w n -> counter_in w = Some (VInt n).
Proof.
  intros (kvs & Hload & _ & Hn). revert Hload. unfold load_config, counter_in, counter_of_text.
  destruct (files w !! CONFIG_FILE) as [[text | page] |]; [| done |].
  - destruct (loads text) as [v r | | |]; [| done..]. intros [= ->]. by rewrite <- Hn.
  - intros [= <-]. by rewrite <- Hn.
Qed.

Lemma main_counts (name address prefix : option string) (n0 : Z) (w : world) :
  starts_from w n0 ->
  exists self,
    simple (company_name self) /\ simple (company_address self)
    /\ simple (invoice_prefix self)
    /\ counts_from self n0 w (main name address prefix w).
Proof.
  intros (kvs & Hload & Hkvs & Hn). eexists. split; [| split; [| split]].
  4: { unfold main. rewrite bind_unfold, (init_run _ _ _ kvs w Hload). cbv beta iota.
       unfold bounded_by_input.
       match goal with |- context [main_loop ?f ?s w] =>
         pose proof (main_loop_counts f s n0 w Hn) as Hc;
         destruct (main_loop f s w) as [t o]
       end.
       exact Hc. }
  all: cbn; by apply resolve_simple.
Qed.

(** C3: along a run that starts from counter [n0], the counters written to
    [config.json] are [n0 + 1], [n0 + 2], ... in this order, one write for
    each invoice number that was auto-generated and none otherwise; the
    file ends with the counter [n0] plus the number of auto-generated
    numbers, from which the next run starts. *)
Theorem counter_only_increases (name address prefix : option string) (n0 : Z) (w : world) :
  starts_from w n0 ->
  let tr := fst (main name address prefix w) in
  let w' := world_of (snd (main name address prefix w)) in
  map counter_of_text (config_writes tr)
  = map (fun i => Some (VInt (n0 + Z.of_nat i))) (seq 1 (autogenerated tr))
  /\ counter_in w' = Some (VInt (n0 + Z.of_nat (autogenerated tr)))
  /\ starts_from w' (n0 + Z.of_nat (autogenerated tr)).
Proof.
  intros Hstart tr w'.
  destruct (main_counts name address prefix n0 w Hstart) as (self & H1 & H2 & H3 & Hc & Hf).
  fold tr in Hc, Hf. fold w' in Hf.
  assert (Hnext : starts_from w' (n0 + Z.of_nat (autogenerated tr))).
  { destruct (autogenerated tr) as [|k].
    - rewrite Z.add_0_r. destruct Hstart as (kvs & Hload & Hkvs & Hn).
      exists kvs. split; [by apply (load_config_same_file w w') | done].
    - by apply (load_config_persisted self). }
  split; [| split; [by apply counter_in_starts_from | exact Hnext]].
  rewrite Hc, map_map. apply map_ext. intros i. by apply counter_of_persisted.
Qed.

End WholeRun.

(** ** Item collection inside the cycle and the script *)

Section ItemLoop.
Context `{PyBuiltins}.

Lemma collect_items_entries (entries : list (string * string * string)) :
  forall (its items : list item) (fuel : nat) (w : world) (last : string)
         (rest : list string),
    read_entries entries = Some its ->
    lower last = "done" ->
    stdin w = entry_lines entries ++ last :: rest ->
    (length entries <= fuel)%nat ->
    snd (collect_items (S fuel) items w) = Ret (items ++ its) (after_lines rest w).
Proof.
  induction entries as [|[[d q] p] entries IH];
    intros its items fuel w last rest Hread Hlast Hw Hfuel;
    rewrite collect_items_turn, Hw; cbn [entry_lines flat_map app].
  - injection Hread as <-. rewrite Hlast. cbn. by rewrite app_nil_r.
  - cbn [read_entries read_entry] in Hread.
    destruct (String.eqb (lower d) "done"); [done |].
    destruct (py_int q) as [n |]; [| done].
    destruct (py_float p) as [x |]; [| done].
    destruct (read_entries entries) as [its' |] eqn:E; [| done].
    injection Hread as <-. destruct fuel as [|fuel]; [simpl in Hfuel; lia |].
    specialize (IH its' (items ++ [{| desc := d; qty := n; price := x |}]) fuel
                  (after_lines (entry_lines entries ++ last :: rest) w) last rest
                  eq_refl Hlast eq_refl ltac:(simpl in Hfuel; lia)).
    destruct (collect_items (S fuel) _ _) as [t o]. cbn [snd] in *.
    rewrite IH. by rewrite <- app_assoc.
Qed.

Lemma invoice_body_item_error (self : InvoiceGenerator) (number : string) (w : world)
    (name address date : string) (more : list string) (e : exn) (w2 : world) :
  stdin w = name :: address :: date :: more ->
  snd (bounded_by_input (fun fuel => collect_items fuel []) (after_lines more w))
  = Raise e w2 ->
  snd (invoice_body self number w) = Raise e w2.
Proof.
  intros Hw Hraise. unfold invoice_body.
  rewrite bind_unfold, (input_line _ name _ w Hw). cbv beta iota.
  rewrite bind_unfold, (input_line _ address (date :: more)) by done. cbv beta iota.
  rewrite bind_unfold, (input_line _ date more) by done. cbv beta iota.
  rewrite bind_unfold. unfold after_lines in *. cbn [stdin files today] in *.
  assert (Hdate : exists d, (if truthy date then ret date else now_date)
                    {| stdin := more; files := files w; today := today w |}
                  = ([], Ret d {| stdin := more; files := files w; today := today w |})).
  { destruct (truthy date); by eexists. }
  destruct Hdate as [d ->]. cbv beta iota. rewrite bind_unfold.
  destruct (bounded_by_input _ _) as [t o]. cbn [snd] in Hraise. by subst o.
Qed.

Lemma main_loop_raises (fuel : nat) (self : InvoiceGenerator) (w w' : world) (e : exn) :
  snd (generate_invoice self w) = Raise e w' ->
  snd (main_loop (S fuel) self w) = Raise e w'.
Proof.
  intros Hraise. cbn [main_loop]. rewrite bind_unfold.
  destruct (generate_invoice self w) as [t o]. cbn [snd] in Hraise. by subst o.
Qed.

(** C8: one turn of the item loop stops on a description that lowercases
    to the sentinel, and otherwise parses the quantity with [int], then the
    price with [float], raising [ValueError] on the first that is
    malformed; items are appended in the order typed; and the exception is
    the outcome of the cycle and of the script, which handle nothing. *)
Theorem item_loop_spec (fuel : nat) (items : list item) (w : world) :
  collect_items (S fuel) items w
  = match stdin w with
    | [] => ([Out DESCRIPTION_PROMPT], Raise EOFError w)
    | d :: r1 =>
        if String.eqb (lower d) "done"
        then ([Input DESCRIPTION_PROMPT d], Ret items (after_lines r1 w))
        else
          match r1 with
          | [] => ([Input DESCRIPTION_PROMPT d; Out QUANTITY_PROMPT],
                   Raise EOFError (after_lines [] w))
          | q :: r2 =>
              match py_int q with
              | None => ([Input DESCRIPTION_PROMPT d; Input QUANTITY_PROMPT q],
                         Raise ValueError (after_lines r2 w))
              | Some n =>
                  match r2 with
                  | [] => ([Input DESCRIPTION_PROMPT d; Input QUANTITY_PROMPT q;
                            Out PRICE_PROMPT],
                           Raise EOFError (after_lines [] w))
                  | p :: r3 =>
                      match py_float p with
                      | None => ([Input DESCRIPTION_PROMPT d; Input QUANTITY_PROMPT q;
                                  Input PRICE_PROMPT p],
                                 Raise ValueError (after_lines r3 w))
                      | Some x =>
                          let (t, o) :=
                            collect_items fuel
                              (items ++ [{| desc := d; qty := n; price := x |}])
                              (after_lines r3 w) in
                          ([Input DESCRIPTION_PROMPT d; Input QUANTITY_PROMPT q;
                            Input PRICE_PROMPT p] ++ t, o)
                      end
                  end
              end
          end
    end
  /\ (forall entries its last rest,
        read_entries entries = Some its ->
        lower last = "done" ->
        stdin w = entry_lines entries ++ last :: rest ->
        (length entries <= fuel)%nat ->
        snd (collect_items (S fuel) items w) = Ret (items ++ its) (after_lines rest w))
  /\ (forall self typed name address date more e w2,
        stdin w = typed :: name :: address :: date :: more ->
        typed <> "" ->
        snd (bounded_by_input (fun fuel => collect_items fuel []) (after_lines more w))
        = Raise e w2 ->
        snd (generate_invoice self w) = Raise e w2
        /\ snd (main_loop (S fuel) self w) = Raise e w2).
Proof.
  split; [apply collect_items_turn | split].
  - intros entries its last rest. apply collect_items_entries.
  - intros self typed name address date more e w2 Hw Hne Hraise.
    assert (Hcycle : snd (generate_invoice self w) = Raise e w2).
    { rewrite (generate_invoice_supplied self w typed _ Hw Hne). cbn [snd].
      by apply (invoice_body_item_error self typed _ name address date more). }
    split; [exact Hcycle | by apply main_loop_raises].
Qed.

End ItemLoop.

(** ** The script stays within the model *)

Section Scope.
Context `{PyBuiltins}.

Lemma modelled_py_get (d : value) (key : string) (default : value) :
  modelled (py_get d key default).
Proof. destruct d; first [apply modelled_ret | apply modelled_raise]. Qed.

Lemma modelled_or_else (arg : option string) (alt : M value) :
  modelled alt -> modelled (or_else arg alt).
Proof.
  intros Halt. destruct arg as [s |]; [| exact Halt]. simpl.
  destruct (truthy s); [apply modelled_ret | exact Halt].
Qed.

(** The only way out of the model is a configuration file with an escape
    of a code point beyond U+00FF: every other run of the script returns
    or raises. *)
Lemma main_modelled (name address prefix : option string) (w w' : world) (l : limit) :
  snd (main name address prefix w) = Unmodelled l w' -> l = NonLatin1Escape.
Proof.
  unfold main, __init__. rewrite !bind_unfold.
  assert (Hload : forall l0 w0, snd (load_config w) = Unmodelled l0 w0 -> l0 = NonLatin1Escape).
  { unfold load_config. intros l0 w0.
    destruct (files w !! CONFIG_FILE) as [[text | page] |]; [| done..].
    pose proof (loads_fuel text) as Hf.
    destruct (loads text); [done | done | by intros [= <- _] | done]. }
  destruct (load_config w) as [t0 [cfg w0 | e w0 | l0 w0]]; cbn [snd] in *;
    [| done | by intros [= <- _]; apply (Hload l0 w0)].
  match goal with |- context [(?m ≫= ?k) w0] =>
    assert (Hm : modelled (m ≫= k));
    [ repeat first [ apply modelled_bind; [| intros ?] | apply modelled_or_else
                   | apply modelled_py_get | apply modelled_ret ]
    | specialize (Hm w0); destruct ((m ≫= k) w0) as [t1 [self w1 | e w1 | l1 w1]] ]
  end; cbn [fst snd] in *; [| done | by destruct (Hm l1 w1)].
  unfold bounded_by_input.
  pose proof (main_loop_modelled (S (length (stdin w1))) self w1 l w') as Hloop.
  destruct (main_loop _ self w1) as [t2 o]. cbn [snd] in *.
  intros ->. by destruct Hloop; [lia |].
Qed.

End Scope.

(** ** The page that [create_pdf] writes *)


Lemma fst_bind {A B} (m : M A) (k : A -> M B) (w : world) :
  fst ((m ≫= k) w)
  = fst (m w) ++ match snd (m w) with
                 | Ret a w1 => fst (k a w1)
                 | _ => []
                 end.
Proof.
  rewrite bind_unfold. destruct (m w) as [t1 [a w1 | e w1 | l w1]]; cbn [fst snd].
  - by destruct (k a w1).
  - by rewrite app_nil_r.
  - by rewrite app_nil_r.
Qed.

Section PageProofs.
Context `{PyBuiltins}.

Lemma products_length (items : list item) (xs : list float) :
  products items = Some xs -> length xs = length items.
Proof.
  revert xs. induction items as [|it items IH]; intros xs; [by intros [= <-] |].
  cbn [products]. destruct (product it) as [x |]; [| done].
  destruct (products items) as [xs' |]; [| done]. intros [= <-]. simpl.
  by rewrite (IH xs').
Qed.

(** The loop over the items, from any row and any page drawn so far. *)
Lemma draw_items_run (items : list item) :
  forall (xs : list float) (y : Z) (page : pdf) (w : world),
    products items = Some xs ->
    draw_items items y page w
    = ([], Ret (y - 15 * Z.of_nat (length items),
                page ++ imap (fun k '(it, x) => (100, y - 15 * Z.of_nat k, item_line it x))
                          (zip items xs)) w).
Proof.
  induction items as [|it items IH]; intros xs y page w.
  - intros [= <-]. cbn. by rewrite Z.sub_0_r, app_nil_r.
  - cbn [products]. destruct (product it) as [x |] eqn:Ex; [| done].
    destruct (products items) as [xs' |] eqn:Exs; [| done]. intros [= <-].
    cbn [draw_items]. rewrite bind_unfold, line_total_product, Ex. cbv beta iota.
    rewrite (IH xs' _ _ w eq_refl). cbn [app zip zip_with imap length].
    rewrite <- app_assoc. cbn [app]. do 3 f_equal.
    + lia.
    + do 2 f_equal.
      * unfold item_line. by rewrite Z.mul_0_r, Z.sub_0_r.
      * apply imap_ext. intros k [it' x'] _. cbn. do 2 f_equal. lia.
Qed.

Lemma draw_items_overflow (items : list item) :
  forall (y : Z) (page : pdf) (w : world),
    products items = None ->
    draw_items items y page w = ([], Raise OverflowError w).
Proof.
  induction items as [|it items IH]; intros y page w; [done |].
  cbn [products draw_items]. rewrite bind_unfold, line_total_product.
  destruct (product it) as [x |]; [| done]. cbv beta iota.
  destruct (products items) as [xs' |] eqn:Exs; [done |]. intros _.
  by rewrite (IH _ _ w eq_refl).
Qed.

Lemma create_pdf_run (self : InvoiceGenerator) (number name address date : string)
    (items : list item) (total : value) (w : world) :
  create_pdf self number name address date items total w
  = match products items with
    | Some xs =>
        ([WriteFile (pdf_name number)
            (PdfFile (invoice_page self number name address date items xs total))],
         Ret tt {| stdin := stdin w;
                   files := <[pdf_name number :=
                              PdfFile (invoice_page self number name address date
                                         items xs total)]> (files w);
                   today := today w |})
    | None => ([], Raise OverflowError w)
    end.
Proof.
  unfold create_pdf. rewrite bind_unfold.
  destruct (products items) as [xs |] eqn:Exs.
  - rewrite (draw_items_run items xs _ _ w Exs). cbv beta iota.
    unfold write_file, invoice_page, item_rows, total_row, header_rows, pdf_name.
    cbn [app].
    replace (690 - 15 * Z.of_nat (length items) - 20)
      with (670 - 15 * Z.of_nat (length items)) by lia.
    reflexivity.
  - by rewrite (draw_items_overflow items _ _ w Exs).
Qed.

End PageProofs.

(** ** A cycle from the typed lines to the file *)

Section CycleRun.
Context `{PyBuiltins}.

Lemma summarize_run_float (items : list item) :
  forall (t : float) (w : world) (xs : list float),
    products items = Some xs ->
    summarize items (VFloat t) w
    = (map (fun '(it, x) => printed (" - " +:+ item_line it x)) (zip items xs),
       Ret (VFloat (fold_left PrimFloat.add xs t)) w).
Proof.
  induction items as [|it items IH]; intros t w xs; [by intros [= <-] |].
  cbn [products]. destruct (product it) as [x |] eqn:Ex; [| done].
  destruct (products items) as [xs' |] eqn:Exs; [| done]. intros [= <-].
  cbn [summarize]. rewrite bind_unfold, line_total_product, Ex. cbv beta iota.
  cbn [add_float]. rewrite bind_ret_l, bind_unfold. cbn [print]. cbv beta iota.
  rewrite (IH (t + x)%float w xs' eq_refl). reflexivity.
Qed.

Lemma summarize_run (items : list item) (w : world) (xs : list float) :
  products items = Some xs ->
  summarize items (VInt 0) w
  = (map (fun '(it, x) => printed (" - " +:+ item_line it x)) (zip items xs),
     Ret (sum_in_order xs) w).
Proof.
  destruct items as [|it items]; [by intros [= <-] |].
  cbn [products]. destruct (product it) as [x |] eqn:Ex; [| done].
  destruct (products items) as [xs' |] eqn:Exs; [| done]. intros [= <-].
  cbn [summarize]. rewrite bind_unfold, line_total_product, Ex. cbv beta iota.
  cbn [add_float]. rewrite bind_unfold, (bind_unfold (or_raise _ _)), float_of_int_0.
  cbn [or_raise ret]. cbv beta iota. rewrite bind_unfold. cbn [print]. cbv beta iota.
  rewrite (summarize_run_float items _ w xs' Exs). reflexivity.
Qed.

Lemma length_entry_lines (entries : list (string * string * string)) :
  length (entry_lines entries) = (3 * length entries)%nat.
Proof.
  induction entries as [|[[d q] p] entries IH]; [done |].
  change (length (entry_lines ((d, q, p) :: entries)))
    with (S (S (S (length (entry_lines entries))))).
  rewrite IH. simpl. lia.
Qed.

Lemma collect_items_run (entries : list (string * string * string)) :
  forall (its items : list item) (fuel : nat) (w : world) (last : string)
         (rest : list string),
    read_entries entries = Some its ->
    lower last = "done" ->
    stdin w = entry_lines entries ++ last :: rest ->
    (length entries <= fuel)%nat ->
    collect_items (S fuel) items w
    = (entry_events entries ++ [Input DESCRIPTION_PROMPT last],
       Ret (items ++ its) (after_lines rest w)).
Proof.
  induction entries as [|[[d q] p] entries IH];
    intros its items fuel w last rest Hread Hlast Hw Hfuel;
    rewrite collect_items_turn, Hw; cbn [entry_lines entry_events flat_map app].
  - injection Hread as <-. rewrite Hlast. cbn. by rewrite app_nil_r.
  - cbn [read_entries read_entry] in Hread.
    destruct (String.eqb (lower d) "done"); [done |].
    destruct (py_int q) as [n |]; [| done].
    destruct (py_float p) as [x |]; [| done].
    destruct (read_entries entries) as [its' |] eqn:E; [| done].
    injection Hread as <-. destruct fuel as [|fuel]; [simpl in Hfuel; lia |].
    erewrite (IH its' _ fuel _ last rest eq_refl Hlast);
      [| reflexivity | simpl in Hfuel; lia].
    by rewrite <- app_assoc.
Qed.

Lemma collect_items_typed (entries : list (string * string * string)) (items : list item)
    (last : string) (rest : list string) (w : world) :
  read_entries entries = Some items ->
  lower last = "done" ->
  stdin w = entry_lines entries ++ last :: rest ->
  bounded_by_input (fun fuel => collect_items fuel []) w
  = (entry_events entries ++ [Input DESCRIPTION_PROMPT last],
     Ret items (after_lines rest w)).
Proof.
  intros Hread Hlast Hw. unfold bounded_by_input.
  apply (collect_items_run entries items [] _ w last rest Hread Hlast Hw).
  rewrite Hw, length_app, length_entry_lines. lia.
Qed.

(** The cycle once its number is known, on lines that are all there and
    well formed: what it shows and reads, in order, and how it ends. *)
Lemma invoice_body_pair (self : InvoiceGenerator) (number : string) (w : world)
    (name address date : string) (entries : list (string * string * string))
    (last confirm : string) (rest : list string) (items : list item) (xs : list float) :
  stdin w = name :: address :: date :: entry_lines entries ++ last :: confirm :: rest ->
  read_entries entries = Some items ->
  lower last = "done" ->
  products items = Some xs ->
  invoice_body self number w
  = (Input "Enter Customer Name: " name
       :: Input "Enter Customer Address: " address
       :: Input "Enter Invoice Date (YYYY-MM-DD) [Press Enter for today]: " date
       :: entry_events entries
       ++ Input DESCRIPTION_PROMPT last
       :: summary_events number name address (date_or_today date w) items xs
       ++ Input CONFIRM_PROMPT confirm
       :: closing self number name address (date_or_today date w) items xs confirm,
     Ret self
       {| stdin := rest;
          files :=
            if String.eqb (lower (strip confirm)) "yes"
            then <[pdf_name number :=
                    PdfFile (invoice_page self number name address (date_or_today date w)
                               items xs (sum_in_order xs))]> (files w)
            else files w;
          today := today w |}).
Proof.
  intros Hw Hread Hlast Hprod. unfold invoice_body.
  rewrite bind_unfold, (input_line _ name _ w Hw). cbv beta iota.
  rewrite bind_unfold. erewrite input_line by reflexivity. cbv beta iota.
  rewrite bind_unfold. erewrite input_line by reflexivity. cbv beta iota.
  unfold after_lines. cbn [stdin files today].
  rewrite bind_unfold.
  assert (Hdate : (if truthy date then ret date else now_date)
                    {| stdin := entry_lines entries ++ last :: confirm :: rest;
                       files := files w; today := today w |}
                  = ([], Ret (date_or_today date w)
                           {| stdin := entry_lines entries ++ last :: confirm :: rest;
                              files := files w; today := today w |})).
  { unfold date_or_today. by destruct (truthy date). }
  rewrite Hdate. clear Hdate. cbv beta iota.
  rewrite bind_unfold, (collect_items_typed entries items last (confirm :: rest)) by done.
  cbv beta iota. unfold after_lines. cbn [stdin files today].
  do 5 (rewrite bind_unfold; cbn [print]; cbv beta iota).
  rewrite bind_unfold, (summarize_run items _ xs Hprod). cbv beta iota.
  rewrite bind_unfold. cbn [print]. cbv beta iota.
  unfold confirmation. rewrite bind_unfold. erewrite input_line by reflexivity.
  cbv beta iota. unfold after_lines, closing. cbn [stdin files today].
  destruct (String.eqb (lower (strip confirm)) "yes").
  - rewrite bind_unfold, create_pdf_run, Hprod. cbv beta iota.
    rewrite bind_unfold. cbn [print]. unfold ret. cbv beta iota.
    unfold summary_events, printed. cbn [app]. rewrite <- !app_assoc. reflexivity.
  - rewrite bind_unfold. cbn [print]. unfold ret. cbv beta iota.
    unfold summary_events, printed. cbn [app]. rewrite <- !app_assoc. reflexivity.
Qed.


End CycleRun.

Section PageLayout.
Context `{PyBuiltins}.


Lemma item_rows_texts (items : list item) (xs : list float) :
  (item_rows items xs).*2 = (fun '(it, x) => item_line it x) <$> zip items xs.
Proof.
  unfold item_rows. rewrite fmap_imap, <- imap_const. apply imap_ext.
  by intros k [it x] _.
Qed.

Lemma length_item_rows (items : list item) (xs : list float) :
  length xs = length items -> length (item_rows items xs) = length items.
Proof. intros Hlen. unfold item_rows. by rewrite length_imap, length_zip_with_l_eq. Qed.


(** X2: what the summary prints for the items is what [create_pdf] draws:
    whenever the loop of the summary completes, [create_pdf] on the same
    items does not raise, its item rows carry the printed lines without the
    bullet, in the same order, and its last row carries the total the
    summary computed. *)
Theorem summary_shows_the_page_rows (self : InvoiceGenerator)
    (number name address date : string) (items : list item) (total : value)
    (outs : list event) (w w1 w2 : world) :
  summarize items (VInt 0) w = (outs, Ret total w1) ->
  exists page,
    fst (create_pdf self number name address date items total w2)
    = [WriteFile (pdf_name number) (PdfFile page)]
    /\ outs = (fun row => printed (" - " +:+ row.2)) <$> take (length items) (drop 6 page)
    /\ last page = Some (total_row (length items) total).
Proof.
  intros Hsum. pose proof (summarize_from_zero items w) as Hsnd.
  rewrite Hsum in Hsnd. cbn [snd] in Hsnd.
  destruct (products items) as [xs |] eqn:Hxs; [| done].
  rewrite (summarize_run items w xs Hxs) in Hsum. injection Hsum as <- <- <-.
  exists (invoice_page self number name address date items xs (sum_in_order xs)).
  rewrite create_pdf_run, Hxs. split; [done | split].
  - unfold invoice_page, header_rows. cbn [app drop].
    rewrite <- (length_item_rows items xs) by (by apply products_length).
    rewrite drop_0, take_app_length.
    trans ((fun t => printed (" - " +:+ t)) <$> (item_rows items xs).*2);
      [| by rewrite <- list_fmap_compose].
    rewrite item_rows_texts, <- list_fmap_compose.
    apply list_fmap_ext. by intros k [it x] _.
  - unfold invoice_page. by rewrite app_assoc, last_snoc.
Qed.

End PageLayout.

Section WrittenInvoice.
Context `{PyBuiltins}.



End WrittenInvoice.

(** ** Start-up on a configuration that cannot be used *)

Section Startup.
Context `{PyBuiltins}.

Lemma loads_blank (text : string) : skip_ws text = "" -> loads text = Malformed.
Proof. intros Hblank. unfold loads. by rewrite Hblank. Qed.

Lemma main_malformed (name address prefix : option string) (w : world) (text : string) :
  files w !! CONFIG_FILE = Some (TextFile text) ->
  loads text = Malformed ->
  main name address prefix w = ([], Raise JSONDecodeError w).
Proof.
  intros Hfile Hbad. unfold main, __init__. rewrite !bind_unfold.
  unfold load_config. by rewrite Hfile, Hbad.
Qed.

(** X5: when [config.json] exists and does not parse, in particular when
    it is empty or holds only white space, the script ends with
    [JSONDecodeError] before the first prompt: nothing is shown, read or
    written. *)
Theorem malformed_config_is_fatal (name address prefix : option string) (w : world)
    (text : string) :
  files w !! CONFIG_FILE = Some (TextFile text) ->
  (loads text = Malformed -> main name address prefix w = ([], Raise JSONDecodeError w))
  /\ (skip_ws text = "" -> main name address prefix w = ([], Raise JSONDecodeError w)).
Proof.
  intros Hfile. split; intros Hbad.
  - by apply (main_malformed _ _ _ w text).
  - apply (main_malformed _ _ _ w text); [done | by apply loads_blank].
Qed.

Lemma py_get_not_dict (v : value) (key : string) (default : value) (w : world) :
  not_a_dict v -> py_get v key default w = ([], Raise AttributeError w).
Proof. by destruct v. Qed.

Lemma or_else_not_dict (arg : option string) (v : value) (key : string) (default : value)
    (w : world) :
  not_a_dict v ->
  or_else arg (py_get v key default) w = ([], Raise AttributeError w)
  \/ exists s, or_else arg (py_get v key default) w = ([], Ret (VStr s) w).
Proof.
  intros Hv. destruct arg as [s |]; simpl; [| left; by apply py_get_not_dict].
  destruct (truthy s); [right; by exists s | left; by apply py_get_not_dict].
Qed.

(** X6: when [config.json] holds JSON that is not an object (a list, a
    number, a string, [null]), initialization raises [AttributeError]
    whatever overrides are given, all three included: the counter is always
    looked up. Nothing is shown, read or written. *)
Theorem non_object_config_is_fatal (name address prefix : option string) (w : world)
    (v : value) :
  load_config w = ([], Ret v w) ->
  not_a_dict v ->
  __init__ name address prefix w = ([], Raise AttributeError w)
  /\ main name address prefix w = ([], Raise AttributeError w).
Proof.
  intros Hload Hv.
  assert (Hinit : __init__ name address prefix w = ([], Raise AttributeError w)).
  { unfold __init__. rewrite bind_unfold, Hload. cbv beta iota.
    rewrite bind_unfold.
    destruct (or_else_not_dict name v "company_name" (VStr "Default Company") w Hv)
      as [-> | [s1 ->]]; [done |]. cbv beta iota.
    rewrite bind_unfold.
    destruct (or_else_not_dict address v "company_address" (VStr "Default Address") w Hv)
      as [-> | [s2 ->]]; [done |]. cbv beta iota.
    rewrite bind_unfold.
    destruct (or_else_not_dict prefix v "invoice_prefix" (VStr "INV") w Hv)
      as [-> | [s3 ->]]; [done |]. cbv beta iota.
    rewrite bind_unfold. by rewrite py_get_not_dict. }
  split; [exact Hinit |]. unfold main. by rewrite bind_unfold, Hinit.
Qed.

(** X7: a stored counter that is not a number ([null], a string, a list,
    an object) makes [get_next_invoice_number] raise [TypeError] before
    anything is written, so a cycle with a blank number ends there; a
    counter that is a float is incremented and saved, and only then does
    formatting it raise [ValueError]. *)
Theorem unusable_counter (self : InvoiceGenerator) (w : world) :
  (not_a_number (last_invoice_number self) ->
     get_next_invoice_number self w = ([], Raise TypeError w)
     /\ forall rest, stdin w = "" :: rest ->
          generate_invoice self w
          = ([Input NUMBER_PROMPT ""], Raise TypeError (after_lines rest w)))
  /\ (forall f, last_invoice_number self = VFloat f ->
        let saved :=
          TextFile (dumps (VDict [("company_name", company_name self);
                                  ("company_address", company_address self);
                                  ("invoice_prefix", invoice_prefix self);
                                  ("last_invoice_number", VFloat (f + 1))])) in
        get_next_invoice_number self w
        = ([WriteFile CONFIG_FILE saved],
           Raise ValueError
             {| stdin := stdin w; files := <[CONFIG_FILE := saved]> (files w);
                today := today w |})).
Proof.
  split.
  - intros Hbad.
    assert (Hnext : forall w0, get_next_invoice_number self w0 = ([], Raise TypeError w0)).
    { intros w0. unfold get_next_invoice_number.
      by destruct (last_invoice_number self). }
    split; [apply Hnext |]. intros rest Hw.
    rewrite generate_invoice_eq, bind_unfold, (input_line _ "" rest w Hw).
    cbv beta iota. cbn [truthy]. by rewrite bind_unfold, Hnext.
  - intros f Hf saved. unfold get_next_invoice_number. rewrite Hf. reflexivity.
Qed.

(** X8: what a session saves when it generates a number is what the next
    run starts from: initialization without overrides then yields the same
    company name, address and prefix, overrides of this run included, and
    the incremented counter; the mapping it loads has these four keys and
    no other. *)
Theorem saved_fields_start_the_next_run (self : InvoiceGenerator) (n : Z) (w : world) :
  simple (company_name self) ->
  simple (company_address self) ->
  simple (invoice_prefix self) ->
  last_invoice_number self = VInt n ->
  let w' := world_of (snd (get_next_invoice_number self w)) in
  __init__ None None None w'
  = ([], Ret {| company_name := company_name self;
                company_address := company_address self;
                invoice_prefix := invoice_prefix self;
                config := VDict [("company_name", company_name self);
                                 ("company_address", company_address self);
                                 ("invoice_prefix", invoice_prefix self);
                                 ("last_invoice_number", VInt (n + 1))];
                last_invoice_number := VInt (n + 1) |} w').
Proof.
  intros H1 H2 H3 Hn w'. subst w'.
  rewrite (get_next_invoice_number_run self n w Hn). cbn [snd world_of].
  fold (with_counter self (n + 1)). fold (persisted self (n + 1)).
  set (w' := {| stdin := stdin w; files := _; today := today w |}).
  assert (Hload : load_config w' = ([], Ret (config_record (with_counter self (n + 1))) w')).
  { unfold load_config. subst w'. cbn [files].
    by rewrite lookup_insert_eq, loads_persisted. }
  unfold __init__. rewrite bind_unfold, Hload. reflexivity.
Qed.

End Startup.

(** ** A whole run *)

Section WholeProgram.
Context `{PyBuiltins}.

Lemma obeys_init (P : event -> Prop) (name address prefix : option string) :
  obeys P (__init__ name address prefix).
Proof. unfold __init__. frame. Qed.

(** Initialization shows, reads and writes nothing. *)
Lemma init_silent (name address prefix : option string) (w : world) :
  fst (__init__ name address prefix w) = []
  /\ world_of (snd (__init__ name address prefix w)) = w.
Proof.
  destruct (obeys_init (fun _ => False) name address prefix w) as [Ht Hw].
  destruct (fst (__init__ name address prefix w)) as [|e t] eqn:E.
  - by rewrite Hw.
  - by inversion Ht.
Qed.

Lemma obeys_cycle (P : event -> Prop) (self : InvoiceGenerator) :
  (forall t, P (Out t)) ->
  (forall p l, P (Input p l)) ->
  (forall text, P (WriteFile CONFIG_FILE (TextFile text))) ->
  (forall number page, P (WriteFile (pdf_name number) (PdfFile page))) ->
  obeys P (generate_invoice self).
Proof.
  intros HO HI HC HP. unfold generate_invoice, create_pdf. frame_program.
  all: first [by apply obeys_get_next_invoice_number | apply HP].
Qed.

Lemma obeys_main_loop (P : event -> Prop) (fuel : nat) :
  (forall t, P (Out t)) ->
  (forall p l, P (Input p l)) ->
  (forall text, P (WriteFile CONFIG_FILE (TextFile text))) ->
  (forall number page, P (WriteFile (pdf_name number) (PdfFile page))) ->
  forall self, obeys P (main_loop fuel self).
Proof.
  intros HO HI HC HP. induction fuel as [|fuel IH]; intros self; [by intros w |].
  cbn [main_loop]. apply obeys_bind; [by apply obeys_cycle | intros self'].
  apply obeys_bind; [by apply obeys_input | intros choice].
  destruct (String.eqb _ _); [apply IH | by apply obeys_print].
Qed.

Lemma obeys_main (P : event -> Prop) (name address prefix : option string) :
  (forall t, P (Out t)) ->
  (forall p l, P (Input p l)) ->
  (forall text, P (WriteFile CONFIG_FILE (TextFile text))) ->
  (forall number page, P (WriteFile (pdf_name number) (PdfFile page))) ->
  obeys P (main name address prefix).
Proof.
  intros HO HI HC HP. unfold main.
  apply obeys_bind; [apply obeys_init | intros self].
  apply obeys_bounded_by_input. intros fuel. by apply obeys_main_loop.
Qed.



End WholeProgram.

Section RunShape.
Context `{PyBuiltins}.

(** A cycle that returns has read an answer to the number prompt first. *)
Lemma generate_invoice_starts (self self' : InvoiceGenerator) (w w' : world)
    (t : list event) :
  generate_invoice self w = (t, Ret self' w') ->
  exists typed t', t = Input NUMBER_PROMPT typed :: t'.
Proof.
  rewrite generate_invoice_eq, bind_unfold.
  destruct (stdin w) as [|typed rest] eqn:Hw; [by rewrite input_eof |].
  rewrite (input_line _ typed rest w Hw). cbv beta iota.
  match goal with |- context [let (_, _) := ?x in _] => destruct x as [t2 o] end.
  intros [= <- _]. by exists typed, t2.
Qed.

(** A cycle writes the configuration only after a blank answer to the
    number prompt. *)
Lemma generate_invoice_typed_spares (self : InvoiceGenerator) (w : world) :
  autogenerated (fst (generate_invoice self w)) = O ->
  Forall (spares CONFIG_FILE) (fst (generate_invoice self w)).
Proof.
  destruct (stdin w) as [|typed rest] eqn:Hw.
  { rewrite (generate_invoice_eof self w Hw). by repeat constructor. }
  destruct (decide (typed = "")) as [-> | Hne].
  - rewrite generate_invoice_eq, bind_unfold, (input_line _ "" rest w Hw).
    cbv beta iota.
    match goal with |- context [let (_, _) := ?x in _] => destruct x as [t2 o] end.
    cbn [fst app autogenerated]. by rewrite String.eqb_refl.
  - rewrite (generate_invoice_supplied self w typed rest Hw Hne). cbn [fst].
    intros _. constructor; [done |].
    apply body_event_spares, obeys_invoice_body.
Qed.

Lemma main_loop_typed_spares (fuel : nat) :
  forall (self : InvoiceGenerator) (w : world),
    autogenerated (fst (main_loop fuel self w)) = O ->
    Forall (spares CONFIG_FILE) (fst (main_loop fuel self w)).
Proof.
  induction fuel as [|fuel IH]; intros self w; [by constructor |].
  cbn [main_loop]. rewrite fst_bind, autogenerated_app.
  intros Hauto. apply Forall_app. split.
  - apply generate_invoice_typed_spares. lia.
  - destruct (snd (generate_invoice self w)) as [self' w1 | e w1 | l w1]; [| done..].
    revert Hauto. rewrite fst_bind, autogenerated_app. intros Hauto.
    apply Forall_app. split.
    + unfold input. by destruct (stdin w1); repeat constructor.
    + destruct (snd (input AGAIN_PROMPT w1)) as [choice w2 | e w2 | l w2]; [| done..].
      destruct (String.eqb _ _); [apply IH; lia | by repeat constructor].
Qed.

(** X10: a run in which no invoice number is auto-generated never writes
    [config.json], whatever the file holds and whatever overrides are
    given: the file is at the end what it was at the start, so overrides
    are saved only by generating a number. *)
Theorem typed_run_never_saves (name address prefix : option string) (w : world) :
  let tr := fst (main name address prefix w) in
  let w' := world_of (snd (main name address prefix w)) in
  autogenerated tr = O ->
  config_writes tr = []
  /\ (forall f, ~ In (WriteFile CONFIG_FILE f) tr)
  /\ files w' !! CONFIG_FILE = files w !! CONFIG_FILE.
Proof.
  intros tr w' Hauto.
  assert (Hs : Forall (spares CONFIG_FILE) tr).
  { subst tr. revert Hauto. unfold main. rewrite fst_bind, autogenerated_app.
    destruct (init_silent name address prefix w) as [-> _]. cbn [app autogenerated].
    destruct (snd (__init__ name address prefix w)) as [self w1 | e w1 | l w1];
      [| done..].
    apply main_loop_typed_spares. }
  destruct (obeys_main (fun _ => True) name address prefix) with (w := w) as [_ Hw];
    try done.
  fold tr in Hw. fold w' in Hw. split; [| split].
  - clear -Hs. induction Hs as [|e t He Ht IH]; [done |].
    destruct e as [o|p l|n [text|page]]; simpl in *; auto.
    by apply String.eqb_neq in He as ->.
  - intros f Hin. rewrite Forall_forall in Hs.
    by apply (Hs _ (proj2 (list_elem_of_In _ _) Hin)).
  - rewrite Hw. by apply replay_spares.
Qed.

Lemma main_loop_ends (fuel : nat) :
  forall (self : InvoiceGenerator) (w w' : world) (tr : list event),
    main_loop fuel self w = (tr, Ret tt w') ->
    (exists typed tr1, tr = Input NUMBER_PROMPT typed :: tr1)
    /\ exists tr0 c,
         tr = tr0 ++ [Input AGAIN_PROMPT c; printed GOODBYE]
         /\ lower (strip c) <> "yes".
Proof.
  induction fuel as [|fuel IH]; intros self w w' tr; [done |].
  cbn [main_loop]. rewrite bind_unfold.
  destruct (generate_invoice self w) as [t1 [self' w1 | e w1 | l w1]] eqn:Hg; [| done..].
  destruct (generate_invoice_starts _ _ _ _ _ Hg) as (typed & t1' & ->).
  rewrite bind_unfold.
  destruct (stdin w1) as [|choice rest] eqn:Hw1; [by rewrite input_eof |].
  rewrite (input_line _ choice rest w1 Hw1). cbv beta iota.
  destruct (String.eqb (lower (strip choice)) "yes") eqn:Hyes.
  - specialize (IH self' (after_lines rest w1) w').
    destruct (main_loop fuel self' _) as [t3 o3]. intros [= <- ->].
    destruct (IH t3 eq_refl) as [_ (tr0 & c & -> & Hc)].
    split; [by eexists _, _ |].
    exists ((Input NUMBER_PROMPT typed :: t1') ++ [Input AGAIN_PROMPT choice] ++ tr0), c.
    split; [by rewrite <- !app_assoc | done].
  - cbn [print]. intros [= <- _].
    split; [by eexists _, _ |].
    exists (Input NUMBER_PROMPT typed :: t1'), choice.
    split; [done | by apply String.eqb_neq].
Qed.

(** X11: a run returns only by the user's choice: its trace starts with
    an answer to the number prompt, so at least one cycle is run, and ends
    with an answer to the last question that does not strip and lowercase
    to yes, followed by the goodbye; input that ends any earlier ends the
    run with an exception instead. *)
Theorem run_ends_with_goodbye (name address prefix : option string) (w w' : world)
    (tr : list event) :
  main name address prefix w = (tr, Ret tt w') ->
  (exists typed tr1, tr = Input NUMBER_PROMPT typed :: tr1)
  /\ exists tr0 c,
       tr = tr0 ++ [Input AGAIN_PROMPT c; printed GOODBYE]
       /\ lower (strip c) <> "yes".
Proof.
  unfold main. rewrite bind_unfold.
  destruct (init_silent name address prefix w) as [Ht _].
  destruct (__init__ name address prefix w) as [t0 [self w1 | e w1 | l w1]]; [| done..].
  cbn [fst] in Ht. subst t0. unfold bounded_by_input.
  destruct (main_loop _ self w1) as [t o] eqn:Hloop. intros [= <- ->].
  by apply (main_loop_ends _ _ _ _ _ Hloop).
Qed.

(** Before the confirmation is answered no page is written. *)
Lemma unconfirmed_bind {A B} (m : M A) (k : A -> M B) :
  obeys before_confirmation m ->
  (forall a w, answered CONFIRM_PROMPT (fst (k a w)) = None ->
               Forall (fun e => ~ writes_pdf e) (fst (k a w))) ->
  forall w, answered CONFIRM_PROMPT (fst ((m ≫= k) w)) = None ->
            Forall (fun e => ~ writes_pdf e) (fst ((m ≫= k) w)).
Proof.
  intros Hm Hk w. rewrite fst_bind. destruct (Hm w) as [Ht _].
  rewrite (answered_app_none _ _ _ (answered_before_confirmation _ Ht)).
  intros Hnone. apply Forall_app. split; [by apply before_confirmation_no_pdf |].
  destruct (snd (m w)) as [a w1 | e w1 | l w1]; [by apply Hk | done | done].
Qed.

Lemma unconfirmed_cycle (self : InvoiceGenerator) (w : world) :
  answered CONFIRM_PROMPT (fst (generate_invoice self w)) = None ->
  Forall (fun e => ~ writes_pdf e) (fst (generate_invoice self w)).
Proof.
  revert w. unfold generate_invoice.
  apply unconfirmed_bind; [solve [frame_program] | intros typed].
  apply unconfirmed_bind.
  { destruct (truthy typed); [frame | by apply obeys_get_next_invoice_number]. }
  intros [self' number].
  repeat (apply unconfirmed_bind; [solve [frame_program] | intros ?]).
  intros w. rewrite fst_bind. unfold input.
  destruct (stdin w) as [|line rest]; cbn [fst snd app answered].
  - intros _. repeat constructor. by intros [].
  - by rewrite String.eqb_refl.
Qed.

(** X12: a cycle writes a page only after the confirmation was answered
    with a line that strips and lowercases to yes; a cycle that ends
    earlier, on a malformed quantity or price or at the end of the input,
    leaves no page behind. *)
Theorem pdf_only_after_yes (self : InvoiceGenerator) (w : world) (name : string)
    (page : pdf) :
  In (WriteFile name (PdfFile page)) (fst (generate_invoice self w)) ->
  exists c,
    answered CONFIRM_PROMPT (fst (generate_invoice self w)) = Some c
    /\ lower (strip c) = "yes".
Proof.
  intros Hin.
  assert (Hno : ~ Forall (fun e => ~ writes_pdf e) (fst (generate_invoice self w))).
  { intros Hall. rewrite Forall_forall in Hall.
    by apply (Hall _ (proj2 (list_elem_of_In _ _) Hin)). }
  destruct (answered CONFIRM_PROMPT (fst (generate_invoice self w))) as [c |] eqn:Hc.
  - exists c. split; [done |].
    destruct (decide (lower (strip c) = "yes")) as [Hyes | Hne]; [done |].
    destruct Hno. by apply (cancel_safe_generate_invoice self w c).
  - destruct Hno. by apply unconfirmed_cycle.
Qed.


End RunShape.

Section Transcript.
Context `{PyBuiltins}.

(** X14: the console protocol of a cycle with a typed number on
    well-formed lines: the number, customer name, customer address and
    date are asked in this order, then description, quantity and price of
    each item and the description that ends them; the summary is shown;
    the confirmation is asked last, and answered by the page and a success
    message or by the cancellation message. Nothing else is shown, read or
    written. *)
Theorem cycle_transcript (self : InvoiceGenerator) (w : world)
    (typed name address date : string) (entries : list (string * string * string))
    (last confirm : string) (rest : list string) (items : list item) (xs : list float) :
  stdin w = typed :: name :: address :: date
              :: entry_lines entries ++ last :: confirm :: rest ->
  typed <> "" ->
  read_entries entries = Some items ->
  lower last = "done" ->
  products items = Some xs ->
  fst (generate_invoice self w)
  = Input NUMBER_PROMPT typed
      :: Input "Enter Customer Name: " name
      :: Input "Enter Customer Address: " address
      :: Input "Enter Invoice Date (YYYY-MM-DD) [Press Enter for today]: " date
      :: entry_events entries
      ++ Input DESCRIPTION_PROMPT last
      :: summary_events typed name address (date_or_today date w) items xs
      ++ Input CONFIRM_PROMPT confirm
      :: closing self typed name address (date_or_today date w) items xs confirm.
Proof.
  intros Hw Hne Hread Hlast Hxs.
  rewrite (generate_invoice_supplied self w typed _ Hw Hne). cbn [fst].
  by rewrite (invoice_body_pair self typed _ name address date entries last confirm rest
                items xs).
Qed.

(** X15: a generated number is spent however the cycle ends: after a
    blank answer to the number prompt the file holds the counter plus one,
    whether the invoice is then confirmed, cancelled, or the cycle ends with
    an exception; the next run starts from that counter. *)
Theorem generated_number_is_spent (self : InvoiceGenerator) (w : world) (n : Z)
    (rest : list string) :
  stdin w = "" :: rest ->
  last_invoice_number self = VInt n ->
  let w' := world_of (snd (generate_invoice self w)) in
  files w' !! CONFIG_FILE = Some (TextFile (persisted self (n + 1)))
  /\ (simple (company_name self) -> simple (company_address self) ->
      simple (invoice_prefix self) -> starts_from w' (n + 1)).
Proof.
  intros Hw Hn w'.
  assert (Hfile : files w' !! CONFIG_FILE = Some (TextFile (persisted self (n + 1)))).
  { subst w'. rewrite (generate_invoice_blank self w n rest Hw Hn). cbn [snd].
    match goal with |- context [invoice_body ?s ?number ?w1] =>
      destruct (obeys_invoice_body s number w1) as [Hb Hw1]
    end.
    rewrite Hw1, (replay_spares _ _ _ (body_event_spares _ Hb)).
    cbn [files]. apply lookup_insert_eq. }
  split; [exact Hfile |]. intros H1 H2 H3. by apply (load_config_persisted self).
Qed.

(** X16: with no line to read, the script shows the number prompt and
    ends with [EOFError]; nothing is written. *)
Theorem run_without_input (name address prefix : option string)
    (kvs : list (string * value)) (w : world) :
  load_config w = ([], Ret (VDict kvs) w) ->
  stdin w = [] ->
  main name address prefix w = ([Out NUMBER_PROMPT], Raise EOFError w).
Proof.
  intros Hload Hw. unfold main.
  rewrite bind_unfold, (init_run _ _ _ kvs w Hload). cbv beta iota.
  unfold bounded_by_input. rewrite Hw. cbn [length main_loop].
  by rewrite bind_unfold, generate_invoice_eof.
Qed.

End Transcript.

(** ** Pages by number, and the end of every run *)



Section Pages.
Context `{PyBuiltins}.


(** X18: on a finite input every run ends: each turn of the item loop and
    of the loop of the script reads at least one line, so neither goes
    round more often than there are lines, and a cycle that returns has
    read at least one. *)
Theorem script_ends_on_finite_input (name address prefix : option string) (w : world) :
  (forall w', snd (main name address prefix w) <> Unmodelled FuelExhausted w')
  /\ (forall w0 w',
        snd (bounded_by_input (fun fuel => collect_items fuel []) w0)
        <> Unmodelled FuelExhausted w')
  /\ (forall self self' w0 w',
        snd (generate_invoice self w0) = Ret self' w' ->
        (length (stdin w') < length (stdin w0))%nat).
Proof.
  split; [| split].
  - intros w' Hout. by pose proof (main_modelled _ _ _ _ _ _ Hout).
  - intros w0 w'. apply collect_items_never_exhausts. lia.
  - intros self self' w0 w'. apply generate_invoice_reads.
Qed.

End Pages.

(** ** The statements at concrete inputs *)

(** A fresh session numbers its first invoice INV0001 and saves counter 1. *)
Lemma next_invoice_number_witness :
  snd (get_next_invoice_number fresh_session (empty_world []))
  = Ret (with_counter fresh_session 1, "INV0001")
      {| stdin := []; today := "2026-01-31";
         files := {[ CONFIG_FILE := TextFile (persisted fresh_session 1) ]} |}
  /\ (4 <= String.length (format_04d (0 + 1)))%nat.
Proof.
  destruct (next_invoice_number_spec fresh_session "INV" 0 (empty_world []))
    as [Hrun Hpad]; [reflexivity | reflexivity |].
  split; [rewrite Hrun; vm_compute; reflexivity |].
  destruct Hpad as (_ & Hlen & _); [lia | exact Hlen].
Defined.

(** An override on the command line wins over the stored company name. *)
Lemma init_precedence_witness :
  snd (__init__ (Some "Override Co") None None (stored_world []))
  = Ret {| company_name := VStr "Override Co";
           company_address := VStr "1 Stored Street";
           invoice_prefix := VStr "ST";
           config := typed_config "Stored Co" "1 Stored Street" "ST" 41;
           last_invoice_number := VInt 41 |} (stored_world [])
  /\ resolve (Some "Override Co") (Some (VStr "Stored Co")) "Default Company"
     = spec_resolve (Some "Override Co") (Some (VStr "Stored Co")) "Default Company".
Proof.
  destruct (init_precedence (Some "Override Co") None None
              [("company_name", VStr "Stored Co");
               ("company_address", VStr "1 Stored Street");
               ("invoice_prefix", VStr "ST"); ("last_invoice_number", VInt 41)]
              (stored_world []))
    as [Hrun Hspec]; [vm_compute; reflexivity |].
  split; [rewrite Hrun; reflexivity | apply Hspec; discriminate].
Defined.

(** One auto-generated number in a first run: counter 1 is written, once. *)
Lemma counter_only_increases_witness :
  map counter_of_text (config_writes (fst (main None None None (empty_world cancelled_session))))
  = [Some (VInt 1)]
  /\ counter_in (world_of (snd (main None None None (empty_world cancelled_session))))
     = Some (VInt 1).
Proof.
  assert (Hstart : starts_from (empty_world cancelled_session) 0).
  { exists []. split; [reflexivity | split; [constructor | reflexivity]]. }
  destruct (counter_only_increases None None None 0 (empty_world cancelled_session) Hstart)
    as (Hwrites & Hend & _).
  assert (Hk : autogenerated (fst (main None None None (empty_world cancelled_session))) = 1%nat)
    by (vm_compute; reflexivity).
  rewrite Hk in Hwrites, Hend. split; [exact Hwrites | exact Hend].
Defined.

(** A cancelled invoice with an auto-generated number: no PDF, counter 1
    kept in the file. *)
Lemma cancelled_invoice_witness :
  Forall (fun e => ~ writes_pdf e)
    (fst (generate_invoice fresh_session (empty_world cancelled_session)))
  /\ files (world_of (snd (generate_invoice fresh_session (empty_world cancelled_session))))
       !! CONFIG_FILE
     = Some (TextFile (persisted fresh_session 1)).
Proof.
  destruct (cancelled_invoice_keeps_increment fresh_session
              (empty_world cancelled_session) "no")
    as (Hpdf & _ & Hkept); [vm_compute; reflexivity | vm_compute; discriminate |].
  split; [exact Hpdf |].
  destruct (Hkept 0 (tail cancelled_session)) as [Hfile _]; [reflexivity | reflexivity |].
  exact Hfile.
Defined.

(** An empty directory: the empty mapping and the default session. *)
Lemma defaults_without_config_witness :
  load_config (empty_world []) = ([], Ret (VDict []) (empty_world []))
  /\ __init__ None None None (empty_world []) = ([], Ret fresh_session (empty_world [])).
Proof. apply (defaults_without_config (empty_world [])). reflexivity. Defined.

(** A quantity that is not a number ends the cycle and the script with
    [ValueError]; a well-formed item is collected. *)
Lemma item_loop_witness :
  (snd (generate_invoice fresh_session
          (empty_world ["X1"; "Bob"; "1 Main Street"; ""; "widget"; "two"]))
   = Raise ValueError (empty_world [])
   /\ snd (main_loop 1 fresh_session
             (empty_world ["X1"; "Bob"; "1 Main Street"; ""; "widget"; "two"]))
      = Raise ValueError (empty_world []))
  /\ snd (collect_items 2 [] (empty_world ["widget"; "2"; "10"; "Done"; "yes"]))
     = Ret [{| desc := "widget"; qty := 2; price := 10 |}] (empty_world ["yes"]).
Proof.
  split.
  - apply (proj2 (proj2 (item_loop_spec 0 []
             (empty_world ["X1"; "Bob"; "1 Main Street"; ""; "widget"; "two"])))
           fresh_session "X1" "Bob" "1 Main Street" "" ["widget"; "two"]);
      [reflexivity | discriminate | vm_compute; reflexivity].
  - apply (proj1 (proj2 (item_loop_spec 1 []
             (empty_world ["widget"; "2"; "10"; "Done"; "yes"])))
           [("widget", "2", "10")] _ "Done" ["yes"]);
      [vm_compute; reflexivity | reflexivity | reflexivity | simpl; lia].
Defined.

(** A typed invoice number leaves the stored configuration as it was. *)
Lemma supplied_number_witness :
  files (world_of (snd (generate_invoice fresh_session
                          (stored_world ["X1"; "Bob"; "1 Main Street"; ""; "done"; "yes"]))))
    !! CONFIG_FILE
  = files (stored_world []) !! CONFIG_FILE.
Proof.
  destruct (supplied_number_leaves_config fresh_session
              (stored_world ["X1"; "Bob"; "1 Main Street"; ""; "done"; "yes"])
              "X1" ["Bob"; "1 Main Street"; ""; "done"; "yes"])
    as (_ & Hfile & _); [reflexivity | discriminate |].
  exact Hfile.
Defined.

(** The word with a space on either side is collected as an item. *)
Lemma no_item_is_the_sentinel_witness :
  Forall (fun it => PyStr.lower (desc it) <> "done")
    [{| desc := " done "; qty := 3; price := 4 |}].
Proof.
  apply (no_item_is_the_sentinel _ (empty_world [" done "; "3"; "4"; "Done"])
           (empty_world [])
           (fst (bounded_by_input (fun fuel => collect_items fuel [])
                   (empty_world [" done "; "3"; "4"; "Done"])))).
  vm_compute. reflexivity.
Defined.

(** ** The further statements at concrete inputs *)


(** The summary of one widget and the page drawn from it. *)
Lemma summary_shows_the_page_rows_witness :
  exists page,
    fst (create_pdf fresh_session "X1" "Bob" "1 Main Street" "2026-01-31" [widget]
           (VFloat 20) (empty_world []))
    = [WriteFile (pdf_name "X1") (PdfFile page)]
    /\ [printed " - widget: 2 x <float> = <float>"]
       = (fun row => printed (" - " +:+ row.2)) <$> take 1 (drop 6 page)
    /\ last page = Some (total_row 1 (VFloat 20)).
Proof.
  apply (summary_shows_the_page_rows fresh_session "X1" "Bob" "1 Main Street" "2026-01-31"
           [widget] (VFloat 20) _ (empty_world []) (empty_world []) (empty_world [])).
  vm_compute. reflexivity.
Defined.



(** An empty [config.json] ends the script at once. *)
Lemma malformed_config_is_fatal_witness :
  main None None None (config_world "" typed_session)
  = ([], Raise JSONDecodeError (config_world "" typed_session))
  /\ main None None None (config_world "{" typed_session)
     = ([], Raise JSONDecodeError (config_world "{" typed_session)).
Proof.
  split.
  - apply (proj2 (malformed_config_is_fatal None None None (config_world "" typed_session)
                    "" eq_refl)).
    reflexivity.
  - apply (proj1 (malformed_config_is_fatal None None None (config_world "{" typed_session)
                    "{" eq_refl)).
    vm_compute. reflexivity.
Defined.

(** A [config.json] that holds a list ends the script at once, even with
    the three overrides given. *)
Lemma non_object_config_is_fatal_witness :
  main (Some "A Co") (Some "1 A Street") (Some "A") (config_world "[]" typed_session)
  = ([], Raise AttributeError (config_world "[]" typed_session)).
Proof.
  apply (non_object_config_is_fatal (Some "A Co") (Some "1 A Street") (Some "A")
           (config_world "[]" typed_session) (VList []));
    [vm_compute; reflexivity | exact I].
Defined.

(** A counter stored as a string, and one stored as 2.5. *)
Lemma unusable_counter_witness :
  get_next_invoice_number (session_counting (VStr "5")) (empty_world [])
  = ([], Raise TypeError (empty_world []))
  /\ snd (get_next_invoice_number (session_counting (VFloat 2.5)) (empty_world []))
     = Raise ValueError
         {| stdin := [];
            files := <[CONFIG_FILE :=
                        TextFile (dumps (config_record (session_counting (VFloat 3.5))))]> ∅;
            today := "2026-01-31" |}.
Proof.
  split.
  - apply (proj1 (unusable_counter (session_counting (VStr "5")) (empty_world []))).
    exact I.
  - rewrite (proj2 (unusable_counter (session_counting (VFloat 2.5)) (empty_world []))
               2.5%float eq_refl).
    vm_compute. reflexivity.
Defined.

(** The run after a first generated number starts from counter 1. *)
Lemma saved_fields_start_the_next_run_witness :
  snd (__init__ None None None
         (world_of (snd (get_next_invoice_number fresh_session (empty_world [])))))
  = Ret {| company_name := VStr "Default Company";
           company_address := VStr "Default Address";
           invoice_prefix := VStr "INV";
           config := typed_config "Default Company" "Default Address" "INV" 1;
           last_invoice_number := VInt 1 |}
      (world_of (snd (get_next_invoice_number fresh_session (empty_world [])))).
Proof.
  rewrite (saved_fields_start_the_next_run fresh_session 0 (empty_world []) I I I eq_refl).
  reflexivity.
Defined.


(** A run with a typed number and an override leaves the stored
    configuration as it was. *)
Lemma typed_run_never_saves_witness :
  files (world_of (snd (main (Some "Override Co") None None (stored_world typed_session))))
    !! CONFIG_FILE
  = files (stored_world typed_session) !! CONFIG_FILE.
Proof.
  apply (typed_run_never_saves (Some "Override Co") None None (stored_world typed_session)).
  vm_compute. reflexivity.
Defined.

(** A run of one invoice ends with the answer no and the goodbye. *)
Lemma run_ends_with_goodbye_witness :
  exists tr0 c,
    fst (main None None None (empty_world typed_session))
    = tr0 ++ [Input AGAIN_PROMPT c; printed GOODBYE]
    /\ lower (strip c) <> "yes".
Proof.
  apply (run_ends_with_goodbye None None None (empty_world typed_session)
           {| stdin := [];
              files := <[pdf_name "X1" := PdfFile (widget_page fresh_session "X1")]> ∅;
              today := "2026-01-31" |}).
  vm_compute. reflexivity.
Defined.

(** The page of a confirmed invoice comes after the answer yes. *)
Lemma pdf_only_after_yes_witness :
  exists c,
    answered CONFIRM_PROMPT (fst (generate_invoice fresh_session (empty_world typed_session)))
    = Some c
    /\ lower (strip c) = "yes".
Proof.
  apply (pdf_only_after_yes fresh_session (empty_world typed_session) (pdf_name "X1")
           (widget_page fresh_session "X1")).
  vm_compute. repeat first [left; reflexivity | right].
Defined.


(** What is shown, read and written for the widget invoice. *)
Lemma cycle_transcript_witness :
  fst (generate_invoice fresh_session (empty_world typed_session))
  = [Input NUMBER_PROMPT "X1";
     Input "Enter Customer Name: " "Bob";
     Input "Enter Customer Address: " "1 Main Street";
     Input "Enter Invoice Date (YYYY-MM-DD) [Press Enter for today]: " "";
     Input DESCRIPTION_PROMPT "widget"; Input QUANTITY_PROMPT "2"; Input PRICE_PROMPT "10";
     Input DESCRIPTION_PROMPT "Done";
     printed (nl +:+ "Invoice Summary:");
     printed "Invoice Number: X1";
     printed "Customer: Bob, 1 Main Street";
     printed "Date: 2026-01-31";
     printed "Items:";
     printed " - widget: 2 x <float> = <float>";
     printed "Total Amount: <float>";
     Input CONFIRM_PROMPT " YES ";
     WriteFile (pdf_name "X1") (PdfFile (widget_page fresh_session "X1"));
     printed "Invoice X1 generated successfully!"].
Proof.
  rewrite (cycle_transcript fresh_session (empty_world typed_session)
             "X1" "Bob" "1 Main Street" "" [("widget", "2", "10")] "Done" " YES " ["no"]
             [widget] [20%float]);
    [reflexivity | reflexivity | discriminate | vm_compute; reflexivity | reflexivity
    | vm_compute; reflexivity].
Defined.

(** A generated number is spent by a cycle that ends on a quantity that is
    not a number. *)
Lemma generated_number_is_spent_witness :
  let w' := world_of (snd (generate_invoice fresh_session
                             (empty_world [""; "Bob"; "1 Main Street"; ""; "widget"; "two"]))) in
  files w' !! CONFIG_FILE = Some (TextFile (persisted fresh_session 1))
  /\ starts_from w' 1.
Proof.
  intros w'.
  destruct (generated_number_is_spent fresh_session
              (empty_world [""; "Bob"; "1 Main Street"; ""; "widget"; "two"]) 0
              ["Bob"; "1 Main Street"; ""; "widget"; "two"] eq_refl eq_refl)
    as [Hfile Hnext].
  split; [exact Hfile | exact (Hnext I I I)].
Defined.

(** The script with nothing to read. *)
Lemma run_without_input_witness :
  main None None None (empty_world [])
  = ([Out NUMBER_PROMPT], Raise EOFError (empty_world [])).
Proof.
  apply (run_without_input None None None [] (empty_world [])); reflexivity.
Defined.


(** The widget invoice reads nine of the ten lines typed. *)
Lemma script_ends_on_finite_input_witness :
  (length (stdin (world_of (snd (generate_invoice fresh_session
                                   (empty_world typed_session)))))
   < length typed_session)%nat.
Proof.
  assert (Hrun : snd (generate_invoice fresh_session (empty_world typed_session))
                 = Ret fresh_session
                     {| stdin := ["no"];
                        files := <[pdf_name "X1" :=
                                    PdfFile (widget_page fresh_session "X1")]> ∅;
                        today := "2026-01-31" |})
    by (vm_compute; reflexivity).
  rewrite Hrun.
  exact (proj2 (proj2 (script_ends_on_finite_input None None None (empty_world [])))
           fresh_session fresh_session (empty_world typed_session) _ Hrun).
Defined.
